(** * Hourly power prices: aggregation and report formatting (aura.py)

    A shallow embedding of the price pipeline of [aura.py]: the price
    formatter, the hour-range compressor, the sparkline renderer, the
    aggregation loop of [fetch_prices] and the two report builders.

    Python values are modelled as the interpreter has them: [float] is the
    kernel's binary64 ([PrimFloat]), [int] is [Z], [str] is a [string] of
    UTF-8 bytes, a [dict] is an association list in insertion order, and a
    raised exception is the [Raise] branch of [result]. *)

From Stdlib Require Import ZArith List String Ascii Bool Lia Floats.
From Stdlib Require Import Permutation Sorted FinFun.
Import ListNotations.

Set Warnings "-inexact-float,-register-all".
Local Open Scope Z_scope.

Infix "+++" := String.append (right associativity, at level 60).

(** ** Exceptions *)

Inductive exn : Type :=
| ValueError | TypeError | AttributeError | OverflowError
| ZeroDivisionError | IndexError | KeyError.

Inductive result (A : Type) : Type :=
| Return (a : A)
| Raise (e : exn).

Arguments Return {A} a.
Arguments Raise {A} e.

Definition bind {A B : Type} (r : result A) (k : A -> result B) : result B :=
  match r with
  | Return a => k a
  | Raise e => Raise e
  end.

Notation "x <- r ;; k" := (bind r (fun x => k))
  (at level 61, r at next level, right associativity).

(** [[f(x) for x in l]]: the first exception ends the comprehension. *)
Fixpoint mapM {A B : Type} (f : A -> result B) (l : list A) : result (list B) :=
  match l with
  | [] => Return []
  | x :: t => y <- f x ;; ys <- mapM f t ;; Return (y :: ys)
  end.

(** ** Strings *)

Module Str.

Definition ch (a : ascii) : string := String a EmptyString.

(** [c in s] for a one-character [c]. *)
Fixpoint contains (c : ascii) (s : string) : bool :=
  match s with
  | EmptyString => false
  | String a t => Ascii.eqb a c || contains c t
  end.

(** [s.rstrip(c)] for a one-character [c]. *)
Fixpoint rstrip (c : ascii) (s : string) : string :=
  match s with
  | EmptyString => EmptyString
  | String a t =>
      match rstrip c t with
      | EmptyString => if Ascii.eqb a c then EmptyString else ch a
      | r => String a r
      end
  end.

(** Every character of [s] satisfies [p]. *)
Fixpoint all (p : ascii -> bool) (s : string) : bool :=
  match s with
  | EmptyString => true
  | String a t => p a && all p t
  end.

(** [sep.join(l)]. *)
Fixpoint join (sep : string) (l : list string) : string :=
  match l with
  | [] => EmptyString
  | [s] => s
  | s :: t => s +++ sep +++ join sep t
  end.

(** [len(s)]: code points, that is the bytes that do not continue a
    UTF-8 sequence (a continuation byte is 10xxxxxx). *)
Fixpoint len (s : string) : nat :=
  match s with
  | EmptyString => O
  | String a t =>
      let n := nat_of_ascii a in
      if (Nat.leb 128 n && Nat.ltb n 192)%bool then len t else S (len t)
  end.

Fixpoint spaces (n : nat) : string :=
  match n with
  | O => EmptyString
  | S k => String " " (spaces k)
  end.

(** [format(s, "<w")]: left-aligned in a field of [w] code points. *)
Definition ljust (w : nat) (s : string) : string :=
  s +++ spaces (w - len s).

Definition is_digit (a : ascii) : bool :=
  let n := nat_of_ascii a in (Nat.leb 48 n && Nat.leb n 57)%bool.

Definition digit_val (a : ascii) : Z := Z.of_nat (nat_of_ascii a) - 48.

Definition digit_char (d : Z) : ascii := ascii_of_nat (Z.to_nat (48 + d)).

(** The [k] low decimal digits of [n], most significant first. *)
Fixpoint fixed_digits (k : nat) (n : Z) : string :=
  match k with
  | O => EmptyString
  | S k' => fixed_digits k' (n / 10) +++ ch (digit_char (n mod 10))
  end.

Fixpoint digits_acc (fuel : nat) (n : Z) (acc : string) : string :=
  match fuel with
  | O => acc
  | S f =>
      let acc' := String (digit_char (n mod 10)) acc in
      if n <? 10 then acc' else digits_acc f (n / 10) acc'
  end.

(** [str(n)] for [0 <= n]; a number has at most [log2 n + 1] digits. *)
Definition of_nonneg (n : Z) : string :=
  digits_acc (S (Z.to_nat (Z.log2 n))) n EmptyString.

(** [str(n)]. *)
Definition of_Z (n : Z) : string :=
  if n <? 0 then String "-" (of_nonneg (- n)) else of_nonneg n.

(** [format(n, "02d")]: the sign counts in the width. *)
Definition fmt02d (n : Z) : string :=
  if n <? 0 then of_Z n
  else if n <? 10 then String "0" (of_nonneg n) else of_nonneg n.

Definition is_space (a : ascii) : bool :=
  let n := nat_of_ascii a in
  (Nat.eqb n 32 || (Nat.leb 9 n && Nat.leb n 13))%bool.

Fixpoint lstrip_space (s : string) : string :=
  match s with
  | String a t => if is_space a then lstrip_space t else s
  | EmptyString => EmptyString
  end.

Fixpoint rstrip_space (s : string) : string :=
  match s with
  | EmptyString => EmptyString
  | String a t =>
      match rstrip_space t with
      | EmptyString => if is_space a then EmptyString else ch a
      | r => String a r
      end
  end.

(** Decimal digits with single underscores between them.
    [prev] tells whether the previous character was a digit. *)
Fixpoint parse_digits (acc : Z) (prev : bool) (s : string) : option Z :=
  match s with
  | EmptyString => if prev then Some acc else None
  | String a t =>
      if is_digit a then parse_digits (10 * acc + digit_val a) true t
      else if (Ascii.eqb a "_" && prev)%bool then
        match t with
        | String b _ => if is_digit b then parse_digits acc false t else None
        | EmptyString => None
        end
      else None
  end.

End Str.

(** [int(s)] on the ASCII grammar of integer literals: surrounding white
    space, an optional sign, decimal digits. *)
Definition py_int (s : string) : result Z :=
  let body := Str.rstrip_space (Str.lstrip_space s) in
  let parsed :=
    match body with
    | String "-" t => option_map Z.opp (Str.parse_digits 0 false t)
    | String "+" t => Str.parse_digits 0 false t
    | _ => Str.parse_digits 0 false body
    end in
  match parsed with
  | Some z => Return z
  | None => Raise ValueError
  end.

(** ** Sorting

    [sorted] is stable; on keys that are totally ordered its result is the
    stable insertion sort's. *)
Section Sorting.
Context {A : Type} (le : A -> A -> bool).

Fixpoint insert_sorted (x : A) (l : list A) : list A :=
  match l with
  | [] => [x]
  | y :: t => if le x y then x :: l else y :: insert_sorted x t
  end.

Definition py_sorted (l : list A) : list A :=
  fold_right insert_sorted [] l.

(** [sorted(l, reverse=True)] keeps equal elements in their first order. *)
Definition py_sorted_rev (l : list A) : list A :=
  rev (py_sorted (rev l)).
End Sorting.

(** ** Hour labels *)

Definition hour_label (h : Z) : string := Str.fmt02d h.

Definition hour_labels : list string := map (fun h => hour_label (Z.of_nat h)) (seq 0 24).

Definition is_hour_label (s : string) : bool :=
  existsb (String.eqb s) hour_labels.

(** The hour a label stands for. *)
Definition hour_of (s : string) : Z :=
  match py_int s with
  | Return h => h
  | Raise _ => 0
  end.

(** ** [_format_hour_ranges] *)

Definition render_range (start end_ : Z) : string :=
  if start =? end_ then Str.fmt02d start +++ ":00"
  else Str.fmt02d start +++ ":00-" +++ Str.fmt02d ((end_ + 1) mod 24) +++ ":00".

(** The [for i in range(1, len(hour_ints))] loop, on the state
    [(ranges, start, end)]. *)
Fixpoint ranges_loop (rest : list Z) (ranges : list string) (start end_ : Z)
  : list string * Z * Z :=
  match rest with
  | [] => (ranges, start, end_)
  | h :: rest' =>
      if h =? end_ + 1 then ranges_loop rest' ranges start h
      else ranges_loop rest' (ranges ++ [render_range start end_]) h h
  end.

Definition _format_hour_ranges (hours : list string) : result string :=
  match hours with
  | [] => Return EmptyString
  | _ =>
      ints <- mapM py_int hours ;;
      match py_sorted Z.leb ints with
      | [] => Raise IndexError
      | h0 :: rest =>
          let '(ranges, start, end_) := ranges_loop rest [] h0 h0 in
          Return (Str.join ", " (ranges ++ [render_range start end_]))
      end
  end.

(** ** Floats

    The exact value of a finite binary64 is [m * 2^e]; [Prim2SF] exposes
    the sign, [m] and [e]. Decimal renderings are computed from it. *)

Definition round_half_even_div (a b : Z) : Z :=
  let q := a / b in
  let r := a mod b in
  match 2 * r ?= b with
  | Lt => q
  | Gt => q + 1
  | Eq => if Z.even q then q else q + 1
  end.

(** [m * 2^e * 10^d] rounded to the nearest integer, ties to even. *)
Definition scaled_round (m : positive) (e : Z) (d : nat) : Z :=
  let a := Zpos m * 10 ^ Z.of_nat d in
  if 0 <=? e then a * 2 ^ e else round_half_even_div a (2 ^ (- e)).

Definition sign_str (s : bool) : string := if s then "-"%string else EmptyString.

(** [n / 10^d] written with [d] digits after the point. *)
Definition render_fixed (n : Z) (d : nat) : string :=
  let p := 10 ^ Z.of_nat d in
  Str.of_nonneg (n / p) +++
  match d with
  | O => EmptyString
  | _ => String "." (Str.fixed_digits d (n mod p))
  end.

(** [format(x, ".{d}f")]. *)
Definition format_fixed (x : float) (d : nat) : string :=
  match Prim2SF x with
  | S754_nan => "nan"%string
  | S754_infinity s => sign_str s +++ "inf"
  | S754_zero s => sign_str s +++ render_fixed 0 d
  | S754_finite s m e => sign_str s +++ render_fixed (scaled_round m e d) d
  end.

(** ** Binary64 values and rounding

    Every finite binary64 is a whole number of units of [2^emin], with
    [emin = -1074]; [Vz] and [Vf] give that number. [RND N D] is the
    value, in these units, of the binary64 nearest to the rational [N / D],
    ties to even: what an operation returns for an exact result [N / D]. *)

Definition digits (k : Z) : Z := Zdigits2 k.

Definition RND (N D : Z) : Z :=
  let sh := Z.max (digits (N / D) - 53) 0 in
  round_half_even_div N (D * 2 ^ sh) * 2 ^ sh.

Definition Vz (f : spec_float) : Z :=
  match f with
  | S754_finite s m e => (if s then -1 else 1) * (Zpos m * 2 ^ (e + 1074))
  | _ => 0
  end.

Definition is_fin (f : spec_float) : bool :=
  match f with
  | S754_zero _ | S754_finite _ _ _ => true
  | _ => false
  end.

(** Neither an infinity nor NaN. *)
Definition finite (x : float) : bool := is_fin (Prim2SF x).

Definition Vf (x : float) : Z := Vz (Prim2SF x).

(** Where [N / D] lies between two integers, as [SpecFloat] records it. *)
Definition loc_of (N D : Z) : location :=
  if N mod D =? 0 then loc_Exact else loc_Inexact (2 * (N mod D) ?= D).

(** [rec] holds the integer part of [N / D] and where the rest lies. *)
Definition located (rec : shr_record) (N D : Z) : Prop :=
  shr_m rec = N / D /\ loc_of_shr_record rec = loc_of N D.

(** [rounds_to f R]: the non-negative result [f] stands for [R] units of
    [2^emin], or is the infinity of a value too large for the format. *)
Definition rounds_to (f : spec_float) (R : Z) : Prop :=
  match f with
  | S754_zero _ => R = 0
  | S754_finite false m e => -1074 <= e /\ Zpos m * 2 ^ (e + 1074) = R
  | S754_infinity false => 2 ^ 2098 <= R
  | _ => False
  end.

(** The integer [format_fixed] prints the digits of: the value times
    [10^d], rounded. *)
Definition scaled_value (x : float) (d : nat) : Z :=
  match Prim2SF x with
  | S754_finite _ m e => scaled_round m e d
  | _ => 0
  end.

Definition sign_bit (x : float) : bool :=
  match Prim2SF x with
  | S754_finite s _ _ | S754_zero s | S754_infinity s => s
  | S754_nan => false
  end.

Definition spec_of_Z (n : Z) : spec_float :=
  match n with
  | Zpos p => S754_finite false p 0
  | Zneg p => S754_finite true p 0
  | Z0 => S754_zero false
  end.

(** [round(x, nd)]: the decimal nearest to [x] with [nd] places, then the
    binary64 nearest to that decimal; infinities and NaN are returned. *)
Definition py_round (x : float) (nd : nat) : float :=
  match Prim2SF x with
  | S754_finite s m e =>
      let n := scaled_round m e nd in
      let q := SF2Prim (SFdiv prec emax (spec_of_Z n) (spec_of_Z (10 ^ Z.of_nat nd))) in
      if s then (- q)%float else q
  | _ => x
  end.

(** [float(n)] for an [int]. *)
Definition float_of_Z (n : Z) : result float :=
  let f := SF2Prim (binary_normalize prec emax n 0 false) in
  if is_infinity f then Raise OverflowError else Return f.

(** [a / b] on floats. *)
Definition py_div (a b : float) : result float :=
  if (b =? 0)%float then Raise ZeroDivisionError else Return (a / b)%float.

(** [int(x)] for a [float]: truncation towards zero. *)
Definition py_int_of_float (x : float) : result Z :=
  match Prim2SF x with
  | S754_nan => Raise ValueError
  | S754_infinity _ => Raise OverflowError
  | S754_zero _ => Return 0
  | S754_finite s m e =>
      let a := if 0 <=? e then Zpos m * 2 ^ e else Zpos m / 2 ^ (- e) in
      Return (if s then - a else a)
  end.

(** [l[i]]: a negative index counts from the end. *)
Definition py_index {A : Type} (l : list A) (i : Z) : result A :=
  let n := Z.of_nat (List.length l) in
  let j := if i <? 0 then i + n else i in
  if (0 <=? j) && (j <? n) then
    match nth_error l (Z.to_nat j) with
    | Some a => Return a
    | None => Raise IndexError
    end
  else Raise IndexError.

(** [min] and [max] keep the current item unless the next one compares
    strictly below (above) it. *)
Fixpoint min_from (cur : float) (l : list float) : float :=
  match l with
  | [] => cur
  | x :: t => min_from (if (x <? cur)%float then x else cur) t
  end.

Fixpoint max_from (cur : float) (l : list float) : float :=
  match l with
  | [] => cur
  | x :: t => max_from (if (cur <? x)%float then x else cur) t
  end.

(** [min(l)] and [max(l)] of a non-empty list. *)
Definition py_min (l : list float) : float := min_from (hd 0%float l) (tl l).
Definition py_max (l : list float) : float := max_from (hd 0%float l) (tl l).

(** [sum(l)], from the left. *)
Definition py_sum (l : list float) : float :=
  fold_left PrimFloat.add l 0%float.

(** ** [format_price] *)

Definition default_decimals : nat := 4.

Definition format_price (price : float) (max_decimals : nat) : string :=
  let formatted := format_fixed price max_decimals in
  if Str.contains "." formatted
  then Str.rstrip "." (Str.rstrip "0" formatted)
  else formatted.

(** What is left of the fractional digits: trailing zeros go, and the
    point goes with them when no digit remains. *)
Definition trim_fraction (frac : string) : string :=
  match Str.rstrip "0" frac with
  | EmptyString => EmptyString
  | f => String "." f
  end.

(** ** [_ascii_sparkline] *)

(** The level of a value, computed on exact values in units of [2^emin]:
    each operation of [int((p - min) / (max - min) * 7)] rounds once. *)
Definition level_units (mn mx p : Z) : Z :=
  let b := RND (mx - mn) 1 in
  let a := RND (p - mn) 1 in
  let q := RND (a * 2 ^ 1074) b in
  RND (q * (7 * 2 ^ 1074)) (2 ^ 1074) / 2 ^ 1074.

(** The level a value is drawn at. *)
Definition level (min_p max_p p : float) : Z :=
  if (min_p <? max_p)%float then level_units (Vf min_p) (Vf max_p) (Vf p) else 0.

Definition bars : list string :=
  ["▁"; "▂"; "▃"; "▄"; "▅"; "▆"; "▇"; "█"]%string.

Definition scale (min_p max_p p : float) : result Z :=
  if (min_p <? max_p)%float then
    q <- py_div (p - min_p)%float (max_p - min_p)%float ;;
    py_int_of_float (q * 7)%float
  else Return 0.

(** The glyph of a level. *)
Definition glyph (k : Z) : string := nth (Z.to_nat k) bars EmptyString.

(** The levels of the values of a sequence, in its order. *)
Definition levels_of (values : list float) : list Z :=
  map (level (py_min values) (py_max values)) values.

(** Values a sparkline can be drawn for: finite, and with a spread
    [max - min] that does not overflow. *)
Definition plottable (values : list float) : bool :=
  forallb finite values && finite (py_max values - py_min values).

Fixpoint somes {A : Type} (l : list (option A)) : list A :=
  match l with
  | [] => []
  | Some a :: t => a :: somes t
  | None :: t => somes t
  end.

Definition _ascii_sparkline (prices : list (option float)) : result string :=
  match somes prices with
  | [] => Return EmptyString
  | values =>
      let min_p := py_min values in
      let max_p := py_max values in
      glyphs <- mapM (fun p => k <- scale min_p max_p p ;; py_index bars k) values ;;
      Return (Str.join EmptyString glyphs)
  end.

(** ** Decoded JSON *)

Inductive json : Type :=
| JNull
| JBool (b : bool)
| JInt (z : Z)
| JFloat (f : float)
| JStr (s : string)
| JList (l : list json)
| JDict (d : list (string * json)).

(** A [dict] keeps its items in insertion order, one per key. *)
Definition dict (V : Type) : Type := list (string * V).

Fixpoint lookup {V : Type} (k : string) (d : dict V) : option V :=
  match d with
  | [] => None
  | (k', v) :: t => if String.eqb k k' then Some v else lookup k t
  end.

(** [d[k] = v]: an existing key keeps its place, a new one goes last. *)
Fixpoint dict_set {V : Type} (d : dict V) (k : string) (v : V) : dict V :=
  match d with
  | [] => [(k, v)]
  | (k', v') :: t =>
      if String.eqb k k' then (k', v) :: t else (k', v') :: dict_set t k v
  end.

(** [d[k]]. *)
Definition dict_get {V : Type} (d : dict V) (k : string) : result V :=
  match lookup k d with
  | Some v => Return v
  | None => Raise KeyError
  end.

(** [x.get(k, default)]: only a [dict] has the method. *)
Definition py_get (x : json) (k : string) (default : json) : result json :=
  match x with
  | JDict d =>
      Return match lookup k d with
             | Some v => v
             | None => default
             end
  | _ => Raise AttributeError
  end.

Fixpoint chars (s : string) : list json :=
  match s with
  | EmptyString => []
  | String a t => JStr (Str.ch a) :: chars t
  end.

(** [for item in x]: a list gives its items, a dict its keys, a string its
    characters; the other values are not iterable. *)
Definition py_iter (x : json) : result (list json) :=
  match x with
  | JList l => Return l
  | JDict d => Return (map (fun kv => JStr (fst kv)) d)
  | JStr s => Return (chars s)
  | _ => Raise TypeError
  end.

(** [x == s] for a [str] [s]. *)
Definition json_eq_str (x : json) (s : string) : bool :=
  match x with
  | JStr s' => String.eqb s' s
  | _ => false
  end.

Fixpoint foldM {A B : Type} (f : A -> B -> result A) (a : A) (l : list B) : result A :=
  match l with
  | [] => Return a
  | x :: t => a' <- f a x ;; foldM f a' t
  end.

(** [range(n)]. *)
Definition py_range (n : nat) : list Z := map Z.of_nat (seq 0 n).

(** ** [fetch_prices]: the aggregation of a decoded response

    The cache and the HTTP request are outside the model: [fetch_prices]
    takes [data], the decoded body, and returns what the function returns
    from there on ([None] or the hourly totals). The parser of numeric
    strings behind [float(str)] is a parameter. *)
Section Aggregation.

Variable float_of_str : string -> option float.

(** [float(v)]. *)
Definition py_float (v : json) : result float :=
  match v with
  | JFloat f => Return f
  | JInt z => float_of_Z z
  | JBool b => Return (if b then 1%float else 0%float)
  | JStr s =>
      match float_of_str s with
      | Some f => Return f
      | None => Raise ValueError
      end
  | JNull | JList _ | JDict _ => Raise TypeError
  end.

(** The body of [for tp in ...], on the state [(total, found)]. *)
Definition tp_step (hour_str : string) (st : float * bool) (tp : json)
  : result (float * bool) :=
  name <- py_get tp "name" JNull ;;
  if json_eq_str name hour_str then
    price <- py_get tp "priceWestDenmark" JNull ;;
    match price with
    | JNull => Return st
    | _ =>
        match py_float price with
        | Return f => Return ((fst st + f)%float, true)
        | Raise ValueError => Return st
        | Raise e => Raise e
        end
    end
  else Return st.

Definition series_step (hour_str : string) (st : float * bool) (series : json)
  : result (float * bool) :=
  tps <- py_get series "timePoints" (JList []) ;;
  items <- py_iter tps ;;
  foldM (tp_step hour_str) st items.

Definition hour_step (chart_series : list json) (hourly_totals : dict float)
  (hour_idx : Z) : result (dict float) :=
  let hour_str := Str.fmt02d hour_idx in
  st <- foldM (series_step hour_str) (0%float, false) chart_series ;;
  Return (if snd st
          then dict_set hourly_totals hour_str (py_round (fst st) 4)
          else hourly_totals).

Definition fetch_prices (data : json) : result (option (dict float)) :=
  chart_series <- py_get data "chartSeries" JNull ;;
  match chart_series with
  | JList (s :: l) =>
      hourly_totals <- foldM (hour_step (s :: l)) [] (py_range 24) ;;
      match hourly_totals with
      | [] => Return None
      | _ => Return (Some hourly_totals)
      end
  | _ => Return None
  end.

(** *** What aggregation is specified to compute

    The time points of a series, the price a time point carries for an
    hour when it parses, and from them the prices of an hour across all
    series and the expected totals. *)

Definition series_points (series : json) : list json :=
match series with
| JDict d =>
    match lookup "timePoints" d with
    | Some (JList l) => l
    | _ => []
    end
| _ => []
end.

Definition field (k : string) (x : json) : json :=
match x with
| JDict d =>
    match lookup k d with
    | Some v => v
    | None => JNull
    end
| _ => JNull
end.

Definition parse_price (v : json) : option float :=
match v with
| JNull => None
| _ =>
    match py_float v with
    | Return f => Some f
    | Raise _ => None
    end
end.

Definition point_price (hour_str : string) (tp : json) : option float :=
if json_eq_str (field "name" tp) hour_str
then parse_price (field "priceWestDenmark" tp)
else None.

Definition parseable_prices (chart_series : list json) (hour_str : string) : list float :=
flat_map (fun series => somes (map (point_price hour_str) (series_points series)))
  chart_series.

Definition hour_sum (l : list float) : float := fold_left PrimFloat.add l 0%float.

(** The loop state [(total, found)] after the prices [l] were added. *)
Definition add_prices (st : float * bool) (l : list float) : float * bool :=
(fold_left PrimFloat.add l (fst st),
 snd st || negb match l with [] => true | _ => false end).

Definition expected_totals (chart_series : list json) (hours : list Z) : dict float :=
flat_map (fun h =>
            match parseable_prices chart_series (Str.fmt02d h) with
            | [] => []
            | l => [(Str.fmt02d h, py_round (hour_sum l) 4)]
            end) hours.

(** The series container of a payload, when it is a list. *)
Definition chart_series_of (data : json) : option (list json) :=
match field "chartSeries" data with
| JList l => Some l
| _ => None
end.

Definition series_of_payload (data : json) : list json :=
match chart_series_of data with
| Some l => l
| None => []
end.

(** *** Payloads of the expected shape

    An object whose series are objects, each with no [timePoints] or with
    a list of time points that are objects, and whose prices for an hour
    are null, strings, booleans or numbers that a float can hold. *)

Definition price_ok (v : json) : bool :=
match v with
| JList _ | JDict _ => false
| JInt z =>
    match float_of_Z z with
    | Return _ => true
    | Raise _ => false
    end
| _ => true
end.

Definition point_ok (tp : json) : bool :=
match tp with
| JDict _ =>
    match field "name" tp with
    | JStr n => if is_hour_label n then price_ok (field "priceWestDenmark" tp) else true
    | _ => true
    end
| _ => false
end.

Definition series_ok (series : json) : bool :=
match series with
| JDict d =>
    match lookup "timePoints" d with
    | None => true
    | Some (JList l) => forallb point_ok l
    | Some _ => false
    end
| _ => false
end.

Definition shaped (data : json) : bool :=
match data with
| JDict d =>
    match lookup "chartSeries" d with
    | Some (JList l) => forallb series_ok l
    | _ => true
    end
| _ => false
end.

End Aggregation.

(** *** Payloads used below *)

Definition time_point (name : string) (price : json) : json :=
  JDict [("name"%string, JStr name); ("priceWestDenmark"%string, price)].

Definition series_of (points : list json) : json :=
  JDict [("timePoints"%string, JList points)].

Definition payload_of (series : list json) : json :=
  JDict [("chartSeries"%string, JList series)].

(** Two series, reporting 1.0 and 2.0 for hour "00". *)
Definition two_series_payload : json :=
  payload_of [series_of [time_point "00" (JFloat 1%float)];
              series_of [time_point "00" (JFloat 2%float)]].

(** A series that is a number, not an object. *)
Definition number_series_payload : json := payload_of [JInt 7].

(** A series whose [timePoints] is null, not a list. *)
Definition null_points_payload : json :=
  payload_of [JDict [("timePoints"%string, JNull)]].

(** A price that is a list, next to one that is a number. *)
Definition list_price_payload : json :=
  payload_of [series_of [time_point "00" (JList []); time_point "00" (JFloat 1%float)]].

(** A price that is not a numeric string, next to one that is a number. *)
Definition text_price_payload : json :=
  payload_of [series_of [time_point "00" (JStr "n/a"); time_point "00" (JFloat 1%float)]].

(** ** [format_prices_for_display] *)

Definition tol_price : float := 0.00001%float.
Definition tol_diff : float := 0.0001%float.

(** [[h for h, p in prices.items() if abs(p - ref) < 0.00001]]. *)
Definition hours_near (prices : dict float) (ref : float) : list string :=
  map fst (filter (fun hp => (abs (snd hp - ref) <? tol_price)%float) prices).

(** [len(l)] as the float the division converts it to. *)
Definition float_len {A : Type} (l : list A) : float :=
  SF2Prim (binary_normalize prec emax (Z.of_nat (List.length l)) 0 false).

Definition str_leb (a b : string) : bool :=
  match String.compare a b with
  | Gt => false
  | _ => true
  end.

(** [not (b < a)]: the order a stable sort on floats uses. *)
Definition float_le (a b : float) : bool := negb (b <? a)%float.

Definition key_le (prices : dict float) (a b : string) : bool :=
  match lookup a prices, lookup b prices with
  | Some x, Some y => float_le x y
  | _, _ => true
  end.

Definition sorted_keys (prices : dict float) (sort_by : option string) : list string :=
  let keys := map fst prices in
  match sort_by with
  | Some k =>
      if String.eqb k "price" then py_sorted (key_le prices) keys
      else if String.eqb k "price_desc" then py_sorted_rev (key_le prices) keys
      else py_sorted str_leb keys
  | None => py_sorted str_leb keys
  end.

Definition price_line (prices : dict float) (hour_str : string) : result string :=
  h <- py_int hour_str ;;
  p <- dict_get prices hour_str ;;
  let next_hour := Str.fmt02d ((h + 1) mod 24) in
  Return (hour_str +++ ":00 - " +++ next_hour +++ ":00 | "
          +++ format_price p default_decimals +++ " DKK/kWh").

(** [output_lines] when [prices] is not empty. *)
Definition output_lines
(prices : dict float) (date_str : string) (sort_by : option string)
: result (list string) :=
let title := " HOURLY POWER PRICES (DK1) - " +++ date_str +++ " " in
let values := map snd prices in
avg_price <- py_div (py_sum values) (float_len values) ;;
let min_price := py_min values in
let max_price := py_max values in
let cheapest := hours_near prices min_price in
let expensive := hours_near prices max_price in
let l_avg := "Average Price: " +++ format_price avg_price default_decimals
             +++ " DKK/kWh" in
cheap_s <- _format_hour_ranges cheapest ;;
let l_cheap := "Cheapest: " +++ cheap_s +++ " ("
               +++ format_price min_price default_decimals +++ " DKK/kWh)" in
exp_s <- _format_hour_ranges expensive ;;
let l_exp := "Most Expensive: " +++ exp_s +++ " ("
             +++ format_price max_price default_decimals +++ " DKK/kWh)" in
spark <- _ascii_sparkline (map Some values) ;;
let l_spark := "Trend Sparkline: " +++ spark in
body <- mapM (price_line prices) (sorted_keys prices sort_by) ;;
Return ([title; l_avg; l_cheap; l_exp; l_spark] ++ body).

Definition newline : string := Str.ch "010".

Definition format_prices_for_display
(prices : dict float) (date_str : string) (sort_by : option string)
: result string :=
match prices with
| [] => Return ("No price data for " +++ date_str +++ ".")
| _ =>
    lines <- output_lines prices date_str sort_by ;;
    Return (Str.join newline lines)
end.

(** *** What the report is specified to show *)

(** An hourly price map as the data model has it: one entry per hour
    label, each price a finite number that is not negative. *)
Definition hourly_price_map (prices : dict float) : Prop :=
  NoDup (map fst prices)
  /\ forallb (fun hp => is_hour_label (fst hp)) prices = true
  /\ forallb (fun hp => finite (snd hp) && (0 <=? snd hp)%float) prices = true.

(** [prices[h]], read as 0 where the hour is missing. *)
Definition price_at (prices : dict float) (h : string) : float :=
  match lookup h prices with
  | Some p => p
  | None => 0%float
  end.

(** The body line of an hour. *)
Definition price_line_of (prices : dict float) (h : string) : string :=
  h +++ ":00 - " +++ Str.fmt02d ((hour_of h + 1) mod 24) +++ ":00 | "
    +++ format_price (price_at prices h) default_decimals +++ " DKK/kWh".

(** The arithmetic mean: the sum over the count. *)
Definition mean (values : list float) : float :=
  (py_sum values / float_len values)%float.

(** The entries in ascending hour order, and their prices. *)
Definition entry_le (a b : string * float) : bool := str_leb (fst a) (fst b).

Definition values_by_hour (prices : dict float) : list float :=
  map snd (py_sorted entry_le prices).

(** A map whose entries were inserted in another order than the hours'. *)
Definition unordered_prices : dict float :=
  [("01"%string, 1%float); ("00"%string, 2%float)].

(** ** [format_comparison_for_display] *)

(** One pass of [for hour in range(24)] on [(diffs, up, down, stable)]. *)
Definition diff_step (today_prices yesterday_prices : dict float)
  (st : list (string * float) * Z * Z * Z) (hour : Z)
  : list (string * float) * Z * Z * Z :=
  let '(diffs, up, down, stable) := st in
  let h := Str.fmt02d hour in
  match lookup h today_prices, lookup h yesterday_prices with
  | Some t, Some y =>
      let diff := (t - y)%float in
      if (tol_diff <? diff)%float then (diffs ++ [(h, diff)], up + 1, down, stable)
      else if (diff <? - tol_diff)%float then (diffs ++ [(h, diff)], up, down + 1, stable)
      else (diffs ++ [(h, diff)], up, down, stable + 1)
  | _, _ => st
  end.

Definition diff_le (a b : string * float) : bool := float_le (snd a) (snd b).

Definition sort_diffs (diffs : list (string * float)) (sort_by : option string)
  : list (string * float) :=
  match sort_by with
  | Some k =>
      if String.eqb k "diff" then py_sorted diff_le diffs
      else if String.eqb k "diff_desc" then py_sorted_rev diff_le diffs
      else diffs
  | None => diffs
  end.

Definition trend_glyph (diff : float) : string :=
  if (tol_diff <? diff)%float then "▲"%string
  else if (diff <? - tol_diff)%float then "▼"%string
  else "●"%string.

(** The six columns, [{:<11} | {:<8} | {:<8} | {:<8} | {:<8} | {:<5}]. *)
Definition table_row (c1 c2 c3 c4 c5 c6 : string) : string :=
  Str.join " | " [Str.ljust 11 c1; Str.ljust 8 c2; Str.ljust 8 c3;
                  Str.ljust 8 c4; Str.ljust 8 c5; Str.ljust 5 c6].

Definition header_row : string :=
  table_row "Hour" "Yest" "Today" "Change" "% Chg" "Trend".

Definition pct_change (diff yest : float) : result string :=
  if negb (yest =? 0)%float then
    q <- py_div diff yest ;;
    Return (format_price (q * 100)%float 2 +++ "%")
  else Return "N/A"%string.

Definition signed_diff (diff : float) : string :=
  if (0 <=? diff)%float then format_price diff default_decimals
  else String "-" (format_price (abs diff) default_decimals).

Definition comparison_row (today_prices yesterday_prices : dict float)
  (d : string * float) : result string :=
  let '(hour_str, diff) := d in
  yest <- dict_get yesterday_prices hour_str ;;
  today <- dict_get today_prices hour_str ;;
  pct <- pct_change diff yest ;;
  h <- py_int hour_str ;;
  let next_hour := Str.fmt02d ((h + 1) mod 24) in
  Return (table_row (hour_str +++ ":00-" +++ next_hour +++ ":00")
            (format_price yest default_decimals)
            (format_price today default_decimals)
            (signed_diff diff) pct (trend_glyph diff)).

(** The diffs and the counters the [for hour in range(24)] loop leaves. *)
Definition diff_scan (today_prices yesterday_prices : dict float)
: list (string * float) * Z * Z * Z :=
fold_left (diff_step today_prices yesterday_prices) (py_range 24) ([], 0, 0, 0).

(** The lines added under [if diffs:]. *)
Definition summary_lines (diffs : list (string * float)) (up down stable : Z)
: result (list string) :=
match diffs with
| [] => Return []
| _ =>
    avg_diff <- py_div (py_sum (map snd diffs)) (float_len diffs) ;;
    spark <- _ascii_sparkline (map (fun d => Some (snd d)) diffs) ;;
    Return ["Avg Change: " +++ format_price avg_diff default_decimals +++ " DKK/kWh";
            "Increased: " +++ Str.of_Z up +++ " | Decreased: " +++ Str.of_Z down
              +++ " | Stable: " +++ Str.of_Z stable;
            "Trend Sparkline (Diffs): " +++ spark]
end.

Definition comparison_title (today_date_str yesterday_date_str : string) : string :=
" PRICE COMPARISON (" +++ today_date_str +++ " vs " +++ yesterday_date_str +++ ") ".

(** [comparison_lines] when neither map is empty. *)
Definition comparison_lines
(today_prices : dict float) (today_date_str : string)
(yesterday_prices : dict float) (yesterday_date_str : string)
(sort_by : option string) : result (list string) :=
let '(diffs, up, down, stable) := diff_scan today_prices yesterday_prices in
summary <- summary_lines diffs up down stable ;;
rows <- mapM (comparison_row today_prices yesterday_prices) (sort_diffs diffs sort_by) ;;
Return ([comparison_title today_date_str yesterday_date_str]
          ++ summary ++ [header_row] ++ rows).

Definition format_comparison_for_display
(today_prices : dict float) (today_date_str : string)
(yesterday_prices : dict float) (yesterday_date_str : string)
(sort_by : option string) : result string :=
match today_prices, yesterday_prices with
| [], _ | _, [] => Return EmptyString
| _, _ =>
    lines <- comparison_lines today_prices today_date_str
               yesterday_prices yesterday_date_str sort_by ;;
    Return (Str.join newline lines)
end.

(** *** What the comparison is specified to show *)

Definition both_have (today yesterday : dict float) (h : string) : bool :=
  match lookup h today, lookup h yesterday with
  | Some _, Some _ => true
  | _, _ => false
  end.

(** The hours "00" to "23" present in both maps, ascending. *)
Definition common_hours (today yesterday : dict float) : list string :=
  filter (both_have today yesterday) hour_labels.

Definition diff_at (today yesterday : dict float) (h : string) : float :=
  (price_at today h - price_at yesterday h)%float.

Definition increased (diff : float) : bool := (tol_diff <? diff)%float.

Definition decreased (diff : float) : bool :=
  negb (increased diff) && (diff <? - tol_diff)%float.

Definition stable (diff : float) : bool :=
  negb (increased diff) && negb (decreased diff).

Definition count (f : float -> bool) (l : list float) : Z :=
  Z.of_nat (List.length (filter f l)).

(** The state of the scan after the hours [hs], from the state [st]. *)
Definition scan_of (today yesterday : dict float) (hs : list string)
  (st : list (string * float) * Z * Z * Z) : list (string * float) * Z * Z * Z :=
  let '(acc, u, d, s) := st in
  let hours := filter (both_have today yesterday) hs in
  let ds := map (diff_at today yesterday) hours in
  (acc ++ map (fun h => (h, diff_at today yesterday h)) hours,
   u + count increased ds, d + count decreased ds, s + count stable ds).

Definition percent_text (diff yest : float) : string :=
  if (yest =? 0)%float then "N/A"%string
  else format_price (diff / yest * 100)%float 2 +++ "%".

(** The row of a common hour. *)
Definition expected_row (today yesterday : dict float) (h : string) : string :=
  let yest := price_at yesterday h in
  let diff := diff_at today yesterday h in
  table_row (h +++ ":00-" +++ Str.fmt02d ((hour_of h + 1) mod 24) +++ ":00")
    (format_price yest default_decimals)
    (format_price (price_at today h) default_decimals)
    (signed_diff diff) (percent_text diff yest) (trend_glyph diff).

(** Two maps of large prices whose diffs differ by more than a float holds. *)
Definition steep_today : dict float :=
  [("00"%string, 1.7e308%float); ("01"%string, 0%float)].

Definition steep_yesterday : dict float :=
  [("00"%string, 0%float); ("01"%string, 1.7e308%float)].

(** ** Runs of consecutive hours

    What the compressor is specified to print: the maximal runs of a
    sorted list of hours, each a closed interval [(first, last)]. *)

Definition interval (s e : Z) : list Z :=
  map (fun i => s + Z.of_nat i) (seq 0 (Z.to_nat (e - s + 1))).

(** Walk the list, extending the current run [(s, e)] while the next hour
    is [e + 1], and closing it otherwise. *)
Fixpoint runs_from (s e : Z) (rest : list Z) : list (Z * Z) :=
  match rest with
  | [] => [(s, e)]
  | h :: t => if h =? e + 1 then runs_from s h t else (s, e) :: runs_from h h t
  end.

Definition hour_runs (l : list Z) : list (Z * Z) :=
  match l with
  | [] => []
  | h :: t => runs_from h h t
  end.

(** Runs are non-empty, ascending, and no two of them touch. *)
Inductive maximal_runs : list (Z * Z) -> Prop :=
| runs_nil : maximal_runs []
| runs_one s e : s <= e -> maximal_runs [(s, e)]
| runs_cons s e s' e' rs :
    s <= e -> e + 1 < s' -> maximal_runs ((s', e') :: rs) ->
    maximal_runs ((s, e) :: (s', e') :: rs).

Definition render_run (r : Z * Z) : string := render_range (fst r) (snd r).

(** ** File names

    [fetch_prices] keeps its cache in [cache_dir] and
    [save_output_to_file] writes the report into [output_dir]; both name
    the file after the date with its slashes removed. *)

(** [s.replace(c, "")] for a one-character [c]. *)
Fixpoint remove_char (c : ascii) (s : string) : string :=
  match s with
  | EmptyString => EmptyString
  | String a t =>
      if Ascii.eqb a c then remove_char c t else String a (remove_char c t)
  end.

Definition starts_with_char (c : ascii) (s : string) : bool :=
  match s with
  | String a _ => Ascii.eqb a c
  | EmptyString => false
  end.

Fixpoint last_char (s : string) : option ascii :=
  match s with
  | EmptyString => None
  | String a EmptyString => Some a
  | String _ t => last_char t
  end.

(** [os.path.join(a, b)] on POSIX paths: an absolute [b] replaces [a];
    otherwise a separator goes between them unless [a] is empty or ends
    with one. *)
Definition path_join (a b : string) : string :=
  if starts_with_char "/" b then b
  else
    match last_char a with
    | None => a +++ b
    | Some c => if Ascii.eqb c "/" then a +++ b else a +++ "/" +++ b
    end.

Definition cache_name (date_str : string) : string :=
  "prices_" +++ remove_char "/" date_str +++ ".json".

Definition output_name (date_str : string) : string :=
  "prices_" +++ remove_char "/" date_str +++ ".txt".

(** [cache_file] of [fetch_prices]. *)
Definition cache_file (cache_dir date_str : string) : string :=
  path_join cache_dir (cache_name date_str).

(** [path] of [save_output_to_file]. *)
Definition output_path (output_dir date_str : string) : string :=
  path_join output_dir (output_name date_str).

(** A date as [strftime("%Y/%m/%d")] writes it: [YYYY/MM/DD]. *)
Definition is_date (s : string) : bool :=
  match s with
  | String y1 (String y2 (String y3 (String y4 (String s1
      (String m1 (String m2 (String s2 (String d1 (String d2 EmptyString))))))))) =>
      forallb Str.is_digit [y1; y2; y3; y4; m1; m2; d1; d2]
      && Ascii.eqb s1 "/" && Ascii.eqb s2 "/"
  | _ => false
  end.

(** ** The text the program prints

    The program after its arguments are parsed (lines 345 to 362).
    [fetch] stands for the calls of [fetch_prices]: each returns [None] or
    a map of prices, or raises. The result [Return None] is [sys.exit(1)]
    of line 348, [Return (Some s)] is [print(s)], and [Raise e] is an
    exception that nothing catches: the program ends with it, with status
    1 as well, before [print] is reached. What [logging] writes is not
    part of the text. A cached value that is not a map of floats is
    outside this model. *)

(** [bool(d)] for [None] or a map. *)
Definition truthy {V : Type} (d : option (dict V)) : bool :=
  match d with
  | Some (_ :: _) => true
  | _ => false
  end.

Definition main_output (fetch : string -> result (option (dict float)))
  (today_str yesterday_str : string) (compare_yesterday : bool)
  (sort_by : option string) : result (option string) :=
  today_prices <- fetch today_str ;;
  match today_prices with
  | Some (e :: t) =>
      yesterday_prices <-
        (if compare_yesterday then fetch yesterday_str else Return None) ;;
      report <- format_prices_for_display (e :: t) today_str sort_by ;;
      match compare_yesterday, yesterday_prices with
      | true, Some (e' :: t') =>
          comp <- format_comparison_for_display (e :: t) today_str
                    (e' :: t') yesterday_str sort_by ;;
          Return (Some (Str.join EmptyString [report; newline +++ newline +++ comp]))
      | _, _ => Return (Some report)
      end
  | _ => Return None
  end.

(** Two maps the program can be given for two dates. *)
Definition day_prices : dict float :=
  [("00"%string, 2%float); ("05"%string, 2%float)].

Definition eve_prices : dict float :=
  [("00"%string, 0%float); ("05"%string, 2.5%float)].

(** ** Predicates the properties below are stated with *)

(** A label on which [py_int] is [int]: ASCII characters only, and at
    most 4300 of them, the interpreter's limit on the digits of an
    integer string. *)
Definition ascii_label (s : string) : bool :=
  Str.all (fun a => Nat.ltb (nat_of_ascii a) 128) s
  && Nat.leb (String.length s) 4300.

(** A response whose time points come in descending hour order. *)
Definition descending_hours_payload : json :=
  payload_of [series_of [time_point "05" (JFloat 1%float);
                         time_point "00" (JFloat 2%float)]].

(** The keys after the hours below [n]: labels of hours below [n],
    in ascending order. *)
Definition keys_below (n : Z) (d : dict float) : Prop :=
  Forall (fun k => is_hour_label k = true /\ hour_of k < n) (map fst d)
  /\ StronglySorted Z.lt (map hour_of (map fst d)).

(** A key of the map whose price is finite. *)
Definition priced (prices : dict float) (k : string) : Prop :=
  exists p, lookup k prices = Some p /\ finite p = true.

(** A pair of an hour and its diff, the diff finite. *)
Definition diff_entry (today yesterday : dict float) (d : string * float) : Prop :=
  finite (snd d) = true /\ snd d = diff_at today yesterday (fst d).

(** * Properties *)

(** ** Rounding a quotient to the nearest integer *)

Lemma rhe_exact (a b : Z) : 0 < b -> round_half_even_div (a * b) b = a.
Proof.
  intros Hb. unfold round_half_even_div.
  rewrite Z.div_mul, Z.mod_mul by lia.
  destruct (Z.compare_spec (2 * 0) b); lia.
Qed.

Lemma rhe_scale (a b c : Z) :
  0 < b -> 0 < c -> round_half_even_div (a * c) (b * c) = round_half_even_div a b.
Proof.
  intros Hb Hc. unfold round_half_even_div.
  rewrite Z.div_mul_cancel_r, Z.mul_mod_distr_r by lia.
  replace (2 * (a mod b * c)) with (2 * (a mod b) * c) by ring.
  destruct (Z.compare_spec (2 * (a mod b) * c) (b * c)),
    (Z.compare_spec (2 * (a mod b)) b); try reflexivity; nia.
Qed.

Lemma rhe_mono_same (a a' b : Z) :
  0 < b -> a <= a' -> round_half_even_div a b <= round_half_even_div a' b.
Proof.
  intros Hb Ha. unfold round_half_even_div.
  pose proof (Z.div_le_mono a a' b Hb Ha) as Hq.
  pose proof (Z.div_mod a b ltac:(lia)) as E.
  pose proof (Z.div_mod a' b ltac:(lia)) as E'.
  pose proof (Z.mod_pos_bound a b Hb) as Hr.
  pose proof (Z.mod_pos_bound a' b Hb) as Hr'.
  assert (C : a / b < a' / b \/ (a / b = a' / b /\ a mod b <= a' mod b)) by nia.
  destruct C as [C|[C C']].
  - destruct (2 * (a mod b) ?= b), (2 * (a' mod b) ?= b);
      try destruct (Z.even (a / b)); try destruct (Z.even (a' / b)); lia.
  - rewrite C.
    destruct (Z.compare_spec (2 * (a mod b)) b), (Z.compare_spec (2 * (a' mod b)) b);
      try destruct (Z.even (a' / b)); lia.
Qed.

Lemma rhe_mono (a1 b1 a2 b2 : Z) :
  0 < b1 -> 0 < b2 -> a1 * b2 <= a2 * b1 ->
  round_half_even_div a1 b1 <= round_half_even_div a2 b2.
Proof.
  intros H1 H2 H.
  rewrite <- (rhe_scale a1 b1 b2), <- (rhe_scale a2 b2 b1) by assumption.
  rewrite (Z.mul_comm b2 b1). apply rhe_mono_same; lia.
Qed.

Lemma rhe_nonneg (a b : Z) : 0 <= a -> 0 < b -> 0 <= round_half_even_div a b.
Proof.
  intros Ha Hb. rewrite <- (rhe_exact 0 b Hb). apply rhe_mono_same; lia.
Qed.

(** ** Binary digits *)

Lemma digits2_pos_bounds (p : positive) :
  2 ^ (Zpos (digits2_pos p) - 1) <= Zpos p < 2 ^ Zpos (digits2_pos p).
Proof.
  induction p as [p IH|p IH|]; simpl digits2_pos.
  - rewrite Pos2Z.inj_succ.
    replace (Z.succ (Zpos (digits2_pos p)) - 1) with (Z.succ (Zpos (digits2_pos p) - 1)) by lia.
    rewrite !Z.pow_succ_r by lia. lia.
  - rewrite Pos2Z.inj_succ.
    replace (Z.succ (Zpos (digits2_pos p)) - 1) with (Z.succ (Zpos (digits2_pos p) - 1)) by lia.
    rewrite !Z.pow_succ_r by lia. lia.
  - simpl. lia.
Qed.

Lemma digits_nonneg (k : Z) : 0 <= digits k.
Proof. destruct k; simpl; lia. Qed.

Lemma digits_bounds (k : Z) : 0 < k -> 2 ^ (digits k - 1) <= k < 2 ^ digits k.
Proof. destruct k; try lia. intros _. apply digits2_pos_bounds. Qed.

Lemma digits_pos (k : Z) : 0 < k -> 0 < digits k.
Proof. destruct k; simpl; lia. Qed.

Lemma pow2_lt_inv (a b : Z) : 0 <= b -> 2 ^ a < 2 ^ b -> a < b.
Proof.
  intros Hb H. destruct (Z_lt_le_dec a b) as [L|L]; [exact L|].
  pose proof (Z.pow_le_mono_r 2 b a ltac:(lia) L). lia.
Qed.

Lemma digits_unique (k d : Z) : 0 < d -> 2 ^ (d - 1) <= k < 2 ^ d -> digits k = d.
Proof.
  intros Hd [H1 H2].
  assert (Hk : 0 < k) by (pose proof (Z.pow_pos_nonneg 2 (d - 1)); lia).
  pose proof (digits_bounds k Hk) as [B1 B2]. pose proof (digits_pos k Hk) as P.
  assert (digits k - 1 < d) by (apply pow2_lt_inv; lia).
  assert (d - 1 < digits k) by (apply pow2_lt_inv; lia).
  lia.
Qed.

Lemma digits_lt_pow (k d : Z) : 0 <= k -> 0 <= d -> k < 2 ^ d -> digits k <= d.
Proof.
  intros Hk Hd H. destruct (Z.eq_dec k 0) as [->|Hne]; [simpl; lia|].
  pose proof (digits_bounds k ltac:(lia)) as [B1 _].
  assert (digits k - 1 < d) by (apply pow2_lt_inv; lia). lia.
Qed.

Lemma digits_ge_pow (k d : Z) : 0 <= d -> 2 ^ d <= k -> d < digits k.
Proof.
  intros Hd H. pose proof (Z.pow_pos_nonneg 2 d ltac:(lia) Hd).
  pose proof (digits_bounds k ltac:(lia)) as [_ B2].
  apply pow2_lt_inv; [apply digits_nonneg|lia].
Qed.

Lemma digits_mono (a b : Z) : 0 <= a <= b -> digits a <= digits b.
Proof.
  intros [Ha Hab]. destruct (Z.eq_dec a 0) as [->|Hne]; [apply digits_nonneg|].
  pose proof (digits_bounds a ltac:(lia)) as [A1 _].
  pose proof (digits_pos a ltac:(lia)).
  assert (digits a - 1 < digits b) by (apply digits_ge_pow; lia). lia.
Qed.

Lemma digits_mul_pow (m t : Z) : 0 < m -> 0 <= t -> digits (m * 2 ^ t) = digits m + t.
Proof.
  intros Hm Ht. pose proof (digits_bounds m Hm) as [B1 B2].
  pose proof (digits_pos m Hm). pose proof (Z.pow_pos_nonneg 2 t ltac:(lia) Ht).
  apply digits_unique; [lia|].
  replace (digits m + t - 1) with (digits m - 1 + t) by lia.
  rewrite !Z.pow_add_r by lia. nia.
Qed.

(** ** Rounding to the format *)

Lemma div_le_cross (N1 D1 N2 D2 : Z) :
  0 < D1 -> 0 < D2 -> N1 * D2 <= N2 * D1 -> N1 / D1 <= N2 / D2.
Proof.
  intros H1 H2 H. apply Z.div_le_lower_bound; [exact H2|].
  pose proof (Z.mul_div_le N1 D1 H1). nia.
Qed.

Lemma RND_mono (N1 D1 N2 D2 : Z) :
  0 <= N1 -> 0 < D1 -> 0 < D2 -> N1 * D2 <= N2 * D1 -> RND N1 D1 <= RND N2 D2.
Proof.
  intros HN1 H1 H2 H. unfold RND.
  set (k1 := N1 / D1). set (k2 := N2 / D2).
  assert (Hk : k1 <= k2) by (apply div_le_cross; assumption).
  assert (Hk1 : 0 <= k1) by (apply Z.div_pos; lia).
  pose proof (digits_mono k1 k2 (conj Hk1 Hk)) as Hd.
  set (s1 := Z.max (digits k1 - 53) 0). set (s2 := Z.max (digits k2 - 53) 0).
  assert (Hs : s1 <= s2) by lia.
  assert (P1 : 0 < 2 ^ s1) by (apply Z.pow_pos_nonneg; lia).
  assert (P2 : 0 < 2 ^ s2) by (apply Z.pow_pos_nonneg; lia).
  destruct (Z.eq_dec s1 s2) as [E|Hne].
  - rewrite <- E. apply Z.mul_le_mono_nonneg_r; [lia|].
    apply rhe_mono; nia.
  - assert (Hlt : s1 < s2) by lia.
    assert (Hd2 : digits k2 = s2 + 53) by lia.
    assert (Hd1 : digits k1 < digits k2) by lia.
    pose proof (digits_nonneg k1) as Hn1.
    (* upper bound for the first *)
    assert (U : N1 < 2 ^ digits k1 * D1).
    { assert (k1 < 2 ^ digits k1).
      { destruct (Z.eq_dec k1 0) as [->|]; [simpl; lia|].
        apply digits_bounds. lia. }
      pose proof (Z.mod_pos_bound N1 D1 H1). pose proof (Z.div_mod N1 D1 ltac:(lia)).
      fold k1 in H3. nia. }
    assert (R1 : round_half_even_div N1 (D1 * 2 ^ s1) * 2 ^ s1 <= 2 ^ digits k1).
    { replace (2 ^ digits k1) with (2 ^ (digits k1 - s1) * 2 ^ s1)
        by (rewrite <- Z.pow_add_r by lia; f_equal; lia).
      apply Z.mul_le_mono_nonneg_r; [lia|].
      rewrite <- (rhe_exact (2 ^ (digits k1 - s1)) (D1 * 2 ^ s1)) by nia.
      apply rhe_mono_same; [nia|].
      replace (2 ^ (digits k1 - s1) * (D1 * 2 ^ s1))
        with (2 ^ (digits k1 - s1) * 2 ^ s1 * D1) by ring.
      rewrite <- Z.pow_add_r by lia.
      replace (digits k1 - s1 + s1) with (digits k1) by lia. lia. }
    assert (L : 2 ^ (digits k2 - 1) * D2 <= N2).
    { assert (0 < k2).
      { destruct (Z.eq_dec k2 0) as [E0|]; [|lia]. rewrite E0 in Hd2. simpl in Hd2. lia. }
      pose proof (digits_bounds k2 H0) as [B _].
      pose proof (Z.mul_div_le N2 D2 H2). fold k2 in H3. nia. }
    assert (R2 : 2 ^ (digits k2 - 1) <= round_half_even_div N2 (D2 * 2 ^ s2) * 2 ^ s2).
    { replace (2 ^ (digits k2 - 1)) with (2 ^ 52 * 2 ^ s2)
        by (rewrite <- Z.pow_add_r by lia; f_equal; lia).
      apply Z.mul_le_mono_nonneg_r; [lia|].
      rewrite <- (rhe_exact (2 ^ 52) (D2 * 2 ^ s2)) by nia.
      apply rhe_mono_same; [nia|].
      replace (2 ^ 52 * (D2 * 2 ^ s2)) with (2 ^ 52 * 2 ^ s2 * D2) by ring.
      rewrite <- Z.pow_add_r by lia.
      replace (52 + s2) with (digits k2 - 1) by lia. lia. }
    assert (2 ^ digits k1 <= 2 ^ (digits k2 - 1)) by (apply Z.pow_le_mono_r; lia).
    lia.
Qed.

Lemma RND_ext (N1 D1 N2 D2 : Z) :
  0 <= N1 -> 0 <= N2 -> 0 < D1 -> 0 < D2 -> N1 * D2 = N2 * D1 -> RND N1 D1 = RND N2 D2.
Proof.
  intros. apply Z.le_antisymm; apply RND_mono; lia.
Qed.

Lemma RND_zero (D : Z) : 0 < D -> RND 0 D = 0.
Proof.
  intros H. unfold RND. rewrite Z.div_0_l by lia. simpl.
  replace 0 with (0 * (D * 1)) at 1 by ring. rewrite rhe_exact by lia. reflexivity.
Qed.

(** A value the format holds is left as it is. *)
Lemma RND_exact (m t : Z) :
  0 < m -> 0 <= t -> digits m <= 53 -> (0 < t -> digits m = 53) ->
  RND (m * 2 ^ t) 1 = m * 2 ^ t.
Proof.
  intros Hm Ht Hd Hn. unfold RND. rewrite Z.div_1_r, digits_mul_pow by assumption.
  replace (Z.max (digits m + t - 53) 0) with t by lia.
  rewrite Z.mul_1_l, rhe_exact by (apply Z.pow_pos_nonneg; lia). reflexivity.
Qed.

(** ** The shifts of [SpecFloat] *)

Lemma shr_1_nonneg (rec : shr_record) :
  0 <= shr_m rec ->
  shr_1 rec = Build_shr_record (shr_m rec / 2) (Z.odd (shr_m rec)) (shr_r rec || shr_s rec).
Proof.
  destruct rec as [m r s]. simpl. intros Hm.
  destruct m as [|p|p]; [reflexivity| |lia].
  destruct p as [p|p|]; simpl shr_1; f_equal.
  - rewrite Pos2Z.inj_xI. apply Z.div_unique with (r := 1); lia.
  - rewrite Pos2Z.inj_xO. apply Z.div_unique with (r := 0); lia.
Qed.

Lemma loc_step (x rho D : Z) (o : bool) :
  0 <= rho < D ->
  loc_of_shr_record (Build_shr_record x o (negb (rho =? 0)))
  = if rho + D * (if o then 1 else 0) =? 0 then loc_Exact
    else loc_Inexact (2 * (rho + D * (if o then 1 else 0)) ?= D * 2).
Proof.
  intros H.
  destruct o; destruct (Z.eqb_spec rho 0) as [E|E]; cbn [loc_of_shr_record negb];
    repeat match goal with
           | |- context [?v =? 0] => destruct (Z.eqb_spec v 0)
           | |- context [?a ?= ?b] => destruct (Z.compare_spec a b)
           end; try reflexivity; lia.
Qed.

Lemma shr_1_located (rec : shr_record) (N D : Z) :
  0 <= N -> 0 < D -> located rec N D -> located (shr_1 rec) N (D * 2).
Proof.
  intros HN HD [Hm Hl].
  assert (H0 : 0 <= shr_m rec) by (rewrite Hm; apply Z.div_pos; lia).
  rewrite (shr_1_nonneg rec H0). unfold located. cbn [shr_m].
  split; [rewrite Hm, Z.div_div by lia; reflexivity|].
  pose proof (Z.mod_pos_bound N D HD) as Hr.
  assert (Hex : orb (shr_r rec) (shr_s rec) = negb (N mod D =? 0)).
  { unfold loc_of in Hl.
    destruct rec as [m [|] [|]]; cbn [loc_of_shr_record shr_r shr_s orb] in *;
      destruct (N mod D =? 0); try reflexivity; try discriminate Hl;
      destruct (2 * (N mod D) ?= D); discriminate Hl. }
  rewrite Hex, (loc_step _ _ D _ Hr).
  unfold loc_of. rewrite Z.rem_mul_r by lia. rewrite <- Hm, Zmod_odd. reflexivity.
Qed.

Lemma iter_shr_located (p : positive) :
  forall (rec : shr_record) (N D : Z),
    0 <= N -> 0 < D -> located rec N D ->
    located (iter_pos shr_1 p rec) N (D * 2 ^ Zpos p).
Proof.
  induction p as [p IH|p IH|]; intros rec N D HN HD H; simpl iter_pos.
  - assert (P : 0 < 2 ^ Zpos p) by (apply Z.pow_pos_nonneg; lia).
    replace (D * 2 ^ Zpos p~1) with (D * 2 * 2 ^ Zpos p * 2 ^ Zpos p).
    + apply IH; [lia|nia|]. apply IH; [lia|lia|]. apply shr_1_located; assumption.
    + replace (Zpos p~1) with (Zpos p + Zpos p + 1) by lia.
      rewrite !Z.pow_add_r by lia. ring.
  - assert (P : 0 < 2 ^ Zpos p) by (apply Z.pow_pos_nonneg; lia).
    replace (D * 2 ^ Zpos p~0) with (D * 2 ^ Zpos p * 2 ^ Zpos p).
    + apply IH; [lia|nia|]. apply IH; assumption.
    + replace (Zpos p~0) with (Zpos p + Zpos p) by lia.
      rewrite !Z.pow_add_r by lia. ring.
  - replace (D * 2 ^ 1) with (D * 2) by lia. apply shr_1_located; assumption.
Qed.

Lemma fexp_eq (x : Z) : fexp prec emax x = Z.max (x - 53) (-1074).
Proof. reflexivity. Qed.

Lemma loc_record_of_loc (m : Z) (l : location) :
  loc_of_shr_record (shr_record_of_loc m l) = l /\ shr_m (shr_record_of_loc m l) = m.
Proof. destruct l as [|[| |]]; split; reflexivity. Qed.

Lemma shr_fexp_located (m e : Z) (N D : Z) :
  0 <= N -> 0 < D -> m = N / D ->
  let e' := Z.max e (fexp prec emax (digits m + e)) in
  exists rec,
    shr_fexp prec emax m e (loc_of N D) = (rec, e')
    /\ located rec N (D * 2 ^ (e' - e)).
Proof.
  intros HN HD Hm e'. unfold shr_fexp, shr. fold (digits m).
  assert (L0 : located (shr_record_of_loc m (loc_of N D)) N D).
  { destruct (loc_record_of_loc m (loc_of N D)) as [A B]. split; congruence. }
  destruct (fexp prec emax (digits m + e) - e) as [|p|p] eqn:En.
  - eexists. split; [f_equal; lia|].
    replace (e' - e) with 0 by lia. rewrite Z.mul_1_r. exact L0.
  - eexists. split; [f_equal; lia|].
    replace (e' - e) with (Zpos p) by lia. apply iter_shr_located; assumption.
  - eexists. split; [f_equal; lia|].
    replace (e' - e) with 0 by lia. rewrite Z.mul_1_r. exact L0.
Qed.

Lemma rne_located (rec : shr_record) (N D : Z) :
  0 < D -> located rec N D ->
  round_nearest_even (shr_m rec) (loc_of_shr_record rec) = round_half_even_div N D.
Proof.
  intros HD [Hm Hl]. rewrite Hl, Hm. unfold loc_of, round_half_even_div, round_nearest_even.
  destruct (Z.eqb_spec (N mod D) 0) as [E|E].
  - rewrite E. simpl. destruct D; [lia|reflexivity|lia].
  - destruct (2 * (N mod D) ?= D); reflexivity.
Qed.

Lemma rhe_le_succ (a b : Z) : round_half_even_div a b <= a / b + 1.
Proof.
  unfold round_half_even_div.
  destruct (2 * (a mod b) ?= b); [destruct (Z.even (a / b))| |]; lia.
Qed.

Lemma rhe_ge_div (a b : Z) : a / b <= round_half_even_div a b.
Proof.
  unfold round_half_even_div.
  destruct (2 * (a mod b) ?= b); [destruct (Z.even (a / b))| |]; lia.
Qed.

(** ** What [binary_round_aux] returns *)

Lemma loc_of_one (n : Z) : loc_of n 1 = loc_Exact.
Proof. unfold loc_of. rewrite Z.mod_1_r. reflexivity. Qed.

Lemma binary_round_aux_value (m e N D : Z) :
  0 <= N -> 0 < D -> m = N / D -> e <= fexp prec emax (digits m + e) ->
  let E := fexp prec emax (digits m + e) in
  rounds_to (binary_round_aux prec emax false m e (loc_of N D))
            (round_half_even_div N (D * 2 ^ (E - e)) * 2 ^ (E + 1074)).
Proof.
  intros HN HD Hm He E.
  assert (HE : -1074 <= E) by (unfold E; rewrite fexp_eq; lia).
  assert (Hm0 : 0 <= m) by (rewrite Hm; apply Z.div_pos; lia).
  assert (P : 0 < 2 ^ (E - e)) by (apply Z.pow_pos_nonneg; lia).
  unfold binary_round_aux.
  destruct (shr_fexp_located m e N D HN HD Hm) as (rec1 & S1 & L1).
  replace (Z.max e (fexp prec emax (digits m + e))) with E in S1, L1 by (fold E; lia).
  rewrite S1.
  set (D1 := D * 2 ^ (E - e)) in *.
  assert (HD1 : 0 < D1) by (unfold D1; nia).
  rewrite (rne_located rec1 N D1 HD1 L1).
  set (m1 := round_half_even_div N D1).
  assert (Hm1 : 0 <= m1) by (apply rhe_nonneg; lia).
  assert (Hq : N / D1 = m / 2 ^ (E - e)).
  { unfold D1. rewrite <- Z.div_div by lia. rewrite <- Hm. reflexivity. }
  assert (Hm' : N / D1 < 2 ^ 53).
  { rewrite Hq. apply Z.div_lt_upper_bound; [exact P|].
    rewrite <- Z.pow_add_r by lia.
    destruct (Z.eq_dec m 0) as [->|Hne]; [apply Z.pow_pos_nonneg; lia|].
    pose proof (digits_bounds m ltac:(lia)) as [_ B].
    assert (digits m <= E - e + 53) by (unfold E; rewrite fexp_eq; lia).
    pose proof (Z.pow_le_mono_r 2 (digits m) (E - e + 53) ltac:(lia) H). lia. }
  assert (Hm1u : m1 <= 2 ^ 53) by (pose proof (rhe_le_succ N D1); fold m1 in H; lia).
  destruct (shr_fexp_located m1 E m1 1 Hm1 ltac:(lia) ltac:(rewrite Z.div_1_r; reflexivity))
    as (rec2 & S2 & L2).
  rewrite loc_of_one in S2. rewrite S2.
  set (e2 := Z.max E (fexp prec emax (digits m1 + E))) in *.
  destruct L2 as [L2 _]. rewrite L2, Z.mul_1_l.
  assert (C : (e2 = E /\ m1 / 2 ^ (e2 - E) = m1 /\ (972 <= e2 -> 0 < m1 -> 2 ^ 52 <= m1))
              \/ (e2 = E + 1 /\ m1 = 2 ^ 53)).
  { destruct (Z.eq_dec m1 (2 ^ 53)) as [E53|N53].
    - right. split; [|exact E53].
      unfold e2. rewrite E53, fexp_eq.
      change (digits (2 ^ 53)) with 54. lia.
    - left. assert (Hd : digits m1 <= 53) by (apply digits_lt_pow; lia).
      assert (He2 : e2 = E) by (unfold e2; rewrite fexp_eq; lia).
      split; [exact He2|]. split.
      + rewrite He2, Z.sub_diag. apply Z.div_1_r.
      + intros Hbig Hpos. rewrite He2 in Hbig.
        assert (Hmpos : 0 < m).
        { destruct (Z.eq_dec m 0) as [Z0|]; [|lia]. exfalso.
          unfold E in Hbig, He. rewrite fexp_eq in Hbig, He. rewrite Z0 in *.
          simpl digits in *. lia. }
        assert (HEq : E = digits m + e - 53) by (unfold E; rewrite fexp_eq; unfold E in Hbig; rewrite fexp_eq in Hbig; lia).
        pose proof (digits_bounds m Hmpos) as [B _].
        pose proof (rhe_ge_div N D1) as G. fold m1 in G. rewrite Hq in G.
        assert (2 ^ 52 <= m / 2 ^ (E - e)).
        { apply Z.div_le_lower_bound; [exact P|].
          rewrite <- Z.pow_add_r by lia.
          replace (E - e + 52) with (digits m - 1) by lia. exact B. }
        lia. }
  destruct C as [(He2 & Hdiv & Hbig)|(He2 & E53)].
  - rewrite Hdiv. destruct m1 as [|p|p] eqn:Em1; [unfold rounds_to; lia| |lia].
    destruct (Z.leb_spec e2 (emax - prec)) as [Hle|Hgt]; unfold rounds_to.
    + rewrite He2. split; [lia|reflexivity].
    + change (emax - prec) with 971 in Hgt.
      specialize (Hbig ltac:(lia) ltac:(lia)).
      assert (B : 2 ^ 2098 <= 2 ^ (52 + (E + 1074))) by (apply Z.pow_le_mono_r; lia).
      rewrite Z.pow_add_r in B by lia.
      pose proof (Z.pow_pos_nonneg 2 (E + 1074) ltac:(lia) ltac:(lia)).
      eapply Z.le_trans; [exact B|]. apply Z.mul_le_mono_nonneg_r; lia.
  - rewrite E53, He2. replace (E + 1 - E) with 1 by lia.
    change (2 ^ 53 / 2 ^ 1) with (Zpos (2 ^ 52)).
    destruct (Z.leb_spec (E + 1) (emax - prec)) as [Hle|Hgt]; unfold rounds_to.
    + split; [lia|]. replace (E + 1 + 1074) with (1 + (E + 1074)) by lia.
      rewrite Z.pow_add_r by lia. lia.
    + change (emax - prec) with 971 in Hgt.
      assert (B : 2 ^ 2098 <= 2 ^ (53 + (E + 1074))) by (apply Z.pow_le_mono_r; lia).
      rewrite Z.pow_add_r in B by lia. exact B.
Qed.

Lemma digits_div_pow (m s : Z) :
  0 <= m -> 0 <= s -> digits (m / 2 ^ s) = Z.max (digits m - s) 0.
Proof.
  intros Hm Hs. assert (P : 0 < 2 ^ s) by (apply Z.pow_pos_nonneg; lia).
  destruct (Z.eq_dec m 0) as [->|Hne].
  { rewrite Z.div_0_l by lia. simpl. lia. }
  pose proof (digits_bounds m ltac:(lia)) as [B1 B2].
  pose proof (digits_pos m ltac:(lia)) as Hd.
  destruct (Z_le_gt_dec (digits m) s) as [Hle|Hgt].
  - pose proof (Z.pow_le_mono_r 2 (digits m) s ltac:(lia) Hle).
    rewrite Z.div_small by lia. simpl. lia.
  - replace (Z.max (digits m - s) 0) with (digits m - s) by lia.
    apply digits_unique; [lia|]. split.
    + apply Z.div_le_lower_bound; [exact P|].
      rewrite <- Z.pow_add_r by lia.
      replace (s + (digits m - s - 1)) with (digits m - 1) by lia. exact B1.
    + apply Z.div_lt_upper_bound; [exact P|].
      rewrite <- Z.pow_add_r by lia.
      replace (s + (digits m - s)) with (digits m) by lia. exact B2.
Qed.

Lemma digits_scaled_quotient (N D t : Z) :
  0 <= N -> 0 < D -> 0 <= t -> 0 < N / D ->
  digits (N * 2 ^ t / D) = digits (N / D) + t.
Proof.
  intros HN HD Ht Hq. assert (P : 0 < 2 ^ t) by (apply Z.pow_pos_nonneg; lia).
  pose proof (digits_bounds (N / D) Hq) as [B1 B2].
  pose proof (digits_pos (N / D) Hq) as Hd.
  pose proof (Z.mul_div_le N D HD) as L.
  pose proof (Z.mod_pos_bound N D HD) as Hr.
  pose proof (Z.div_mod N D ltac:(lia)) as Edm.
  assert (L1 : 2 ^ (digits (N / D) - 1) * D <= N) by nia.
  assert (L2 : N < D * 2 ^ digits (N / D)) by nia.
  apply digits_unique; [lia|]. split.
  - apply Z.div_le_lower_bound; [exact HD|].
    replace (digits (N / D) + t - 1) with (digits (N / D) - 1 + t) by lia.
    rewrite Z.pow_add_r by lia.
    replace (D * (2 ^ (digits (N / D) - 1) * 2 ^ t))
      with (2 ^ (digits (N / D) - 1) * D * 2 ^ t) by ring.
    apply Z.mul_le_mono_nonneg_r; lia.
  - apply Z.div_lt_upper_bound; [exact HD|].
    rewrite Z.pow_add_r by lia.
    replace (D * (2 ^ digits (N / D) * 2 ^ t))
      with (D * 2 ^ digits (N / D) * 2 ^ t) by ring.
    apply Z.mul_lt_mono_pos_r; lia.
Qed.

(** The result of [binary_round_aux], in units of [2^emin], for an input
    that stands for the rational [A / B] in these units. *)
Lemma binary_round_aux_RND (m e N D A B : Z) :
  0 <= N -> 0 < D -> m = N / D -> e <= fexp prec emax (digits m + e) ->
  0 <= A -> 0 < B ->
  (if 0 <=? e + 1074 then A * D = N * 2 ^ (e + 1074) * B
   else A * (D * 2 ^ (- (e + 1074))) = N * B) ->
  rounds_to (binary_round_aux prec emax false m e (loc_of N D)) (RND A B).
Proof.
  intros HN HD Hm He HA HB Heq.
  pose proof (binary_round_aux_value m e N D HN HD Hm He) as V. cbv zeta in V.
  set (E := fexp prec emax (digits m + e)) in *.
  assert (HE : E = Z.max (digits m + e - 53) (-1074)) by (unfold E; apply fexp_eq).
  assert (Hm0 : 0 <= m) by (rewrite Hm; apply Z.div_pos; lia).
  pose proof (digits_nonneg m) as Hdm.
  match goal with |- rounds_to ?f ?R => 
    replace R with (round_half_even_div N (D * 2 ^ (E - e)) * 2 ^ (E + 1074)); [exact V|] end.
  destruct (Z.leb_spec 0 (e + 1074)) as [Ht|Ht].
  - set (t := e + 1074) in *.
    assert (Pt : 0 < 2 ^ t) by (apply Z.pow_pos_nonneg; lia).
    rewrite (RND_ext A B (N * 2 ^ t) D) by nia.
    unfold RND.
    assert (Hdig : digits (N * 2 ^ t / D) = digits m + t).
    { destruct (Z.eq_dec m 0) as [Z0|Hne].
      - assert (t = 0) by (rewrite Z0 in HE; simpl digits in HE; lia).
        rewrite H, Z.mul_1_r, <- Hm, Z0. simpl. lia. 
      - rewrite digits_scaled_quotient by (rewrite <- ?Hm; lia). rewrite <- Hm. reflexivity. }
    rewrite Hdig.
    replace (Z.max (digits m + t - 53) 0) with (E + 1074) by lia.
    f_equal.
    replace (D * 2 ^ (E + 1074)) with (D * 2 ^ (E - e) * 2 ^ t).
    + symmetry. apply rhe_scale; [|exact Pt].
      pose proof (Z.pow_pos_nonneg 2 (E - e) ltac:(lia) ltac:(lia)). nia.
    + rewrite <- Z.mul_assoc, <- Z.pow_add_r by lia. do 2 f_equal. lia.
  - set (s := - (e + 1074)) in *.
    assert (Ps : 0 < 2 ^ s) by (apply Z.pow_pos_nonneg; lia).
    rewrite (RND_ext A B N (D * 2 ^ s)) by nia.
    unfold RND.
    rewrite <- Z.div_div, <- Hm, digits_div_pow by lia.
    replace (Z.max (Z.max (digits m - s) 0 - 53) 0) with (E + 1074) by lia.
    f_equal. f_equal.
    rewrite <- Z.mul_assoc, <- Z.pow_add_r by lia. do 2 f_equal. lia.
Qed.

(** ** Values of binary64 numbers, in units of [2^emin] *)

Lemma valid_finite (s : bool) (m : positive) (e : Z) :
  valid_binary (S754_finite s m e) = true ->
  -1074 <= e <= 971 /\ digits (Zpos m) <= 53 /\ (-1074 < e -> digits (Zpos m) = 53).
Proof.
  unfold valid_binary, bounded, canonical_mantissa. rewrite andb_true_iff, fexp_eq.
  change (Zpos (digits2_pos m)) with (digits (Zpos m)).
  change (emax - prec) with 971.
  rewrite Z.eqb_eq, Z.leb_le. lia.
Qed.

Lemma pos_value_pos (m : positive) (e : Z) : -1074 <= e -> 0 < Zpos m * 2 ^ (e + 1074).
Proof. intros H. pose proof (Z.pow_pos_nonneg 2 (e + 1074) ltac:(lia) ltac:(lia)). nia. Qed.

Lemma rounds_to_Vz (f : spec_float) (R : Z) :
  rounds_to f R -> is_fin f = true -> Vz f = R.
Proof.
  destruct f as [s|s| |[|] m e]; unfold rounds_to, is_fin, Vz; intros H F;
    try discriminate F; try contradiction.
  - symmetry. exact H.
  - destruct H as [_ H]. rewrite Z.mul_1_l. exact H.
Qed.

Lemma rounds_to_fin (f : spec_float) (R : Z) :
  rounds_to f R -> R < 2 ^ 2098 -> is_fin f = true.
Proof.
  destruct f as [s|[|]| |[|] m e]; unfold rounds_to, is_fin; intros H F;
    try reflexivity; try contradiction. lia.
Qed.

(** A valid non-negative number stands for its own value. *)
Lemma rounds_to_self (m : positive) (e : Z) :
  valid_binary (S754_finite false m e) = true ->
  rounds_to (S754_finite false m e) (RND (Zpos m * 2 ^ (e + 1074)) 1).
Proof.
  intros H. apply valid_finite in H as (He & Hd & Hn).
  rewrite RND_exact by lia. unfold rounds_to. split; [lia|reflexivity].
Qed.

Lemma valid_value_bound (s : bool) (m : positive) (e : Z) :
  valid_binary (S754_finite s m e) = true -> Zpos m * 2 ^ (e + 1074) < 2 ^ 2098.
Proof.
  intros H. apply valid_finite in H as (He & Hd & Hn).
  pose proof (digits_bounds (Zpos m) ltac:(lia)) as [_ B].
  pose proof (Z.pow_le_mono_r 2 (digits (Zpos m)) 53 ltac:(lia) Hd) as B2.
  pose proof (Z.pow_le_mono_r 2 (e + 1074) 2045 ltac:(lia) ltac:(lia)) as B3.
  pose proof (Z.pow_pos_nonneg 2 (e + 1074) ltac:(lia) ltac:(lia)) as B4.
  replace (2 ^ 2098) with (2 ^ 53 * 2 ^ 2045) by (rewrite <- Z.pow_add_r by lia; reflexivity).
  apply Z.lt_le_trans with (2 ^ 53 * 2 ^ (e + 1074)).
  - apply Z.mul_lt_mono_pos_r; lia.
  - apply Z.mul_le_mono_nonneg_l; lia.
Qed.

(** Order *)

Lemma valid_exponent_lt (m1 m2 : positive) (e1 e2 : Z) :
  valid_binary (S754_finite false m1 e1) = true ->
  valid_binary (S754_finite false m2 e2) = true ->
  e1 < e2 -> Zpos m1 * 2 ^ (e1 + 1074) < Zpos m2 * 2 ^ (e2 + 1074).
Proof.
  intros H1 H2 Hlt.
  apply valid_finite in H1 as (He1 & Hd1 & _).
  apply valid_finite in H2 as (He2 & Hd2 & Hn2).
  pose proof (digits_bounds (Zpos m1) ltac:(lia)) as [_ B1].
  pose proof (digits_bounds (Zpos m2) ltac:(lia)) as [B2 _].
  rewrite (Hn2 ltac:(lia)) in B2. change (2 ^ (53 - 1)) with (2 ^ 52) in B2.
  pose proof (Z.pow_le_mono_r 2 (digits (Zpos m1)) 53 ltac:(lia) Hd1) as B3.
  pose proof (Z.pow_pos_nonneg 2 (e1 + 1074) ltac:(lia) ltac:(lia)) as P1.
  pose proof (Z.pow_pos_nonneg 2 (e2 + 1074) ltac:(lia) ltac:(lia)) as P2.
  apply Z.lt_le_trans with (2 ^ 53 * 2 ^ (e1 + 1074)).
  - apply Z.mul_lt_mono_pos_r; lia.
  - apply Z.le_trans with (2 ^ 52 * 2 ^ (e2 + 1074)).
    + rewrite <- !Z.pow_add_r by lia. apply Z.pow_le_mono_r; lia.
    + apply Z.mul_le_mono_nonneg_r; lia.
Qed.

Lemma compare_cont_Eq (m1 m2 : positive) :
  Pos.compare_cont Eq m1 m2 = (Zpos m1 ?= Zpos m2).
Proof. reflexivity. Qed.

Lemma valid_sign_irrelevant (s s' : bool) (m : positive) (e : Z) :
  valid_binary (S754_finite s m e) = valid_binary (S754_finite s' m e).
Proof. reflexivity. Qed.

Lemma compare_magnitudes (m1 m2 : positive) (e1 e2 : Z) :
  valid_binary (S754_finite false m1 e1) = true ->
  valid_binary (S754_finite false m2 e2) = true ->
  match e1 ?= e2 with
  | Lt => Lt
  | Gt => Gt
  | Eq => Pos.compare_cont Eq m1 m2
  end = (Zpos m1 * 2 ^ (e1 + 1074) ?= Zpos m2 * 2 ^ (e2 + 1074)).
Proof.
  intros H1 H2. destruct (Z.compare_spec e1 e2) as [E|L|G].
  - subst e2. rewrite compare_cont_Eq.
    pose proof (valid_finite _ _ _ H1) as (He & _).
    pose proof (Z.pow_pos_nonneg 2 (e1 + 1074) ltac:(lia) ltac:(lia)) as P.
    destruct (Z.compare_spec (Zpos m1) (Zpos m2)) as [C|C|C]; symmetry.
    + apply Z.compare_eq_iff. rewrite C. reflexivity.
    + apply Z.compare_lt_iff. apply Z.mul_lt_mono_pos_r; lia.
    + apply Z.compare_gt_iff. apply Z.mul_lt_mono_pos_r; lia.
  - symmetry. apply Z.compare_lt_iff. apply valid_exponent_lt; assumption.
  - symmetry. apply Z.compare_gt_iff. apply valid_exponent_lt; assumption.
Qed.

Lemma SFcompare_Vz (x y : spec_float) :
  valid_binary x = true -> valid_binary y = true ->
  is_fin x = true -> is_fin y = true ->
  SFcompare x y = Some (Vz x ?= Vz y).
Proof.
  intros Vx Vy Fx Fy.
  destruct x as [sx|sx| |sx mx ex]; try discriminate Fx;
    destruct y as [sy|sy| |sy my ey]; try discriminate Fy; simpl SFcompare; unfold Vz.
  - reflexivity.
  - pose proof (valid_finite _ _ _ Vy) as (He & _).
    pose proof (pos_value_pos my ey ltac:(lia)).
    destruct sy; f_equal; symmetry;
      [apply Z.compare_gt_iff|apply Z.compare_lt_iff]; lia.
  - pose proof (valid_finite _ _ _ Vx) as (He & _).
    pose proof (pos_value_pos mx ex ltac:(lia)).
    destruct sx; f_equal; symmetry;
      [apply Z.compare_lt_iff|apply Z.compare_gt_iff]; lia.
  - pose proof (valid_finite _ _ _ Vx) as (Hex & _).
    pose proof (valid_finite _ _ _ Vy) as (Hey & _).
    pose proof (pos_value_pos mx ex ltac:(lia)).
    pose proof (pos_value_pos my ey ltac:(lia)).
    rewrite (valid_sign_irrelevant sx false) in Vx.
    rewrite (valid_sign_irrelevant sy false) in Vy.
    pose proof (compare_magnitudes mx my ex ey Vx Vy) as C.
    pose proof (compare_magnitudes my mx ey ex Vy Vx) as C'.
    destruct sx, sy; f_equal.
    + transitivity (CompOpp (Zpos mx * 2 ^ (ex + 1074) ?= Zpos my * 2 ^ (ey + 1074))).
      * rewrite <- C. destruct (ex ?= ey); reflexivity.
      * rewrite <- Z.compare_antisym.
        replace (-1 * (Zpos mx * 2 ^ (ex + 1074))) with (- (Zpos mx * 2 ^ (ex + 1074))) by lia.
        replace (-1 * (Zpos my * 2 ^ (ey + 1074))) with (- (Zpos my * 2 ^ (ey + 1074))) by lia.
        rewrite Z.compare_opp. reflexivity.
    + symmetry. apply Z.compare_lt_iff. lia.
    + symmetry. apply Z.compare_gt_iff. lia.
    + rewrite C. f_equal; lia.
Qed.

(** ** The operations *)

Lemma iter_xO (m d : positive) : Zpos (Pos.iter xO m d) = Zpos m * 2 ^ Zpos d.
Proof.
  induction d as [|d IH] using Pos.peano_ind.
  - simpl. lia.
  - rewrite Pos.iter_succ, Pos2Z.inj_xO, IH, Pos2Z.inj_succ, Z.pow_succ_r by lia. ring.
Qed.

Lemma shl_align_spec (m : positive) (e e' : Z) :
  let '(mz, ez) := shl_align m e e' in
  ez = Z.min e e' /\ Zpos mz = Zpos m * 2 ^ (e - ez).
Proof.
  unfold shl_align. destruct (e' - e) as [|p|p] eqn:E.
  - split; [lia|]. rewrite Z.sub_diag. lia.
  - split; [lia|]. rewrite Z.sub_diag. lia.
  - split; [lia|]. rewrite iter_xO. do 2 f_equal. lia.
Qed.

Lemma binary_round_RND (m : positive) (e : Z) :
  -1074 <= e ->
  rounds_to (binary_round prec emax false m e) (RND (Zpos m * 2 ^ (e + 1074)) 1).
Proof.
  intros He. unfold binary_round.
  pose proof (shl_align_spec m e (fexp prec emax (Zpos (digits2_pos m) + e))) as S.
  change (Zpos (digits2_pos m)) with (digits (Zpos m)) in *.
  destruct (shl_align m e (fexp prec emax (digits (Zpos m) + e))) as [mz ez].
  destruct S as [Hez Hmz].
  rewrite fexp_eq in Hez.
  assert (Hsh : 0 <= e - ez) by lia.
  assert (P : 0 < 2 ^ (e - ez)) by (apply Z.pow_pos_nonneg; lia).
  rewrite <- (loc_of_one (Zpos mz)).
  apply binary_round_aux_RND.
  - lia.
  - lia.
  - rewrite Z.div_1_r. reflexivity.
  - rewrite fexp_eq, Hmz, digits_mul_pow by lia. lia.
  - pose proof (pos_value_pos m e He). lia.
  - lia.
  - replace (0 <=? ez + 1074) with true by (symmetry; apply Z.leb_le; lia).
    rewrite Hmz, !Z.mul_1_r, <- Z.mul_assoc, <- Z.pow_add_r by lia.
    do 2 f_equal. lia.
Qed.

Lemma Vz_nonneg_sign (s : bool) (m : positive) (e : Z) :
  -1074 <= e -> 0 <= Vz (S754_finite s m e) -> s = false.
Proof.
  intros He. unfold Vz. pose proof (pos_value_pos m e He).
  destruct s; [lia|reflexivity].
Qed.

Lemma Vz_nonpos_sign (s : bool) (m : positive) (e : Z) :
  -1074 <= e -> Vz (S754_finite s m e) <= 0 -> s = true.
Proof.
  intros He. unfold Vz. pose proof (pos_value_pos m e He).
  destruct s; [reflexivity|lia].
Qed.

(** Subtraction, when the result is not negative. *)
Lemma SFsub_RND (x y : spec_float) :
  valid_binary x = true -> valid_binary y = true ->
  is_fin x = true -> is_fin y = true -> Vz y <= Vz x ->
  rounds_to (SFsub prec emax x y) (RND (Vz x - Vz y) 1).
Proof.
  intros Vx Vy Fx Fy Hle.
  destruct x as [sx|sx| |sx mx ex]; try discriminate Fx;
    destruct y as [sy|sy| |sy my ey]; try discriminate Fy.
  - change (Vz (S754_zero sx) - Vz (S754_zero sy)) with 0. rewrite RND_zero by lia.
    unfold SFsub. destruct sx, sy; reflexivity.
  - pose proof (valid_finite _ _ _ Vy) as (He & _).
    change (Vz (S754_zero sx)) with 0 in *.
    rewrite (Vz_nonpos_sign sy my ey) in * by lia.
    unfold SFsub, negb.
    replace (0 - Vz (S754_finite true my ey)) with (Zpos my * 2 ^ (ey + 1074))
      by (unfold Vz; lia).
    apply rounds_to_self. exact Vy.
  - pose proof (valid_finite _ _ _ Vx) as (He & _).
    change (Vz (S754_zero sy)) with 0 in *.
    rewrite (Vz_nonneg_sign sx mx ex) in * by lia.
    unfold SFsub.
    replace (Vz (S754_finite false mx ex) - 0) with (Zpos mx * 2 ^ (ex + 1074))
      by (unfold Vz; lia).
    apply rounds_to_self. exact Vx.
  - pose proof (valid_finite _ _ _ Vx) as (Hex & _).
    pose proof (valid_finite _ _ _ Vy) as (Hey & _).
    unfold SFsub.
    pose proof (shl_align_spec mx ex (Z.min ex ey)) as Sx.
    pose proof (shl_align_spec my ey (Z.min ex ey)) as Sy.
    destruct (shl_align mx ex (Z.min ex ey)) as [ax ez1].
    destruct (shl_align my ey (Z.min ex ey)) as [ay ez2].
    destruct Sx as [Ez1 Hax]. destruct Sy as [Ez2 Hay]. cbn [fst].
    set (ez := Z.min ex ey) in *.
    assert (E1 : ez1 = ez) by lia. assert (E2 : ez2 = ez) by lia.
    rewrite E1 in *. rewrite E2 in *. clear E1 E2 Ez1 Ez2 ez1 ez2.
    assert (Pz : 0 < 2 ^ (ez + 1074)) by (apply Z.pow_pos_nonneg; lia).
    assert (Hval : (cond_Zopp sx (Zpos ax) - cond_Zopp sy (Zpos ay)) * 2 ^ (ez + 1074)
                   = Vz (S754_finite sx mx ex) - Vz (S754_finite sy my ey)).
    { unfold Vz. rewrite Hax, Hay.
      replace (2 ^ (ex + 1074)) with (2 ^ (ex - ez) * 2 ^ (ez + 1074))
        by (rewrite <- Z.pow_add_r by lia; f_equal; lia).
      replace (2 ^ (ey + 1074)) with (2 ^ (ey - ez) * 2 ^ (ez + 1074))
        by (rewrite <- Z.pow_add_r by lia; f_equal; lia).
      destruct sx, sy; unfold cond_Zopp; cbv iota; ring. }
    rewrite <- Hval.
    destruct (cond_Zopp sx (Zpos ax) - cond_Zopp sy (Zpos ay)) as [|p|p] eqn:Ed.
    + rewrite Z.mul_0_l, RND_zero by lia. reflexivity.
    + unfold binary_normalize. apply binary_round_RND. lia.
    + exfalso. assert (Z.neg p * 2 ^ (ez + 1074) < 0) by (apply Z.mul_neg_pos; lia). lia.
Qed.

Lemma fexp_mono (a b : Z) : a <= b -> fexp prec emax a <= fexp prec emax b.
Proof. rewrite !fexp_eq. lia. Qed.

Lemma new_location_loc_of (N D : Z) :
  0 < D -> new_location D (N mod D) = loc_of N D.
Proof.
  intros HD. pose proof (Z.mod_pos_bound N D HD) as Hr.
  unfold new_location, new_location_even, new_location_odd, loc_of.
  destruct (Z.even D) eqn:Ev; destruct (N mod D =? 0); try reflexivity.
  f_equal.
  assert (Hodd : Z.odd D = true) by (rewrite <- Z.negb_even, Ev; reflexivity).
  apply Z.odd_spec in Hodd as [k Hk].
  destruct (Z.compare_spec (2 * (N mod D) + 1) D), (Z.compare_spec (2 * (N mod D)) D);
    try reflexivity; lia.
Qed.

Lemma digits_quotient_lower (a b : Z) :
  0 < a -> 0 < b -> digits a - digits b <= digits (a / b).
Proof.
  intros Ha Hb. pose proof (digits_nonneg (a / b)) as Hn.
  destruct (Z_le_gt_dec (digits a - digits b) 0) as [L|G]; [lia|].
  pose proof (digits_bounds a Ha) as [A1 _].
  pose proof (digits_bounds b Hb) as [_ B2].
  pose proof (digits_pos b Hb) as Pb.
  assert (2 ^ (digits a - 1 - digits b) <= a / b).
  { apply Z.div_le_lower_bound; [exact Hb|].
    apply Z.le_trans with (2 ^ digits b * 2 ^ (digits a - 1 - digits b)).
    - apply Z.mul_le_mono_nonneg_r; [apply Z.pow_nonneg; lia|lia].
    - rewrite <- Z.pow_add_r by lia.
      replace (digits b + (digits a - 1 - digits b)) with (digits a - 1) by lia. exact A1. }
  pose proof (digits_ge_pow (a / b) (digits a - 1 - digits b) ltac:(lia) H). lia.
Qed.

(** Division of a non-negative number by a positive one. *)
Lemma SFdiv_RND (x y : spec_float) :
  valid_binary x = true -> valid_binary y = true ->
  is_fin x = true -> is_fin y = true -> 0 <= Vz x -> 0 < Vz y ->
  rounds_to (SFdiv prec emax x y) (RND (Vz x * 2 ^ 1074) (Vz y)).
Proof.
  intros Vx Vy Fx Fy Hx Hy.
  destruct y as [sy|sy| |sy my ey]; try discriminate Fy; [simpl in Hy; lia|].
  pose proof (valid_finite _ _ _ Vy) as (Hey & Hdy & _).
  assert (sy = false) by (apply (Vz_nonneg_sign sy my ey); lia). subst sy.
  destruct x as [sx|sx| |sx mx ex]; try discriminate Fx.
  - unfold SFdiv. change (Vz (S754_zero sx)) with 0. rewrite Z.mul_0_l, RND_zero by exact Hy.
    reflexivity.
  - pose proof (valid_finite _ _ _ Vx) as (Hex & Hdx & _).
    assert (sx = false) by (apply (Vz_nonneg_sign sx mx ex); lia). subst sx.
    unfold SFdiv, SFdiv_core_binary. cbn [xorb].
    change (Zdigits2 (Zpos mx)) with (digits (Zpos mx)).
    change (Zdigits2 (Zpos my)) with (digits (Zpos my)).
    set (d1 := digits (Zpos mx)). set (d2 := digits (Zpos my)).
    set (e' := Z.min (fexp prec emax (d1 + ex - (d2 + ey))) (ex - ey)).
    set (s := ex - ey - e').
    assert (Hs : 0 <= s) by (unfold s, e'; lia).
    assert (Ps : 0 < 2 ^ s) by (apply Z.pow_pos_nonneg; lia).
    set (N := Zpos mx * 2 ^ s).
    assert (HN : match s with
                 | Z.pos _ => Z.shiftl (Zpos mx) s
                 | 0 => Zpos mx
                 | Z.neg _ => 0
                 end = N).
    { unfold N. destruct s as [|p|p] eqn:Es; [lia| |lia].
      rewrite Z.shiftl_mul_pow2 by lia. reflexivity. }
    rewrite HN.
    assert (HN0 : 0 < N) by (unfold N; nia).
    assert (Hq : Z.div_eucl N (Zpos my) = (N / Zpos my, N mod Zpos my)).
    { unfold Z.div, Z.modulo. destruct (Z.div_eucl N (Zpos my)); reflexivity. }
    rewrite Hq, new_location_loc_of by lia.
    assert (HdN : digits N = d1 + s) by (unfold N, d1; apply digits_mul_pow; lia).
    pose proof (digits_quotient_lower N (Zpos my) HN0 ltac:(lia)) as Hdq.
    fold d2 in Hdq. rewrite HdN in Hdq.
    apply binary_round_aux_RND.
    + lia.
    + lia.
    + reflexivity.
    + apply Z.le_trans with (fexp prec emax (d1 + ex - (d2 + ey))); [unfold e'; lia|].
      apply fexp_mono. unfold s in Hdq. lia.
    + apply Z.mul_nonneg_nonneg; lia.
    + exact Hy.
    + unfold Vz. fold N.
      destruct (Z.leb_spec 0 (e' + 1074)) as [Ht|Ht].
      * assert (K : 2 ^ (ex + 1074) * 2 ^ 1074 = 2 ^ s * 2 ^ (e' + 1074) * 2 ^ (ey + 1074)).
        { rewrite <- !Z.pow_add_r by lia. f_equal. unfold s. lia. }
        transitivity (Zpos mx * Zpos my * (2 ^ (ex + 1074) * 2 ^ 1074)); [ring|].
        rewrite K. unfold N. ring.
      * assert (K : 2 ^ (ex + 1074) * 2 ^ 1074 * 2 ^ (- (e' + 1074))
                    = 2 ^ s * 2 ^ (ey + 1074)).
        { rewrite <- !Z.pow_add_r by lia. f_equal. unfold s. lia. }
        transitivity (Zpos mx * Zpos my * (2 ^ (ex + 1074) * 2 ^ 1074 * 2 ^ (- (e' + 1074))));
          [ring|].
        rewrite K. unfold N. ring.
Qed.

(** Multiplication of a non-negative number by a positive normal one. *)
Lemma SFmul_RND (x y : spec_float) :
  valid_binary x = true -> valid_binary y = true ->
  is_fin x = true -> 0 <= Vz x ->
  (exists my ey, y = S754_finite false my ey /\ digits (Zpos my) = 53) ->
  rounds_to (SFmul prec emax x y) (RND (Vz x * Vz y) (2 ^ 1074)).
Proof.
  intros Vx Vy Fx Hx (my & ey & -> & Hdy).
  pose proof (valid_finite _ _ _ Vy) as (Hey & _).
  destruct x as [sx|sx| |sx mx ex]; try discriminate Fx.
  - unfold SFmul. change (Vz (S754_zero sx)) with 0.
    rewrite Z.mul_0_l, RND_zero by (apply Z.pow_pos_nonneg; lia). reflexivity.
  - pose proof (valid_finite _ _ _ Vx) as (Hex & _).
    assert (sx = false) by (apply (Vz_nonneg_sign sx mx ex); lia). subst sx.
    unfold SFmul. cbn [xorb].
    rewrite <- (loc_of_one (Zpos (mx * my))).
    pose proof (digits_bounds (Zpos my) ltac:(lia)) as [B _]. rewrite Hdy in B.
    change (2 ^ (53 - 1)) with (2 ^ 52) in B.
    assert (Hd : 52 < digits (Zpos (mx * my))).
    { apply digits_ge_pow; [lia|]. rewrite Pos2Z.inj_mul. nia. }
    apply binary_round_aux_RND.
    + lia.
    + lia.
    + rewrite Z.div_1_r. reflexivity.
    + rewrite fexp_eq. lia.
    + unfold Vz. pose proof (pos_value_pos mx ex ltac:(lia)).
      pose proof (pos_value_pos my ey ltac:(lia)). nia.
    + apply Z.pow_pos_nonneg; lia.
    + unfold Vz. rewrite Pos2Z.inj_mul.
      destruct (Z.leb_spec 0 (ex + ey + 1074)) as [Ht|Ht].
      * assert (K : 2 ^ (ex + 1074) * 2 ^ (ey + 1074) = 2 ^ (ex + ey + 1074) * 2 ^ 1074).
        { rewrite <- !Z.pow_add_r by lia. f_equal. lia. }
        transitivity (Zpos mx * Zpos my * (2 ^ (ex + 1074) * 2 ^ (ey + 1074))); [ring|].
        rewrite K. ring.
      * assert (K : 2 ^ (ex + 1074) * 2 ^ (ey + 1074) * 2 ^ (- (ex + ey + 1074)) = 2 ^ 1074).
        { rewrite <- !Z.pow_add_r by lia. f_equal. lia. }
        transitivity (Zpos mx * Zpos my
                      * (2 ^ (ex + 1074) * 2 ^ (ey + 1074) * 2 ^ (- (ex + ey + 1074)))); [ring|].
        rewrite K. ring.
Qed.

Lemma RND_nonneg (N D : Z) : 0 <= N -> 0 < D -> 0 <= RND N D.
Proof.
  intros HN HD. rewrite <- (RND_zero D HD). apply RND_mono; lia.
Qed.

(** ** Primitive floats *)

Lemma leb_Vf (x y : float) :
  finite x = true -> finite y = true -> (x <=? y)%float = (Vf x <=? Vf y).
Proof.
  intros Fx Fy. rewrite FloatAxioms.leb_spec. unfold SFleb, Vf.
  rewrite SFcompare_Vz by (try apply Prim2SF_valid; assumption).
  unfold Z.leb. destruct (Vz (Prim2SF x) ?= Vz (Prim2SF y)); reflexivity.
Qed.

Lemma ltb_Vf (x y : float) :
  finite x = true -> finite y = true -> (x <? y)%float = (Vf x <? Vf y).
Proof.
  intros Fx Fy. rewrite FloatAxioms.ltb_spec. unfold SFltb, Vf.
  rewrite SFcompare_Vz by (try apply Prim2SF_valid; assumption).
  unfold Z.ltb. destruct (Vz (Prim2SF x) ?= Vz (Prim2SF y)); reflexivity.
Qed.

Lemma eqb_Vf (x y : float) :
  finite x = true -> finite y = true -> (x =? y)%float = (Vf x =? Vf y).
Proof.
  intros Fx Fy. rewrite FloatAxioms.eqb_spec. unfold SFeqb, Vf.
  rewrite SFcompare_Vz by (try apply Prim2SF_valid; assumption).
  destruct (Z.compare_spec (Vz (Prim2SF x)) (Vz (Prim2SF y)));
    destruct (Z.eqb_spec (Vz (Prim2SF x)) (Vz (Prim2SF y))); try reflexivity; lia.
Qed.


(** ** The result monad *)

Lemma mapM_Return {A B : Type} (f : A -> result B) (g : A -> B) (l : list A) :
  (forall x, In x l -> f x = Return (g x)) -> mapM f l = Return (map g l).
Proof.
  induction l as [|x t IH]; intros H; simpl; [reflexivity|].
  rewrite (H x (or_introl eq_refl)); simpl.
  rewrite IH by (intros y Hy; apply H; right; exact Hy).
  reflexivity.
Qed.

(** ** Sorting *)

Section SortingFacts.
Context {A : Type} (le : A -> A -> bool).

Lemma insert_sorted_perm (x : A) (l : list A) :
  Permutation (insert_sorted le x l) (x :: l).
Proof.
  induction l as [|y t IH]; simpl; [reflexivity|].
  destruct (le x y); [reflexivity|].
  rewrite IH. apply perm_swap.
Qed.

Lemma py_sorted_perm (l : list A) : Permutation (py_sorted le l) l.
Proof.
  induction l as [|x t IH]; simpl; [constructor|].
  rewrite insert_sorted_perm. constructor. exact IH.
Qed.

Hypothesis le_total : forall x y, le x y = true \/ le y x = true.
Hypothesis le_trans : forall x y z, le x y = true -> le y z = true -> le x z = true.

Lemma insert_sorted_sorted (x : A) (l : list A) :
  StronglySorted (fun a b => le a b = true) l ->
  StronglySorted (fun a b => le a b = true) (insert_sorted le x l).
Proof.
  induction 1 as [|y t Hs IH Hall]; simpl.
  - repeat constructor.
  - destruct (le x y) eqn:E.
    + constructor; [constructor; assumption|].
      constructor; [exact E|].
      rewrite Forall_forall in *. intros z Hz. eapply le_trans; eauto.
    + constructor; [exact IH|].
      assert (Hyx : le y x = true) by (destruct (le_total x y); congruence).
      rewrite Forall_forall in *. intros z Hz.
      apply (Permutation_in _ (insert_sorted_perm x t)) in Hz.
      destruct Hz as [<-|Hz]; auto.
Qed.

Lemma py_sorted_sorted (l : list A) :
  StronglySorted (fun a b => le a b = true) (py_sorted le l).
Proof.
  induction l as [|x t IH]; simpl; [constructor|].
  apply insert_sorted_sorted, IH.
Qed.

(** Sorting a sorted list changes nothing. *)
Lemma py_sorted_id (l : list A) :
  StronglySorted (fun a b => le a b = true) l -> py_sorted le l = l.
Proof.
  induction 1 as [|x t Hs IH Hall]; simpl; [reflexivity|].
  rewrite IH. destruct t as [|y t']; [reflexivity|].
  simpl. inversion Hall; subst. rewrite H1. reflexivity.
Qed.
End SortingFacts.

Lemma sorted_Z_strict (l : list Z) :
  StronglySorted (fun a b => Z.leb a b = true) l -> NoDup l -> StronglySorted Z.lt l.
Proof.
  induction 1 as [|x t Hs IH Hall]; intros Hnd; [constructor|].
  inversion Hnd; subst. constructor; [auto|].
  rewrite Forall_forall in *. intros y Hy.
  specialize (Hall y Hy). apply Z.leb_le in Hall.
  assert (x <> y) by (intros ->; contradiction). lia.
Qed.

Lemma py_sorted_Z (l : list Z) :
  NoDup l -> StronglySorted Z.lt (py_sorted Z.leb l).
Proof.
  intros Hnd. apply sorted_Z_strict.
  - apply py_sorted_sorted.
    + intros x y. rewrite !Z.leb_le. lia.
    + intros x y z. rewrite !Z.leb_le. lia.
  - eapply Permutation_NoDup; [symmetry; apply py_sorted_perm|exact Hnd].
Qed.

(** ** Hour labels *)

Lemma hour_label_cases (s : string) :
  is_hour_label s = true ->
  exists h, 0 <= h < 24 /\ s = hour_label h /\ py_int s = Return h.
Proof.
  unfold is_hour_label, hour_labels. simpl.
  rewrite !orb_true_iff, !String.eqb_eq.
  intros H.
  repeat (destruct H as [H|H];
          [subst s; eexists; split; [|split; [|vm_compute; reflexivity]];
           [|vm_compute; reflexivity]; lia|]).
  discriminate.
Qed.

Lemma hour_labels_ints (hours : list string) :
  forallb is_hour_label hours = true ->
  mapM py_int hours = Return (map hour_of hours) /\
  Forall (fun h => 0 <= h < 24) (map hour_of hours).
Proof.
  intros H. rewrite forallb_forall in H. split.
  - apply mapM_Return. intros s Hs.
    destruct (hour_label_cases s (H s Hs)) as (h & _ & _ & E).
    unfold hour_of. rewrite E. reflexivity.
  - rewrite Forall_map, Forall_forall. intros s Hs.
    destruct (hour_label_cases s (H s Hs)) as (h & Hh & _ & E).
    unfold hour_of. rewrite E. exact Hh.
Qed.

Lemma hour_of_inj (s1 s2 : string) :
  is_hour_label s1 = true -> is_hour_label s2 = true ->
  hour_of s1 = hour_of s2 -> s1 = s2.
Proof.
  intros H1 H2.
  destruct (hour_label_cases s1 H1) as (h1 & _ & E1 & P1).
  destruct (hour_label_cases s2 H2) as (h2 & _ & E2 & P2).
  unfold hour_of. rewrite P1, P2. intros ->. congruence.
Qed.

Lemma hour_labels_NoDup (hours : list string) :
  forallb is_hour_label hours = true -> NoDup hours -> NoDup (map hour_of hours).
Proof.
  intros H Hnd. rewrite forallb_forall in H.
  induction Hnd as [|s t Hnotin Hnd IH]; simpl; constructor.
  - rewrite in_map_iff. intros (s' & E & Hs').
    apply hour_of_inj in E; [subst; contradiction| |]; apply H; simpl; auto.
  - apply IH. intros x Hx. apply H. right. exact Hx.
Qed.

(** ** The compressor's loop computes the runs *)

Lemma ranges_loop_runs (rest : list Z) (acc : list string) (s e : Z) :
  (let '(ranges, s', e') := ranges_loop rest acc s e in
   ranges ++ [render_range s' e']) = acc ++ map render_run (runs_from s e rest).
Proof.
  revert acc s e. induction rest as [|h t IH]; intros acc s e; simpl; [reflexivity|].
  destruct (h =? e + 1).
  - apply IH.
  - rewrite IH, <- app_assoc. reflexivity.
Qed.

Lemma interval_snoc (s e : Z) :
  s <= e + 1 -> interval s (e + 1) = interval s e ++ [e + 1].
Proof.
  intros H. unfold interval.
  replace (Z.to_nat (e + 1 - s + 1)) with (S (Z.to_nat (e - s + 1))) by lia.
  rewrite seq_S, map_app. simpl. do 2 f_equal. lia.
Qed.

Lemma interval_one (s : Z) : interval s s = [s].
Proof.
  unfold interval. replace (s - s + 1) with 1 by lia. simpl. f_equal. lia.
Qed.

Lemma runs_from_cover (rest : list Z) (s e : Z) :
  s <= e -> StronglySorted Z.lt (e :: rest) ->
  flat_map (fun r => interval (fst r) (snd r)) (runs_from s e rest)
  = interval s e ++ rest.
Proof.
  revert s e. induction rest as [|h t IH]; intros s e Hse Hs; simpl.
  - reflexivity.
  - inversion Hs as [|? ? Hs' Hall]; subst.
    destruct (Z.eqb_spec h (e + 1)) as [->|Hne].
    + rewrite IH by (assumption || lia).
      rewrite interval_snoc by lia. rewrite <- app_assoc. reflexivity.
    + simpl. rewrite IH by (assumption || lia).
      rewrite interval_one. reflexivity.
Qed.

Lemma runs_from_head (rest : list Z) (s e : Z) :
  exists e' rs, runs_from s e rest = (s, e') :: rs.
Proof.
  revert s e. induction rest as [|h t IH]; intros s e; simpl; eauto.
  destruct (h =? e + 1); eauto.
Qed.

Lemma runs_from_maximal (rest : list Z) (s e : Z) :
  s <= e -> StronglySorted Z.lt (e :: rest) -> maximal_runs (runs_from s e rest).
Proof.
  revert s e. induction rest as [|h t IH]; intros s e Hse Hs; simpl.
  - constructor. exact Hse.
  - inversion Hs as [|? ? Hs' Hall]; subst.
    inversion Hall as [|? ? Hlt _]; subst.
    destruct (Z.eqb_spec h (e + 1)) as [->|Hne].
    + apply IH; [lia|assumption].
    + destruct (runs_from_head t h h) as (e' & rs & E).
      specialize (IH h h (Z.le_refl h) Hs'). rewrite E in *.
      constructor; [exact Hse|lia|exact IH].
Qed.

Lemma hour_runs_cover (l : list Z) :
  StronglySorted Z.lt l ->
  flat_map (fun r => interval (fst r) (snd r)) (hour_runs l) = l.
Proof.
  destruct l as [|h t]; intros Hs; [reflexivity|].
  simpl. rewrite runs_from_cover by (assumption || lia).
  rewrite interval_one. reflexivity.
Qed.

Lemma hour_runs_maximal (l : list Z) :
  StronglySorted Z.lt l -> maximal_runs (hour_runs l).
Proof.
  destruct l as [|h t]; intros Hs; [constructor|].
  apply runs_from_maximal; [lia|assumption].
Qed.

Lemma format_hour_ranges_runs (hours : list string) :
  forallb is_hour_label hours = true ->
  _format_hour_ranges hours
  = Return (Str.join ", " (map render_run (hour_runs (py_sorted Z.leb (map hour_of hours))))).
Proof.
  intros H. destruct (hour_labels_ints hours H) as [E _].
  destruct hours as [|s t]; [reflexivity|].
  unfold _format_hour_ranges. rewrite E. cbn [bind].
  destruct (py_sorted Z.leb (map hour_of (s :: t))) as [|h0 rest] eqn:Es.
  - exfalso.
    apply (Permutation_nil_cons (l := map hour_of t) (x := hour_of s)).
    rewrite <- Es. apply (py_sorted_perm Z.leb (map hour_of (s :: t))).
  - pose proof (ranges_loop_runs rest [] h0 h0) as L.
    destruct (ranges_loop rest [] h0 h0) as [[ranges s'] e'].
    rewrite L. reflexivity.
Qed.

(** C4. On every set of hour labels the compressor sorts the hours,
    merges the maximal runs of consecutive hours, prints a one-hour run as
    "HH:00" and a longer one as "HH:00-HH:00" whose end is [(last + 1) mod 24],
    joins the runs with ", ", and prints nothing for no hours. *)
Theorem format_hour_ranges_spec :
  (_format_hour_ranges ["00"; "01"; "02"; "05"]%string = Return "00:00-03:00, 05:00"%string
   /\ _format_hour_ranges ["23"]%string = Return "23:00"%string
   /\ _format_hour_ranges ["22"; "23"]%string = Return "22:00-00:00"%string
   /\ _format_hour_ranges [] = Return EmptyString)
  /\ (forall s e, render_run (s, e) =
        if s =? e then hour_label s +++ ":00"
        else hour_label s +++ ":00-" +++ hour_label ((e + 1) mod 24) +++ ":00")
  /\ forall hours : list string,
      forallb is_hour_label hours = true -> NoDup hours ->
      exists sorted runs,
        mapM py_int hours = Return (map hour_of hours)
        /\ Permutation sorted (map hour_of hours)
        /\ StronglySorted Z.lt sorted
        /\ flat_map (fun r => interval (fst r) (snd r)) runs = sorted
        /\ maximal_runs runs
        /\ _format_hour_ranges hours = Return (Str.join ", " (map render_run runs)).
Proof.
  split; [repeat (split; [vm_compute; reflexivity|]); vm_compute; reflexivity|].
  split; [intros s e; reflexivity|].
  intros hours H Hnd.
  pose proof (py_sorted_Z _ (hour_labels_NoDup hours H Hnd)) as Hs.
  exists (py_sorted Z.leb (map hour_of hours)), (hour_runs (py_sorted Z.leb (map hour_of hours))).
  repeat split.
  - apply hour_labels_ints, H.
  - apply py_sorted_perm.
  - exact Hs.
  - apply hour_runs_cover, Hs.
  - apply hour_runs_maximal, Hs.
  - apply format_hour_ranges_runs, H.
Qed.

Lemma format_hour_ranges_spec_witness :
  forallb is_hour_label ["05"; "01"; "00"; "02"]%string = true
  /\ NoDup ["05"; "01"; "00"; "02"]%string
  /\ exists sorted runs,
        mapM py_int ["05"; "01"; "00"; "02"]%string
        = Return (map hour_of ["05"; "01"; "00"; "02"]%string)
        /\ Permutation sorted (map hour_of ["05"; "01"; "00"; "02"]%string)
        /\ StronglySorted Z.lt sorted
        /\ flat_map (fun r => interval (fst r) (snd r)) runs = sorted
        /\ maximal_runs runs
        /\ _format_hour_ranges ["05"; "01"; "00"; "02"]%string
           = Return (Str.join ", " (map render_run runs)).
Proof.
  assert (Hnd : NoDup ["05"; "01"; "00"; "02"]%string).
  { repeat constructor; simpl; intuition discriminate. }
  split; [reflexivity|]. split; [exact Hnd|].
  exact (proj2 (proj2 format_hour_ranges_spec) ["05"; "01"; "00"; "02"]%string eq_refl Hnd).
Defined.

(** ** Strings *)

Lemma append_nil_r (s : string) : s +++ EmptyString = s.
Proof. induction s; simpl; congruence. Qed.

Lemma append_assoc (a b c : string) : (a +++ b) +++ c = a +++ b +++ c.
Proof. induction a; simpl; congruence. Qed.


Lemma all_append (p : ascii -> bool) (a b : string) :
  Str.all p (a +++ b) = Str.all p a && Str.all p b.
Proof. induction a; simpl; [reflexivity|]. rewrite IHa, andb_assoc. reflexivity. Qed.

Lemma contains_append (c : ascii) (a b : string) :
  Str.contains c (a +++ b) = Str.contains c a || Str.contains c b.
Proof. induction a; simpl; [reflexivity|]. rewrite IHa, orb_assoc. reflexivity. Qed.

Lemma all_not_contains (p : ascii -> bool) (c : ascii) (s : string) :
  p c = false -> Str.all p s = true -> Str.contains c s = false.
Proof.
  intros Hc. induction s as [|a t IH]; simpl; [reflexivity|].
  rewrite andb_true_iff. intros [Ha Ht].
  rewrite (IH Ht), orb_false_r.
  destruct (Ascii.eqb_spec a c); [congruence|reflexivity].
Qed.

Lemma rstrip_cons_ne (c a : ascii) (s : string) :
  a <> c -> Str.rstrip c (String a s) = String a (Str.rstrip c s).
Proof.
  intros H. simpl. destruct (Str.rstrip c s); [|reflexivity].
  destruct (Ascii.eqb_spec a c); [contradiction|reflexivity].
Qed.

Lemma rstrip_append (c : ascii) (a b : string) :
  Str.rstrip c (a +++ b) =
  match Str.rstrip c b with
  | EmptyString => Str.rstrip c a
  | r => a +++ r
  end.
Proof.
  induction a as [|x t IH]; simpl.
  - destruct (Str.rstrip c b); reflexivity.
  - rewrite IH. destruct (Str.rstrip c b); [reflexivity|].
    destruct t; reflexivity.
Qed.

Lemma rstrip_absent (c : ascii) (s : string) :
  Str.contains c s = false -> Str.rstrip c s = s.
Proof.
  induction s as [|a t IH]; simpl; [reflexivity|].
  rewrite orb_false_iff. intros [Ha Ht]. rewrite (IH Ht).
  destruct t; [rewrite Ha|]; reflexivity.
Qed.

Lemma rstrip_all (p : ascii -> bool) (c : ascii) (s : string) :
  Str.all p s = true -> Str.all p (Str.rstrip c s) = true.
Proof.
  induction s as [|a t IH]; simpl; [reflexivity|].
  rewrite andb_true_iff. intros [Ha Ht]. specialize (IH Ht).
  destruct (Str.rstrip c t).
  - destruct (Ascii.eqb a c); simpl; [reflexivity|]. rewrite Ha. reflexivity.
  - simpl in *. rewrite Ha. exact IH.
Qed.

Lemma digit_char_is_digit (n : Z) : Str.is_digit (Str.digit_char (n mod 10)) = true.
Proof.
  pose proof (Z.mod_pos_bound n 10 ltac:(lia)) as H.
  assert (E : exists k : nat, (k < 10)%nat /\ n mod 10 = Z.of_nat k).
  { exists (Z.to_nat (n mod 10)). lia. }
  destruct E as (k & Hk & ->).
  do 10 (destruct k as [|k]; [reflexivity|]). lia.
Qed.


Lemma fixed_digits_all (k : nat) (n : Z) :
  Str.all Str.is_digit (Str.fixed_digits k n) = true.
Proof.
  revert n. induction k as [|k IH]; intros n; simpl; [reflexivity|].
  rewrite all_append, IH. simpl. rewrite digit_char_is_digit. reflexivity.
Qed.

Lemma digits_acc_all (fuel : nat) (n : Z) (acc : string) :
  Str.all Str.is_digit acc = true ->
  Str.all Str.is_digit (Str.digits_acc fuel n acc) = true.
Proof.
  revert n acc. induction fuel as [|f IH]; intros n acc H; simpl; [exact H|].
  assert (H' : Str.all Str.is_digit (String (Str.digit_char (n mod 10)) acc) = true).
  { simpl. rewrite digit_char_is_digit. exact H. }
  destruct (n <? 10); [exact H'|]. apply IH, H'.
Qed.

Lemma of_nonneg_all (n : Z) : Str.all Str.is_digit (Str.of_nonneg n) = true.
Proof. apply digits_acc_all. reflexivity. Qed.

Lemma digits_acc_nonempty (fuel : nat) (n : Z) (acc : string) :
  (acc <> EmptyString \/ fuel <> O) -> Str.digits_acc fuel n acc <> EmptyString.
Proof.
  revert n acc. induction fuel as [|f IH]; intros n acc H; simpl.
  - destruct H as [H|H]; [exact H|congruence].
  - destruct (n <? 10); [discriminate|]. apply IH. left. discriminate.
Qed.

Lemma of_nonneg_nonempty (n : Z) : Str.of_nonneg n <> EmptyString.
Proof. apply digits_acc_nonempty. right. discriminate. Qed.

(** ** [format_price] *)

Lemma sign_digits_no_point (s : bool) (ip : string) :
  Str.all Str.is_digit ip = true -> Str.contains "." (sign_str s +++ ip) = false.
Proof.
  intros H. rewrite contains_append.
  rewrite (all_not_contains Str.is_digit "." ip eq_refl H).
  destruct s; reflexivity.
Qed.

(** Trimming a fixed-point rendering. *)
Lemma trim_render_fixed (s : bool) (n : Z) (d : nat) :
  let fixed := sign_str s +++ render_fixed n d in
  (if Str.contains "." fixed then Str.rstrip "." (Str.rstrip "0" fixed) else fixed)
  = sign_str s +++ Str.of_nonneg (n / 10 ^ Z.of_nat d)
      +++ trim_fraction (Str.fixed_digits d (n mod 10 ^ Z.of_nat d)).
Proof.
  cbv zeta. unfold render_fixed, trim_fraction.
  set (ip := Str.of_nonneg (n / 10 ^ Z.of_nat d)).
  set (frac := Str.fixed_digits d (n mod 10 ^ Z.of_nat d)).
  assert (Hip : Str.all Str.is_digit ip = true) by apply of_nonneg_all.
  assert (Hfr : Str.all Str.is_digit frac = true) by apply fixed_digits_all.
  destruct d as [|d'].
  - subst frac. simpl Str.fixed_digits. simpl Str.rstrip. cbv iota.
    rewrite append_nil_r, sign_digits_no_point by exact Hip. reflexivity.
  - cbv iota.
    rewrite <- (append_assoc (sign_str s) ip (String "." frac)).
    rewrite contains_append. simpl Str.contains at 2. rewrite orb_true_r.
    rewrite rstrip_append, rstrip_cons_ne by discriminate.
    pose proof (rstrip_all Str.is_digit "0" frac Hfr) as Hf'.
    destruct (Str.rstrip "0" frac) as [|a f'] eqn:E.
    + change (String "." EmptyString) with (Str.ch ".").
      rewrite rstrip_append. simpl Str.rstrip.
      rewrite rstrip_absent by (apply sign_digits_no_point, Hip).
      rewrite append_nil_r. reflexivity.
    + change (String "." (String a f')) with (Str.ch "." +++ String a f').
      rewrite <- (append_assoc (sign_str s +++ ip) (Str.ch ".") (String a f')).
      rewrite rstrip_append.
      rewrite (rstrip_absent "." (String a f'))
        by (apply (all_not_contains Str.is_digit); [reflexivity|exact Hf']).
      rewrite !append_assoc. reflexivity.
Qed.






(** C6. A negative value keeps its sign: the result is a minus sign
    followed by what the magnitude formats to. *)
Theorem format_price_negative (x : float) (d : nat) :
  (x <? 0)%float = true ->
  format_price x d = String "-" (format_price (abs x) d).
Proof.
  rewrite ltb_spec. intros H.
  assert (E : format_fixed x d = String "-" (format_fixed (abs x) d)).
  { unfold format_fixed. rewrite abs_spec.
    change (Prim2SF 0) with (S754_zero false) in H.
    destruct (Prim2SF x) as [s|s| |s m e]; try discriminate H;
      destruct s; try discriminate H; reflexivity. }
  unfold format_price. rewrite E. simpl Str.contains.
  destruct (Str.contains "." (format_fixed (abs x) d)); [|reflexivity].
  rewrite !rstrip_cons_ne by discriminate. reflexivity.
Qed.

Lemma format_price_negative_witness :
  (-1.5 <? 0)%float = true
  /\ format_price (-1.5)%float 4 = String "-" (format_price (abs (-1.5)%float) 4).
Proof.
  split; [reflexivity|]. apply (format_price_negative (-1.5)%float 4). reflexivity.
Defined.

(** C6, as worded: the result for a negative value is not the result for
    its magnitude. *)
Lemma format_price_negative_not_magnitude :
  ~ (forall x : float, (x <? 0)%float = true ->
       format_price x default_decimals = format_price (abs x) default_decimals).
Proof.
  intros H. specialize (H (-1.5)%float eq_refl). vm_compute in H. discriminate H.
Qed.

(** ** Aggregation *)

Lemma foldM_Return {A B : Type} (f : A -> B -> result A) (g : A -> B -> A)
  (l : list B) (a : A) :
  (forall x, In x l -> forall a', f a' x = Return (g a' x)) ->
  foldM f a l = Return (fold_left g l a).
Proof.
  revert a. induction l as [|x t IH]; intros a H; simpl; [reflexivity|].
  rewrite (H x (or_introl eq_refl)). simpl.
  apply IH. intros y Hy. apply H. right. exact Hy.
Qed.

Lemma lookup_app {V : Type} (k : string) (d1 d2 : dict V) :
  lookup k (d1 ++ d2) =
  match lookup k d1 with
  | Some v => Some v
  | None => lookup k d2
  end.
Proof.
  induction d1 as [|[k' v'] t IH]; simpl; [reflexivity|].
  destruct (String.eqb k k'); [reflexivity|exact IH].
Qed.

Lemma lookup_None {V : Type} (k : string) (d : dict V) :
  lookup k d = None <-> ~ In k (map fst d).
Proof.
  induction d as [|[k' v'] t IH]; simpl; [tauto|].
  destruct (String.eqb_spec k k') as [->|Hne].
  - split; [discriminate|]. intros H. exfalso. apply H. left. reflexivity.
  - rewrite IH. split; intros H; [intros [E|E]; [congruence|contradiction]|tauto].
Qed.

Lemma dict_set_new {V : Type} (d : dict V) (k : string) (v : V) :
  lookup k d = None -> dict_set d k v = d ++ [(k, v)].
Proof.
  induction d as [|[k' v'] t IH]; simpl; [reflexivity|].
  destruct (String.eqb k k'); [discriminate|].
  intros H. rewrite (IH H). reflexivity.
Qed.

Lemma range24_labels :
  forallb (fun h => is_hour_label (Str.fmt02d h)) (py_range 24) = true.
Proof. vm_compute. reflexivity. Qed.

Lemma range24_label (h : Z) : In h (py_range 24) -> is_hour_label (Str.fmt02d h) = true.
Proof.
  intros H. pose proof range24_labels as L. rewrite forallb_forall in L. exact (L h H).
Qed.

Lemma range24_NoDup : NoDup (map Str.fmt02d (py_range 24)).
Proof.
  apply (NoDup_map_inv hour_of). 
  replace (map hour_of (map Str.fmt02d (py_range 24))) with (py_range 24)
    by (vm_compute; reflexivity).
  unfold py_range. apply Injective_map_NoDup.
  - intros a b. lia.
  - apply seq_NoDup.
Qed.

Section AggregationFacts.

Variable float_of_str : string -> option float.


Lemma add_prices_app (st : float * bool) (l1 l2 : list float) :
  add_prices (add_prices st l1) l2 = add_prices st (l1 ++ l2).
Proof.
  unfold add_prices. simpl. rewrite fold_left_app. f_equal.
  destruct l1, l2; simpl; rewrite ?orb_false_r, ?orb_true_r; reflexivity.
Qed.

Lemma add_prices_nil (st : float * bool) : add_prices st [] = st.
Proof. destruct st. unfold add_prices. simpl. rewrite orb_false_r. reflexivity. Qed.

Lemma add_prices_one (st : float * bool) (f : float) :
  add_prices st [f] = ((fst st + f)%float, true).
Proof. unfold add_prices. simpl. rewrite orb_true_r. reflexivity. Qed.

Lemma tp_step_ok (hour_str : string) (st : float * bool) (tp : json) :
  is_hour_label hour_str = true -> point_ok tp = true ->
  tp_step float_of_str hour_str st tp
  = Return (add_prices st (somes [point_price float_of_str hour_str tp])).
Proof.
  intros Hh Hok. destruct tp as [| | | | | |d]; try discriminate Hok.
  unfold tp_step, point_price, point_ok in *.
  change (py_get (JDict d) "name" JNull) with (Return (A := json) (field "name" (JDict d))).
  change (py_get (JDict d) "priceWestDenmark" JNull)
    with (Return (A := json) (field "priceWestDenmark" (JDict d))).
  cbn [bind].
  destruct (json_eq_str (field "name" (JDict d)) hour_str) eqn:En;
    [|simpl; rewrite add_prices_nil; reflexivity].
  destruct (field "name" (JDict d)) as [| | | |n| |]; try discriminate En.
  simpl in En. apply String.eqb_eq in En. subst n. rewrite Hh in Hok.
  destruct (field "priceWestDenmark" (JDict d)) as [|b|z|f|s|l|l];
    cbn [price_ok parse_price py_float] in *; try discriminate Hok.
  - rewrite add_prices_nil. reflexivity.
  - cbn [somes]. rewrite add_prices_one. reflexivity.
  - destruct (float_of_Z z); [|discriminate Hok].
    cbn [somes]. rewrite add_prices_one. reflexivity.
  - cbn [somes]. rewrite add_prices_one. reflexivity.
  - destruct (float_of_str s); cbn [somes];
      [rewrite add_prices_one|rewrite add_prices_nil]; reflexivity.
Qed.

Lemma tps_fold (hour_str : string) (tps : list json) (st : float * bool) :
  is_hour_label hour_str = true -> forallb (point_ok) tps = true ->
  foldM (tp_step float_of_str hour_str) st tps
  = Return (add_prices st (somes (map (point_price float_of_str hour_str) tps))).
Proof.
  intros Hh. revert st. induction tps as [|tp t IH]; intros st Hok; simpl.
  - rewrite add_prices_nil. reflexivity.
  - apply andb_true_iff in Hok as [Htp Ht].
    rewrite (tp_step_ok hour_str st tp Hh Htp). cbn [bind].
    rewrite (IH _ Ht), add_prices_app. f_equal. f_equal.
    destruct (point_price float_of_str hour_str tp); reflexivity.
Qed.

Lemma series_step_ok (hour_str : string) (st : float * bool) (series : json) :
  is_hour_label hour_str = true -> series_ok series = true ->
  series_step float_of_str hour_str st series
  = Return (add_prices st (somes (map (point_price float_of_str hour_str) (series_points series)))).
Proof.
  intros Hh Hok. destruct series as [| | | | | |d]; try discriminate Hok.
  unfold series_step, series_ok, series_points, py_get in *.
  destruct (lookup "timePoints" d) as [[| | | | |l|]|]; try discriminate Hok; cbn [bind py_iter].
  - apply tps_fold; assumption.
  - simpl. rewrite add_prices_nil. reflexivity.
Qed.

Lemma series_fold (hour_str : string) (cs : list json) (st : float * bool) :
  is_hour_label hour_str = true -> forallb (series_ok) cs = true ->
  foldM (series_step float_of_str hour_str) st cs
  = Return (add_prices st (parseable_prices float_of_str cs hour_str)).
Proof.
  intros Hh. revert st. induction cs as [|s t IH]; intros st Hok; simpl.
  - rewrite add_prices_nil. reflexivity.
  - apply andb_true_iff in Hok as [Hs Ht].
    rewrite (series_step_ok hour_str st s Hh Hs). cbn [bind].
    rewrite (IH _ Ht), add_prices_app. reflexivity.
Qed.

Lemma hour_step_ok (cs : list json) (totals : dict float) (h : Z) :
  is_hour_label (Str.fmt02d h) = true -> forallb (series_ok) cs = true ->
  lookup (Str.fmt02d h) totals = None ->
  hour_step float_of_str cs totals h = Return (totals ++ expected_totals float_of_str cs [h]).
Proof.
  intros Hh Hok Hnew. unfold hour_step.
  rewrite (series_fold _ cs _ Hh Hok). cbn [bind].
  unfold expected_totals, add_prices. simpl.
  destruct (parseable_prices float_of_str cs (Str.fmt02d h)) as [|p l] eqn:E; simpl.
  - rewrite app_nil_r. reflexivity.
  - rewrite dict_set_new by exact Hnew. reflexivity.
Qed.

Lemma expected_totals_cons (cs : list json) (h : Z) (t : list Z) :
  expected_totals float_of_str cs (h :: t)
  = expected_totals float_of_str cs [h] ++ expected_totals float_of_str cs t.
Proof. unfold expected_totals. simpl. rewrite app_nil_r. reflexivity. Qed.

Lemma expected_totals_keys (cs : list json) (hs : list Z) (k : string) :
  In k (map fst (expected_totals float_of_str cs hs)) -> In k (map Str.fmt02d hs).
Proof.
  induction hs as [|h t IH]; simpl; [tauto|].
  unfold expected_totals in *. simpl.
  rewrite map_app, in_app_iff. intros [H|H]; [|right; apply IH, H].
  destruct (parseable_prices float_of_str cs (Str.fmt02d h)); simpl in H; [tauto|].
  destruct H as [H|[]]. left. exact H.
Qed.

Lemma hours_fold (cs : list json) (hs : list Z) (totals : dict float) :
  Forall (fun h => is_hour_label (Str.fmt02d h) = true) hs ->
  forallb (series_ok) cs = true ->
  NoDup (map Str.fmt02d hs) ->
  (forall h, In h hs -> lookup (Str.fmt02d h) totals = None) ->
  foldM (hour_step float_of_str cs) totals hs = Return (totals ++ expected_totals float_of_str cs hs).
Proof.
  intros Hl Hok. revert totals.
  induction Hl as [|h t Hh Ht IH]; intros totals Hnd Hnew; simpl.
  - rewrite app_nil_r. reflexivity.
  - inversion Hnd as [|? ? Hnotin Hnd']; subst.
    rewrite (hour_step_ok cs totals h Hh Hok (Hnew h (or_introl eq_refl))). cbn [bind].
    rewrite IH; [|exact Hnd'|].
    + rewrite <- app_assoc, <- expected_totals_cons. reflexivity.
    + intros h' Hh'. rewrite lookup_app, (Hnew h' (or_intror Hh')).
      apply lookup_None. intros Hin. apply expected_totals_keys in Hin.
      simpl in Hin. destruct Hin as [E|[]].
      apply Hnotin. rewrite E. apply in_map. exact Hh'.
Qed.

Lemma lookup_expected (cs : list json) (hs : list Z) (k : string) (v : float) :
  NoDup (map Str.fmt02d hs) ->
  lookup k (expected_totals float_of_str cs hs) = Some v <->
  exists h, In h hs /\ k = Str.fmt02d h /\ parseable_prices float_of_str cs k <> []
            /\ v = py_round (hour_sum (parseable_prices float_of_str cs k)) 4.
Proof.
  induction hs as [|h t IH]; intros Hnd.
  - simpl. split; [discriminate|intros (h & [] & _)].
  - inversion Hnd as [|? ? Hnotin Hnd']; subst.
    rewrite expected_totals_cons, lookup_app.
    unfold expected_totals at 1. simpl.
    destruct (parseable_prices float_of_str cs (Str.fmt02d h)) as [|p l] eqn:E; simpl.
    + rewrite (IH Hnd'). split.
      * intros (h' & Hin & Hk & Hp & Hv). exists h'. auto.
      * intros (h' & [->|Hin] & Hk & Hp & Hv); [subst k; congruence|].
        exists h'. auto.
    + destruct (String.eqb_spec k (Str.fmt02d h)) as [->|Hne].
      * rewrite E. split.
        -- intros [= <-]. exists h. repeat split; auto. discriminate.
        -- intros (h' & _ & _ & _ & ->). reflexivity.
      * rewrite (IH Hnd'). split.
        -- intros (h' & Hin & Hk & Hp & Hv). exists h'. auto.
        -- intros (h' & [->|Hin] & Hk & Hp & Hv); [contradiction|].
           exists h'. auto.
Qed.

Lemma expected_totals_nil (cs : list json) (hs : list Z) :
  expected_totals float_of_str cs hs = [] <->
  forall h, In h hs -> parseable_prices float_of_str cs (Str.fmt02d h) = [].
Proof.
  induction hs as [|h t IH]; [simpl; tauto|].
  rewrite expected_totals_cons.
  unfold expected_totals at 1. simpl.
  destruct (parseable_prices float_of_str cs (Str.fmt02d h)) as [|p l] eqn:E; simpl.
  - rewrite IH. split; [intros H h' [<-|Hin]; auto|auto].
  - split; [discriminate|]. intros H. specialize (H h (or_introl eq_refl)). congruence.
Qed.

End AggregationFacts.

(** The result depends on the parser only through its values. *)

Lemma foldM_ext {A B : Type} (f g : A -> B -> result A) (l : list B) (a : A) :
  (forall a' x, f a' x = g a' x) -> foldM f a l = foldM g a l.
Proof.
  intros H. revert a. induction l as [|x t IH]; intros a; simpl; [reflexivity|].
  rewrite H. destruct (g a x); simpl; [apply IH|reflexivity].
Qed.

Lemma fetch_prices_ext (p p' : string -> option float) (data : json) :
  (forall s, p s = p' s) -> fetch_prices p data = fetch_prices p' data.
Proof.
  intros H.
  assert (Hf : forall v, py_float p v = py_float p' v).
  { intros [| | | |s| |]; simpl; try reflexivity. rewrite H. reflexivity. }
  assert (Ht : forall h st tp, tp_step p h st tp = tp_step p' h st tp).
  { intros h st tp. unfold tp_step.
    destruct (py_get tp "name" JNull); simpl; [|reflexivity].
    destruct (json_eq_str a h); [|reflexivity].
    destruct (py_get tp "priceWestDenmark" JNull) as [v|]; simpl; [|reflexivity].
    rewrite Hf. reflexivity. }
  assert (Hs : forall h st sr, series_step p h st sr = series_step p' h st sr).
  { intros h st sr. unfold series_step.
    destruct (py_get sr "timePoints" (JList [])); simpl; [|reflexivity].
    destruct (py_iter a); simpl; [|reflexivity].
    apply foldM_ext. apply Ht. }
  assert (Hh : forall cs totals h, hour_step p cs totals h = hour_step p' cs totals h).
  { intros cs totals h. unfold hour_step.
    rewrite (foldM_ext (series_step p (Str.fmt02d h)) (series_step p' (Str.fmt02d h))
               cs _ (Hs (Str.fmt02d h))).
    reflexivity. }
  unfold fetch_prices.
  destruct (py_get data "chartSeries" JNull) as [cs|e]; cbn [bind]; [|reflexivity].
  destruct cs as [| | | | |l|];
    [reflexivity|reflexivity|reflexivity|reflexivity|reflexivity| |reflexivity].
  destruct l as [|sr l]; [reflexivity|].
  rewrite (foldM_ext (hour_step p (sr :: l)) (hour_step p' (sr :: l))
             (py_range 24) [] (Hh (sr :: l))).
  reflexivity.
Qed.

(** C1. On a payload of the expected shape (an object whose series are
    objects, each with no [timePoints] or with a list of time points that
    are objects, the prices for an hour null, strings, booleans or numbers
    a float can hold) aggregation returns [None] exactly when there is no
    list of series or no hour has a parseable price; otherwise it returns
    the map that holds, for each hour "00" to "23" with a parseable price,
    the sum of the hour's parseable prices over all series, rounded to
    four places. A series whose [timePoints] is null is outside that
    shape: aggregation raises on it. *)
Theorem fetch_prices_spec (float_of_str : string -> option float) :
  (fetch_prices float_of_str two_series_payload = Return (Some [("00"%string, 3%float)])
   /\ fetch_prices float_of_str (JDict []) = Return None
   /\ fetch_prices float_of_str null_points_payload = Raise TypeError)
  /\ forall data : json,
      shaped data = true ->
      let cs := series_of_payload data in
      exists r,
        fetch_prices float_of_str data = Return r
        /\ (r = None <->
            chart_series_of data = None
            \/ forall h, In h (py_range 24) ->
                 parseable_prices float_of_str cs (hour_label h) = [])
        /\ forall totals,
            r = Some totals ->
            totals = expected_totals float_of_str cs (py_range 24)
            /\ forall k v,
                lookup k totals = Some v <->
                exists h, In h (py_range 24) /\ k = hour_label h
                          /\ parseable_prices float_of_str cs k <> []
                          /\ v = py_round (hour_sum (parseable_prices float_of_str cs k)) 4.
Proof.
  split; [repeat (split; [vm_compute; reflexivity|]); vm_compute; reflexivity|].
  intros data Hsh cs.
  destruct data as [| | | | | |d]; try discriminate Hsh.
  unfold fetch_prices, py_get. cbn [bind].
  unfold series_of_payload, chart_series_of, field in cs |- *. unfold shaped in Hsh.
  assert (Hnone : forall r : option (dict float), r = None ->
            (r = None <-> (@None (list json) = None \/
               forall h, In h (py_range 24) ->
                 parseable_prices float_of_str [] (hour_label h) = []))
            /\ forall totals, r = Some totals ->
                 totals = expected_totals float_of_str [] (py_range 24)
                 /\ forall k v, lookup k totals = Some v <->
                      exists h, In h (py_range 24) /\ k = hour_label h
                        /\ parseable_prices float_of_str [] k <> []
                        /\ v = py_round (hour_sum (parseable_prices float_of_str [] k)) 4).
  { intros r ->. split; [tauto|discriminate]. }
  destruct (lookup "chartSeries" d) as [[| | | | |l|]|] eqn:El;
    try (eexists; split; [reflexivity|apply Hnone; reflexivity]).
  subst cs.
  destruct l as [|s l].
  { exists None. split; [reflexivity|]. split; [|discriminate].
    split; [|reflexivity]. intros _. right. reflexivity. }
  set (cs := s :: l) in *.
  assert (Hfold : foldM (hour_step float_of_str cs) [] (py_range 24)
                  = Return (expected_totals float_of_str cs (py_range 24))).
  { rewrite (hours_fold float_of_str cs (py_range 24) []); [reflexivity| |exact Hsh| |].
    - rewrite Forall_forall. apply range24_label.
    - exact range24_NoDup.
    - reflexivity. }
  rewrite Hfold. cbn [bind].
  pose proof (expected_totals_nil float_of_str cs (py_range 24)) as Hnil.
  pose proof (fun k v => lookup_expected float_of_str cs (py_range 24) k v range24_NoDup) as Hlk.
  destruct (expected_totals float_of_str cs (py_range 24)) as [|kv rest] eqn:E.
  - exists None. split; [reflexivity|]. split; [|discriminate].
    split; [|reflexivity]. intros _. right. apply Hnil. reflexivity.
  - exists (Some (kv :: rest)). split; [reflexivity|]. split.
    + split; [discriminate|]. intros [H|H]; [discriminate H|].
      apply Hnil in H. discriminate H.
    + intros totals [= <-]. split; [reflexivity|]. exact Hlk.
Qed.

Lemma fetch_prices_spec_witness :
  shaped two_series_payload = true
  /\ exists r,
       fetch_prices (fun _ => None) two_series_payload = Return r
       /\ forall totals, r = Some totals ->
            totals = expected_totals (fun _ => None) (series_of_payload two_series_payload)
                       (py_range 24).
Proof.
  split; [reflexivity|].
  destruct (proj2 (fetch_prices_spec (fun _ => None)) two_series_payload eq_refl)
    as (r & Hr & _ & Ht).
  exists r. split; [exact Hr|]. intros totals E. exact (proj1 (Ht totals E)).
Defined.

(** C1, as worded for every payload: a payload whose series is not an
    object makes aggregation raise, so it returns neither [None] nor a map. *)
Lemma fetch_prices_raises_on_number_series :
  ~ (forall (float_of_str : string -> option float) (data : json),
       exists r, fetch_prices float_of_str data = Return r).
Proof.
  intros H. destruct (H (fun _ => None) number_series_payload) as [r Hr].
  vm_compute in Hr. discriminate Hr.
Qed.

(** C8. A price that is a list is not skipped: the conversion raises
    [TypeError], which the handler for [ValueError] lets through, and the
    parseable price next to it is lost with the whole result; a string that
    is not a number is skipped. *)
Theorem fetch_prices_list_price_raises (float_of_str : string -> option float) :
  fetch_prices float_of_str list_price_payload = Raise TypeError
  /\ (float_of_str "n/a"%string = None ->
      fetch_prices float_of_str text_price_payload = Return (Some [("00"%string, 1%float)])).
Proof.
  split; [reflexivity|].
  intros H.
  rewrite (fetch_prices_ext float_of_str
             (fun s => if String.eqb s "n/a" then None else float_of_str s)).
  - vm_compute. reflexivity.
  - intros s. destruct (String.eqb_spec s "n/a") as [->|_]; [exact H|reflexivity].
Qed.

(** ** The comparison report *)

Lemma range24_in_labels (h : Z) : In h (py_range 24) -> In (Str.fmt02d h) hour_labels.
Proof.
  unfold py_range, hour_labels, hour_label. rewrite !in_map_iff.
  intros (n & <- & Hn). exists n. split; [reflexivity|exact Hn].
Qed.

Lemma diff_step_skip (today yesterday : dict float)
  (st : list (string * float) * Z * Z * Z) (h : Z) :
  lookup (Str.fmt02d h) today = None \/ lookup (Str.fmt02d h) yesterday = None ->
  diff_step today yesterday st h = st.
Proof.
  destruct st as [[[diffs up] down] stable]. unfold diff_step.
  intros [-> | ->]; [reflexivity|].
  destruct (lookup (Str.fmt02d h) today); reflexivity.
Qed.

Lemma diff_fold_skip (today yesterday : dict float) (hs : list Z)
  (st : list (string * float) * Z * Z * Z) :
  (forall h, In h hs ->
     lookup (Str.fmt02d h) today = None \/ lookup (Str.fmt02d h) yesterday = None) ->
  fold_left (diff_step today yesterday) hs st = st.
Proof.
  revert st. induction hs as [|h t IH]; intros st H; simpl; [reflexivity|].
  rewrite diff_step_skip by (apply H; left; reflexivity).
  apply IH. intros h' Hh'. apply H. right. exact Hh'.
Qed.

Lemma sort_diffs_nil (sort_by : option string) : sort_diffs [] sort_by = [].
Proof.
  unfold sort_diffs. destruct sort_by as [k|]; [|reflexivity].
  destruct (String.eqb k "diff"); [reflexivity|].
  destruct (String.eqb k "diff_desc"); reflexivity.
Qed.

(** C10. Two non-empty maps without a common hour give a report that is
    not empty: the title line and the header row, and nothing else. *)
Theorem comparison_without_common_hour
  (today : dict float) (today_date : string)
  (yesterday : dict float) (yesterday_date : string) (sort_by : option string) :
  today <> [] -> yesterday <> [] ->
  (forall h, In h hour_labels -> lookup h today = None \/ lookup h yesterday = None) ->
  comparison_lines today today_date yesterday yesterday_date sort_by
  = Return [comparison_title today_date yesterday_date; header_row]
  /\ format_comparison_for_display today today_date yesterday yesterday_date sort_by
     = Return (comparison_title today_date yesterday_date +++ newline +++ header_row)
  /\ format_comparison_for_display today today_date yesterday yesterday_date sort_by
     <> Return EmptyString
  /\ header_row
     = "Hour        | Yest     | Today    | Change   | % Chg    | Trend"%string.
Proof.
  intros Ht Hy Hnone.
  assert (L : comparison_lines today today_date yesterday yesterday_date sort_by
              = Return [comparison_title today_date yesterday_date; header_row]).
  { unfold comparison_lines, diff_scan.
    rewrite diff_fold_skip by (intros h Hh; apply Hnone, range24_in_labels, Hh).
    cbn [summary_lines bind]. rewrite sort_diffs_nil. reflexivity. }
  assert (F : format_comparison_for_display today today_date yesterday yesterday_date sort_by
              = Return (comparison_title today_date yesterday_date +++ newline +++ header_row)).
  { unfold format_comparison_for_display.
    destruct today as [|t0 today']; [contradiction|].
    destruct yesterday as [|y0 yesterday']; [contradiction|].
    rewrite L. reflexivity. }
  split; [exact L|]. split; [exact F|]. split; [|reflexivity].
  rewrite F. unfold comparison_title. simpl. discriminate.
Qed.

Lemma comparison_without_common_hour_witness :
  format_comparison_for_display [("00"%string, 2%float)] "2024/01/02"
    [("01"%string, 1%float)] "2024/01/01" None
  = Return (comparison_title "2024/01/02" "2024/01/01" +++ newline +++ header_row).
Proof.
  refine (proj1 (proj2 (comparison_without_common_hour
            [("00"%string, 2%float)] "2024/01/02"
            [("01"%string, 1%float)] "2024/01/01" None _ _ _))).
  - discriminate.
  - discriminate.
  - intros h Hh. unfold hour_labels in Hh. simpl in Hh.
    destruct Hh as [<-|Hh]; [right; reflexivity|].
    left.
    repeat (destruct Hh as [<-|Hh]; [reflexivity|]). destruct Hh.
Defined.

(** ** The sparkline's scale *)

Lemma RND_one : RND 1 1 = 1.
Proof. apply (RND_exact 1 0); simpl; lia. Qed.

Lemma RND_unit : RND (2 ^ 1074) 1 = 2 ^ 1074.
Proof.
  change (2 ^ 1074) with (2 ^ 52 * 2 ^ 1022).
  apply RND_exact; try lia; intros; reflexivity.
Qed.

Lemma RND_seven : RND (7 * 2 ^ 1074) 1 = 7 * 2 ^ 1074.
Proof.
  change (7 * 2 ^ 1074) with (7 * 2 ^ 50 * 2 ^ 1024).
  apply RND_exact; try lia; intros; reflexivity.
Qed.

Lemma Prim2SF_seven : Prim2SF 7 = S754_finite false 7881299347898368 (-50).
Proof. reflexivity. Qed.

Lemma Vz_seven : Vz (S754_finite false 7881299347898368 (-50)) = 7 * 2 ^ 1074.
Proof. reflexivity. Qed.

Lemma trunc_rounds (r : float) (X : Z) :
  rounds_to (Prim2SF r) X -> X < 2 ^ 2098 ->
  py_int_of_float r = Return (X / 2 ^ 1074).
Proof.
  unfold py_int_of_float, rounds_to.
  destruct (Prim2SF r) as [s|[|]| |[|] m e]; intros H Hlt; try contradiction; try lia.
  - subst X. reflexivity.
  - destruct H as [He <-]. f_equal.
    destruct (Z.leb_spec 0 e) as [L|L].
    + replace (e + 1074) with (e + 1074) by lia.
      rewrite Z.pow_add_r, Z.mul_assoc, Z.div_mul by lia. reflexivity.
    + replace (2 ^ 1074) with (2 ^ (- e) * 2 ^ (e + 1074))
        by (rewrite <- Z.pow_add_r by lia; f_equal; lia).
      rewrite Z.div_mul_cancel_r; [reflexivity| |];
        apply Z.pow_nonzero; lia.
Qed.

Section Scale.

Variables min_p max_p : float.
Hypothesis min_finite : finite min_p = true.
Hypothesis max_finite : finite max_p = true.
Hypothesis min_lt_max : (min_p <? max_p)%float = true.
Hypothesis spread_finite : finite (max_p - min_p) = true.

Let mn := Vf min_p.
Let mx := Vf max_p.
Let b := RND (mx - mn) 1.

Lemma spread_value : rounds_to (Prim2SF (max_p - min_p)) b /\ Vf (max_p - min_p) = b /\ 1 <= b < 2 ^ 2098.
Proof.
  assert (Hlt : mn < mx).
  { rewrite (ltb_Vf _ _ min_finite max_finite) in min_lt_max.
    apply Z.ltb_lt in min_lt_max. exact min_lt_max. }
  assert (R : rounds_to (Prim2SF (max_p - min_p)) b).
  { rewrite FloatAxioms.sub_spec. apply SFsub_RND; try apply Prim2SF_valid;
      try assumption. change (mn <= mx). lia. }
  assert (Vb : Vf (max_p - min_p) = b) by (apply rounds_to_Vz; assumption).
  split; [exact R|]. split; [exact Vb|]. split.
  - unfold b. apply Z.le_trans with (RND 1 1); [rewrite RND_one; lia|].
    apply RND_mono; lia.
  - rewrite <- Vb. unfold Vf.
    pose proof (Prim2SF_valid (max_p - min_p)) as Hv.
    unfold finite in spread_finite.
    destruct (Prim2SF (max_p - min_p)) as [s|s| |s m e]; try discriminate spread_finite.
    + unfold Vz. apply Z.pow_pos_nonneg; lia.
    + pose proof (valid_value_bound s m e Hv). pose proof (valid_finite s m e Hv) as (He & _).
      pose proof (pos_value_pos m e ltac:(lia)). unfold Vz. destruct s; lia.
Qed.

Lemma scale_level (p : float) :
  finite p = true -> (min_p <=? p)%float = true -> (p <=? max_p)%float = true ->
  scale min_p max_p p = Return (level min_p max_p p)
  /\ 0 <= level min_p max_p p <= 7.
Proof.
  intros Fp Hlo Hhi.
  rewrite (leb_Vf _ _ min_finite Fp) in Hlo. apply Z.leb_le in Hlo.
  rewrite (leb_Vf _ _ Fp max_finite) in Hhi. apply Z.leb_le in Hhi.
  fold mn in Hlo. fold mx in Hhi.
  destruct spread_value as (Rb & Vb & Hb1 & Hb2).
  set (a := RND (Vf p - mn) 1).
  assert (Ra : rounds_to (Prim2SF (p - min_p)) a).
  { rewrite FloatAxioms.sub_spec. apply SFsub_RND; try apply Prim2SF_valid;
      try assumption. }
  assert (Ha : 0 <= a <= b).
  { split; [apply RND_nonneg; lia|]. apply RND_mono; lia. }
  assert (Fa : finite (p - min_p) = true) by (apply (rounds_to_fin _ a); [exact Ra|lia]).
  assert (Va : Vf (p - min_p) = a) by (apply rounds_to_Vz; assumption).
  set (q := RND (a * 2 ^ 1074) b).
  assert (P : 0 < 2 ^ 1074) by (apply Z.pow_pos_nonneg; lia).
  assert (Rq : rounds_to (Prim2SF ((p - min_p) / (max_p - min_p))) q).
  { rewrite FloatAxioms.div_spec. unfold q. rewrite <- Va, <- Vb.
    apply SFdiv_RND; try apply Prim2SF_valid; try assumption.
    - change (0 <= Vf (p - min_p)). lia.
    - change (0 < Vf (max_p - min_p)). lia. }
  assert (Hq : 0 <= q <= 2 ^ 1074).
  { split; [apply RND_nonneg; nia|].
    apply Z.le_trans with (RND (2 ^ 1074) 1); [|rewrite RND_unit; lia].
    apply RND_mono; nia. }
  assert (B98 : 2 ^ 1074 < 2 ^ 2098) by (apply Z.pow_lt_mono_r; lia).
  assert (Fq : is_fin (Prim2SF ((p - min_p) / (max_p - min_p))) = true)
    by (apply (rounds_to_fin _ q); [exact Rq|lia]).
  assert (Vq : Vz (Prim2SF ((p - min_p) / (max_p - min_p))) = q)
    by (apply rounds_to_Vz; assumption).
  set (r := RND (q * (7 * 2 ^ 1074)) (2 ^ 1074)).
  assert (Rr : rounds_to (Prim2SF ((p - min_p) / (max_p - min_p) * 7)) r).
  { rewrite FloatAxioms.mul_spec, Prim2SF_seven. unfold r. rewrite <- Vq, <- Vz_seven.
    apply SFmul_RND; try apply Prim2SF_valid; try assumption.
    - rewrite <- Prim2SF_seven. apply Prim2SF_valid.
    - lia.
    - eexists _, _. split; reflexivity. }
  assert (Hr : 0 <= r <= 7 * 2 ^ 1074).
  { split; [apply RND_nonneg; nia|].
    apply Z.le_trans with (RND (7 * 2 ^ 1074) 1); [|rewrite RND_seven; lia].
    apply RND_mono; nia. }
  assert (B7 : 7 * 2 ^ 1074 < 2 ^ 2098).
  { replace (2 ^ 2098) with (2 ^ 1024 * 2 ^ 1074) by (rewrite <- Z.pow_add_r by lia; reflexivity).
    apply Z.mul_lt_mono_pos_r; [exact P|]. reflexivity. }
  assert (Hb0 : (max_p - min_p =? 0)%float = false).
  { rewrite (eqb_Vf (max_p - min_p) 0 spread_finite eq_refl), Vb. apply Z.eqb_neq.
    change (Vf 0) with 0. lia. }
  unfold scale, level. rewrite min_lt_max. unfold py_div. rewrite Hb0. cbn [bind].
  rewrite (trunc_rounds _ r Rr) by lia.
  fold mn mx. unfold level_units. fold b a q r.
  split; [reflexivity|]. split.
  - apply Z.div_pos; lia.
  - apply Z.div_le_upper_bound; lia.
Qed.

End Scale.

(** Levels follow the order of the values, from 0 at the minimum to 7 at
    the maximum. *)

Lemma level_units_mono (mn mx p p' : Z) :
  mn <= p <= p' -> 1 <= RND (mx - mn) 1 ->
  level_units mn mx p <= level_units mn mx p'.
Proof.
  intros Hp Hb. unfold level_units.
  assert (P : 0 < 2 ^ 1074) by (apply Z.pow_pos_nonneg; lia).
  assert (A : 0 <= RND (p - mn) 1 <= RND (p' - mn) 1).
  { split; [apply RND_nonneg; lia|apply RND_mono; lia]. }
  set (u := 2 ^ 1074) in *. set (b := RND (mx - mn) 1) in *.
  set (a := RND (p - mn) 1) in *. set (a' := RND (p' - mn) 1) in *.
  assert (Q : 0 <= RND (a * u) b <= RND (a' * u) b).
  { split; [apply RND_nonneg; nia|]. apply RND_mono; nia. }
  apply Z.div_le_mono; [exact P|]. apply RND_mono; nia.
Qed.

Lemma level_units_min (mn mx : Z) : 1 <= RND (mx - mn) 1 -> level_units mn mx mn = 0.
Proof.
  intros Hb. unfold level_units.
  assert (P : 0 < 2 ^ 1074) by (apply Z.pow_pos_nonneg; lia).
  rewrite Z.sub_diag, (RND_zero 1), Z.mul_0_l by lia.
  rewrite (RND_zero (RND (mx - mn) 1)) by lia.
  rewrite Z.mul_0_l, (RND_zero _ P). apply Z.div_0_l. lia.
Qed.

Lemma level_units_max (mn mx : Z) : 1 <= RND (mx - mn) 1 -> level_units mn mx mx = 7.
Proof.
  intros Hb. unfold level_units.
  assert (P : 0 < 2 ^ 1074) by (apply Z.pow_pos_nonneg; lia).
  set (b := RND (mx - mn) 1) in *.
  rewrite (RND_ext (b * 2 ^ 1074) b (2 ^ 1074) 1) by nia.
  rewrite RND_unit.
  rewrite (RND_ext (2 ^ 1074 * (7 * 2 ^ 1074)) (2 ^ 1074) (7 * 2 ^ 1074) 1) by nia.
  rewrite RND_seven. apply Z.div_mul. lia.
Qed.

(** ** Minimum and maximum of finite values *)

Lemma min_from_spec (l : list float) :
  forall cur, finite cur = true -> forallb finite l = true ->
    In (min_from cur l) (cur :: l)
    /\ Vf (min_from cur l) <= Vf cur
    /\ Forall (fun x => Vf (min_from cur l) <= Vf x) l.
Proof.
  induction l as [|x t IH]; intros cur Fc Fl; simpl.
  - repeat split; [left; reflexivity|lia|constructor].
  - apply andb_true_iff in Fl as [Fx Ft].
    pose proof (ltb_Vf x cur Fx Fc) as L.
    destruct (x <? cur)%float eqn:E; symmetry in L;
      [apply Z.ltb_lt in L|apply Z.ltb_ge in L].
    + destruct (IH x Fx Ft) as (I & B & A).
      split; [right; exact I|]. split; [lia|]. constructor; assumption.
    + destruct (IH cur Fc Ft) as (I & B & A).
      split; [destruct I as [I|I]; [left; exact I|right; right; exact I]|].
      split; [exact B|]. constructor; [lia|exact A].
Qed.

Lemma max_from_spec (l : list float) :
  forall cur, finite cur = true -> forallb finite l = true ->
    In (max_from cur l) (cur :: l)
    /\ Vf cur <= Vf (max_from cur l)
    /\ Forall (fun x => Vf x <= Vf (max_from cur l)) l.
Proof.
  induction l as [|x t IH]; intros cur Fc Fl; simpl.
  - repeat split; [left; reflexivity|lia|constructor].
  - apply andb_true_iff in Fl as [Fx Ft].
    pose proof (ltb_Vf cur x Fc Fx) as L.
    destruct (cur <? x)%float eqn:E; symmetry in L;
      [apply Z.ltb_lt in L|apply Z.ltb_ge in L].
    + destruct (IH x Fx Ft) as (I & B & A).
      split; [right; exact I|]. split; [lia|]. constructor; assumption.
    + destruct (IH cur Fc Ft) as (I & B & A).
      split; [destruct I as [I|I]; [left; exact I|right; right; exact I]|].
      split; [exact B|]. constructor; [lia|exact A].
Qed.

Lemma py_min_spec (l : list float) :
  l <> [] -> forallb finite l = true ->
  In (py_min l) l /\ forall x, In x l -> Vf (py_min l) <= Vf x.
Proof.
  destruct l as [|c t]; [congruence|]. intros _ F.
  simpl in F. apply andb_true_iff in F as [Fc Ft].
  unfold py_min. cbn [hd tl].
  destruct (min_from_spec t c Fc Ft) as (I & B & A).
  split; [exact I|]. intros x [<-|Hx]; [exact B|].
  rewrite Forall_forall in A. apply A, Hx.
Qed.

Lemma py_max_spec (l : list float) :
  l <> [] -> forallb finite l = true ->
  In (py_max l) l /\ forall x, In x l -> Vf x <= Vf (py_max l).
Proof.
  destruct l as [|c t]; [congruence|]. intros _ F.
  simpl in F. apply andb_true_iff in F as [Fc Ft].
  unfold py_max. cbn [hd tl].
  destruct (max_from_spec t c Fc Ft) as (I & B & A).
  split; [exact I|]. intros x [<-|Hx]; [exact B|].
  rewrite Forall_forall in A. apply A, Hx.
Qed.

Lemma finite_In (l : list float) (x : float) :
  forallb finite l = true -> In x l -> finite x = true.
Proof. intros F. rewrite forallb_forall in F. apply F. Qed.

(** ** [_ascii_sparkline] *)

Lemma py_index_bars (k : Z) : 0 <= k <= 7 -> py_index bars k = Return (glyph k).
Proof.
  intros H.
  assert (E : exists n : nat, (n < 8)%nat /\ k = Z.of_nat n) by (exists (Z.to_nat k); lia).
  destruct E as (n & Hn & ->).
  do 8 (destruct n as [|n]; [reflexivity|]). lia.
Qed.

Lemma sparkline_plottable (values : list float) :
  values <> [] -> plottable values = true ->
  mapM (fun p => k <- scale (py_min values) (py_max values) p ;; py_index bars k) values
  = Return (map glyph (levels_of values))
  /\ Forall (fun k => 0 <= k <= 7) (levels_of values).
Proof.
  intros Hne Hp. unfold plottable in Hp. apply andb_true_iff in Hp as [Fl Fs].
  destruct (py_min_spec values Hne Fl) as (Imin & Hmin).
  destruct (py_max_spec values Hne Fl) as (Imax & Hmax).
  pose proof (finite_In _ _ Fl Imin) as Fmin.
  pose proof (finite_In _ _ Fl Imax) as Fmax.
  assert (Each : forall p, In p values ->
            scale (py_min values) (py_max values) p
            = Return (level (py_min values) (py_max values) p)
            /\ 0 <= level (py_min values) (py_max values) p <= 7).
  { intros p Hin. pose proof (finite_In _ _ Fl Hin) as Fp.
    destruct (py_min values <? py_max values)%float eqn:L.
    - apply scale_level; try assumption.
      + rewrite (leb_Vf _ _ Fmin Fp). apply Z.leb_le, Hmin, Hin.
      + rewrite (leb_Vf _ _ Fp Fmax). apply Z.leb_le, Hmax, Hin.
    - unfold scale, level. rewrite L. split; [reflexivity|lia]. }
  split.
  - unfold levels_of. rewrite map_map. apply mapM_Return.
    intros p Hin. destruct (Each p Hin) as [-> Hk]. cbn [bind].
    apply py_index_bars, Hk.
  - unfold levels_of. rewrite Forall_map, Forall_forall.
    intros p Hin. apply (Each p Hin).
Qed.

Lemma spread_at_least_one (values : list float) :
  values <> [] -> plottable values = true ->
  (py_min values <? py_max values)%float = true ->
  1 <= RND (Vf (py_max values) - Vf (py_min values)) 1.
Proof.
  intros Hne Hp L. unfold plottable in Hp. apply andb_true_iff in Hp as [Fl Fs].
  destruct (py_min_spec values Hne Fl) as (Imin & _).
  destruct (py_max_spec values Hne Fl) as (Imax & _).
  apply (spread_value (py_min values) (py_max values)
           (finite_In _ _ Fl Imin) (finite_In _ _ Fl Imax) L Fs).
Qed.

Lemma sparkline_returns (prices : list (option float)) :
  plottable (somes prices) = true ->
  _ascii_sparkline prices
  = Return (Str.join EmptyString (map glyph (levels_of (somes prices))))
  /\ Forall (fun k => 0 <= k <= 7) (levels_of (somes prices)).
Proof.
  intros Hp. unfold _ascii_sparkline.
  destruct (somes prices) as [|v0 vt] eqn:E; [split; [reflexivity|constructor]|].
  rewrite <- E in *.
  assert (Hne : somes prices <> []) by (rewrite E; discriminate).
  destruct (sparkline_plottable (somes prices) Hne Hp) as [Hm Hl].
  rewrite Hm. split; [reflexivity|exact Hl].
Qed.

(** C7. For finite values whose spread does not overflow, the renderer
    drops the nulls and prints one glyph per remaining value, in order;
    the glyph is one of eight levels, which follow the order of the values
    from the lowest level at the minimum to the highest at the maximum;
    equal minimum and maximum give the lowest level throughout, and no
    value gives the empty string. *)
Theorem ascii_sparkline_spec :
  (_ascii_sparkline [Some 1%float; Some 2%float; Some 3%float] = Return "▁▄█"%string
   /\ levels_of [1%float; 2%float; 3%float] = [0; 3; 7]
   /\ _ascii_sparkline [Some 5%float; Some 5%float; Some 5%float] = Return "▁▁▁"%string
   /\ levels_of [5%float; 5%float; 5%float] = [0; 0; 0]
   /\ _ascii_sparkline [] = Return EmptyString
   /\ _ascii_sparkline [None; None] = Return EmptyString
   /\ map glyph [0; 1; 2; 3; 4; 5; 6; 7] = bars)
  /\ forall prices : list (option float),
      plottable (somes prices) = true ->
      let values := somes prices in
      let lv := level (py_min values) (py_max values) in
      _ascii_sparkline prices = Return (Str.join EmptyString (map glyph (map lv values)))
      /\ Forall (fun k => 0 <= k <= 7) (map lv values)
      /\ (forall v w, In v values -> In w values -> (v <=? w)%float = true -> lv v <= lv w)
      /\ ((py_min values <? py_max values)%float = true ->
          lv (py_min values) = 0 /\ lv (py_max values) = 7)
      /\ ((py_min values =? py_max values)%float = true ->
          Forall (fun k => k = 0) (map lv values)).
Proof.
  split; [repeat (split; [vm_compute; reflexivity|]); vm_compute; reflexivity|].
  intros prices Hp values lv.
  assert (C : somes prices = [] \/ somes prices <> [])
    by (destruct (somes prices); [left; reflexivity|right; discriminate]).
  destruct C as [E|Hne].
  { unfold _ascii_sparkline. subst values lv. rewrite E.
    split; [reflexivity|]. split; [constructor|]. split; [intros v w []|].
    split; [intros L; vm_compute in L; discriminate L|intros _; constructor]. }
  fold values in Hne, Hp.
  destruct (sparkline_plottable values Hne Hp) as [Hm Hl].
  pose proof Hp as Hp'. unfold plottable in Hp'. apply andb_true_iff in Hp' as [Fl Fs].
  destruct (py_min_spec values Hne Fl) as (Imin & Hmin).
  destruct (py_max_spec values Hne Fl) as (Imax & Hmax).
  pose proof (finite_In _ _ Fl Imin) as Fmin.
  pose proof (finite_In _ _ Fl Imax) as Fmax.
  split; [|split; [exact Hl|split; [|split]]].
  - apply (sparkline_returns prices Hp).
  - intros v w Hv Hw Hvw. unfold lv, level.
    destruct (py_min values <? py_max values)%float eqn:L; [|lia].
    rewrite (leb_Vf _ _ (finite_In _ _ Fl Hv) (finite_In _ _ Fl Hw)) in Hvw.
    apply Z.leb_le in Hvw.
    apply level_units_mono; [split; [apply Hmin, Hv|exact Hvw]|].
    apply spread_at_least_one; assumption.
  - intros L. unfold lv, level. rewrite L.
    pose proof (spread_at_least_one values Hne Hp L) as Hb.
    split; [apply level_units_min|apply level_units_max]; exact Hb.
  - intros E. rewrite (eqb_Vf _ _ Fmin Fmax) in E. apply Z.eqb_eq in E.
    assert (L : (py_min values <? py_max values)%float = false).
    { rewrite (ltb_Vf _ _ Fmin Fmax). apply Z.ltb_ge. lia. }
    rewrite Forall_map, Forall_forall. intros p _. unfold lv, level. rewrite L. reflexivity.
Qed.

Lemma ascii_sparkline_spec_witness :
  plottable (somes [Some 1%float; None; Some 2%float; Some 3%float]) = true
  /\ _ascii_sparkline [Some 1%float; None; Some 2%float; Some 3%float]
     = Return (Str.join EmptyString
                 (map glyph (levels_of [1%float; 2%float; 3%float]))).
Proof.
  split; [vm_compute; reflexivity|].
  exact (proj1 (proj2 ascii_sparkline_spec
                  [Some 1%float; None; Some 2%float; Some 3%float] eq_refl)).
Defined.

(** C7, as worded for every numeric sequence: two finite values whose
    difference overflows make the renderer raise. *)
Lemma ascii_sparkline_raises_on_overflow :
  ~ (forall prices : list (option float), exists s, _ascii_sparkline prices = Return s).
Proof.
  intros H. destruct (H [Some (-1e308)%float; Some 1e308%float]) as [s Hs].
  vm_compute in Hs. discriminate Hs.
Qed.

(** ** The single-day report *)

Lemma RND_Vf (x : float) : finite x = true -> 0 <= Vf x -> RND (Vf x) 1 = Vf x.
Proof.
  unfold finite, Vf. pose proof (Prim2SF_valid x) as Hv.
  destruct (Prim2SF x) as [s|s| |s m e]; intros F H; try discriminate F.
  - apply RND_zero. lia.
  - pose proof (valid_finite s m e Hv) as (He & Hd & Hn).
    rewrite (Vz_nonneg_sign s m e) in * by lia.
    unfold Vz. rewrite Z.mul_1_l. apply RND_exact; lia.
Qed.

Lemma Vf_bound (x : float) : finite x = true -> Vf x < 2 ^ 2098.
Proof.
  unfold finite, Vf. pose proof (Prim2SF_valid x) as Hv.
  destruct (Prim2SF x) as [s|s| |s m e]; intros F; try discriminate F.
  - unfold Vz. apply Z.pow_pos_nonneg; lia.
  - pose proof (valid_value_bound s m e Hv). pose proof (valid_finite s m e Hv) as (He & _).
    pose proof (pos_value_pos m e ltac:(lia)). unfold Vz. destruct s; lia.
Qed.

(** Finite prices that are not negative have a finite spread. *)
Lemma nonneg_plottable (values : list float) :
  forallb (fun v => finite v && (0 <=? v)%float) values = true -> plottable values = true.
Proof.
  intros H. destruct values as [|v0 vt] eqn:Ev; [reflexivity|]. rewrite <- Ev in *.
  assert (Hne : values <> []) by (rewrite Ev; discriminate).
  assert (Fl : forallb finite values = true).
  { rewrite forallb_forall in *. intros x Hx. specialize (H x Hx).
    apply andb_true_iff in H. tauto. }
  assert (Pos : forall x, In x values -> 0 <= Vf x).
  { rewrite forallb_forall in H. intros x Hx. specialize (H x Hx).
    apply andb_true_iff in H as [Fx Hx0].
    rewrite (leb_Vf 0 x eq_refl Fx) in Hx0. apply Z.leb_le in Hx0. exact Hx0. }
  unfold plottable. rewrite Fl. cbn [andb].
  destruct (py_min_spec values Hne Fl) as (Imin & Hmin).
  destruct (py_max_spec values Hne Fl) as (Imax & Hmax).
  pose proof (finite_In _ _ Fl Imin) as Fmin.
  pose proof (finite_In _ _ Fl Imax) as Fmax.
  apply (rounds_to_fin _ (RND (Vf (py_max values) - Vf (py_min values)) 1)).
  - rewrite FloatAxioms.sub_spec. apply SFsub_RND; try apply Prim2SF_valid; try assumption.
    apply Hmin, Imax.
  - apply Z.le_lt_trans with (Vf (py_max values)); [|apply Vf_bound, Fmax].
    rewrite <- (RND_Vf (py_max values) Fmax (Pos _ Imax)) at 2.
    pose proof (Pos _ Imin). pose proof (Hmin _ Imax).
    apply RND_mono; lia.
Qed.

Lemma float_len_nonzero {A : Type} (l : list A) :
  l <> [] -> (List.length l <= 24)%nat -> (float_len l =? 0)%float = false.
Proof.
  unfold float_len. intros Hne Hle.
  assert (Hpos : (0 < List.length l)%nat) by (destruct l; [congruence|simpl; lia]).
  remember (List.length l) as n eqn:En. clear En Hne l.
  destruct n as [|n]; [lia|].
  do 24 (destruct n as [|n]; [vm_compute; reflexivity|]). lia.
Qed.

Lemma lookup_key {V : Type} (k : string) (d : dict V) :
  In k (map fst d) -> exists v, lookup k d = Some v.
Proof.
  intros H. destruct (lookup k d) as [v|] eqn:E; [eauto|].
  apply lookup_None in E. contradiction.
Qed.

Lemma lookup_In {V : Type} (k : string) (v : V) (d : dict V) :
  lookup k d = Some v -> In (k, v) d.
Proof.
  induction d as [|[k' v'] t IH]; simpl; [discriminate|].
  destruct (String.eqb_spec k k') as [->|_].
  - intros [= ->]. left. reflexivity.
  - intros H. right. apply IH, H.
Qed.

Lemma lookup_NoDup {V : Type} (k : string) (v : V) (d : dict V) :
  NoDup (map fst d) -> In (k, v) d -> lookup k d = Some v.
Proof.
  induction d as [|[k' v'] t IH]; simpl; [tauto|].
  intros Hnd [E|Hin]; inversion Hnd as [|? ? Hnotin Hnd']; subst.
  - inversion E; subst. rewrite String.eqb_refl. reflexivity.
  - destruct (String.eqb_spec k k') as [->|_]; [|apply IH; assumption].
    exfalso. apply Hnotin. apply (in_map fst) in Hin. exact Hin.
Qed.

Lemma hour_label_int (h : string) :
  is_hour_label h = true -> py_int h = Return (hour_of h).
Proof.
  intros H. destruct (hour_label_cases h H) as (z & _ & _ & E).
  unfold hour_of. rewrite E. reflexivity.
Qed.

Lemma hourly_keys_length (prices : dict float) :
  NoDup (map fst prices) ->
  forallb (fun hp => is_hour_label (fst hp)) prices = true ->
  (List.length prices <= 24)%nat.
Proof.
  intros Hnd Hl. rewrite <- (length_map fst).
  change 24%nat with (List.length hour_labels).
  apply NoDup_incl_length; [exact Hnd|].
  intros k Hk. apply in_map_iff in Hk as ([k' v] & <- & Hin).
  rewrite forallb_forall in Hl. specialize (Hl _ Hin). simpl in *.
  unfold is_hour_label in Hl. apply existsb_exists in Hl as (x & Hx & E).
  apply String.eqb_eq in E. subst. exact Hx.
Qed.

Lemma hours_near_spec (prices : dict float) (ref : float) (h : string) :
  In h (hours_near prices ref) <->
  exists p, In (h, p) prices /\ (abs (p - ref) <? tol_price)%float = true.
Proof.
  unfold hours_near. rewrite in_map_iff. split.
  - intros ([h' p] & <- & Hin). apply filter_In in Hin as [Hin Hc]. exists p. auto.
  - intros (p & Hin & Hc). exists (h, p). split; [reflexivity|].
    apply filter_In. auto.
Qed.

Lemma hours_near_labels (prices : dict float) (ref : float) :
  forallb (fun hp => is_hour_label (fst hp)) prices = true ->
  forallb is_hour_label (hours_near prices ref) = true.
Proof.
  intros H. rewrite forallb_forall in *. intros h Hh.
  apply hours_near_spec in Hh as (p & Hin & _). exact (H _ Hin).
Qed.

Lemma sorted_keys_perm (prices : dict float) (sort_by : option string) :
  Permutation (sorted_keys prices sort_by) (map fst prices).
Proof.
  unfold sorted_keys, py_sorted_rev.
  destruct sort_by as [k|]; [|apply py_sorted_perm].
  destruct (String.eqb k "price"); [apply py_sorted_perm|].
  destruct (String.eqb k "price_desc"); [|apply py_sorted_perm].
  rewrite <- Permutation_rev, py_sorted_perm, <- Permutation_rev. reflexivity.
Qed.

Lemma price_line_ok (prices : dict float) (h : string) :
  is_hour_label h = true -> In h (map fst prices) ->
  price_line prices h = Return (price_line_of prices h).
Proof.
  intros Hl Hin. unfold price_line, price_line_of, price_at, dict_get.
  rewrite (hour_label_int h Hl). cbn [bind].
  destruct (lookup_key h prices Hin) as [p ->]. reflexivity.
Qed.

Lemma somes_map_Some {A : Type} (l : list A) : somes (map Some l) = l.
Proof. induction l as [|x t IH]; simpl; congruence. Qed.

(** The report of an hourly price map, line by line. *)
Lemma output_lines_spec (prices : dict float) (date_str : string) (sort_by : option string) :
  prices <> [] -> hourly_price_map prices ->
  let values := map snd prices in
  exists cheap_s exp_s spark,
    _format_hour_ranges (hours_near prices (py_min values)) = Return cheap_s
    /\ _format_hour_ranges (hours_near prices (py_max values)) = Return exp_s
    /\ _ascii_sparkline (map Some values) = Return spark
    /\ output_lines prices date_str sort_by
       = Return ([" HOURLY POWER PRICES (DK1) - " +++ date_str +++ " ";
                  "Average Price: " +++ format_price (mean values) default_decimals
                    +++ " DKK/kWh";
                  "Cheapest: " +++ cheap_s +++ " ("
                    +++ format_price (py_min values) default_decimals +++ " DKK/kWh)";
                  "Most Expensive: " +++ exp_s +++ " ("
                    +++ format_price (py_max values) default_decimals +++ " DKK/kWh)";
                  "Trend Sparkline: " +++ spark]
                 ++ map (price_line_of prices) (sorted_keys prices sort_by)).
Proof.
  intros Hne (Hnd & Hl & Hf) values.
  assert (Hp : plottable values = true).
  { apply nonneg_plottable. unfold values. rewrite forallb_forall in *.
    intros v Hv. apply in_map_iff in Hv as (hp & <- & Hin). exact (Hf hp Hin). }
  assert (Hlen : (float_len values =? 0)%float = false).
  { apply float_len_nonzero.
    - unfold values. destruct prices; [congruence|discriminate].
    - unfold values. rewrite length_map. apply hourly_keys_length; assumption. }
  pose proof (format_hour_ranges_runs _ (hours_near_labels prices (py_min values) Hl)) as Hc.
  pose proof (format_hour_ranges_runs _ (hours_near_labels prices (py_max values) Hl)) as He.
  destruct (sparkline_returns (map Some values)) as [Hs _];
    [rewrite somes_map_Some; exact Hp|].
  rewrite somes_map_Some in Hs. fold values in Hs.
  eexists _, _, _. split; [exact Hc|]. split; [exact He|]. split; [exact Hs|].
  unfold output_lines. fold values. unfold py_div. rewrite Hlen. cbn [bind].
  rewrite Hc, He. cbn [bind]. rewrite Hs. cbn [bind].
  rewrite (mapM_Return (price_line prices) (price_line_of prices)).
  - reflexivity.
  - intros h Hh. apply (Permutation_in _ (sorted_keys_perm prices sort_by)) in Hh.
    apply price_line_ok; [|exact Hh].
    apply in_map_iff in Hh as (hp & <- & Hin).
    rewrite forallb_forall in Hl. exact (Hl hp Hin).
Qed.


Lemma two_hour_map : hourly_price_map [("00"%string, 2%float); ("01"%string, 1%float)].
Proof.
  split; [|split; reflexivity].
  repeat constructor; simpl; intuition discriminate.
Defined.


(** ** The order of the sparkline *)

Lemma values_by_hour_sorted (prices : dict float) :
  StronglySorted (fun a b => entry_le a b = true) prices ->
  values_by_hour prices = map snd prices.
Proof.
  intros H. unfold values_by_hour. rewrite py_sorted_id by exact H. reflexivity.
Qed.

(** C9. The sparkline line shows the prices in the order of the map's
    entries; this is the ascending hour order when the entries were
    inserted in ascending hour order. *)
Theorem report_sparkline_order
  (prices : dict float) (date_str : string) (sort_by : option string) :
  prices <> [] -> hourly_price_map prices ->
  exists lines spark,
    output_lines prices date_str sort_by = Return lines
    /\ format_prices_for_display prices date_str sort_by = Return (Str.join newline lines)
    /\ nth_error lines 4 = Some ("Trend Sparkline: " +++ spark)
    /\ _ascii_sparkline (map Some (map snd prices)) = Return spark
    /\ (StronglySorted (fun a b => entry_le a b = true) prices ->
        _ascii_sparkline (map Some (values_by_hour prices)) = Return spark).
Proof.
  intros Hne Hmap.
  destruct (output_lines_spec prices date_str sort_by Hne Hmap)
    as (cheap_s & exp_s & spark & _ & _ & Hsp & Hout).
  eexists _, spark. split; [exact Hout|]. split.
  { unfold format_prices_for_display. destruct prices; [congruence|].
    rewrite Hout. reflexivity. }
  split; [reflexivity|]. split; [exact Hsp|].
  intros Hs. rewrite values_by_hour_sorted by exact Hs. exact Hsp.
Qed.

Lemma report_sparkline_order_witness :
  exists lines spark,
    output_lines [("00"%string, 2%float); ("01"%string, 1%float)] "D" None = Return lines
    /\ nth_error lines 4 = Some ("Trend Sparkline: " +++ spark)
    /\ _ascii_sparkline
         (map Some (values_by_hour [("00"%string, 2%float); ("01"%string, 1%float)]))
       = Return spark.
Proof.
  destruct (report_sparkline_order [("00"%string, 2%float); ("01"%string, 1%float)]
              "D"%string None)
    as (lines & spark & Hout & _ & Hline & _ & Hs).
  - discriminate.
  - exact two_hour_map.
  - exists lines, spark. split; [exact Hout|]. split; [exact Hline|].
    apply Hs. repeat constructor.
Defined.

(** C9, as worded for any insertion order: the map with "01" inserted
    before "00" gets the sparkline of its entries' order, not of the hours'. *)
Lemma report_sparkline_follows_insertion :
  ~ (forall (prices : dict float) (date_str : string) (sort_by : option string)
            (lines : list string),
       prices <> [] -> hourly_price_map prices ->
       output_lines prices date_str sort_by = Return lines ->
       exists spark,
         _ascii_sparkline (map Some (values_by_hour prices)) = Return spark
         /\ nth_error lines 4 = Some ("Trend Sparkline: " +++ spark)).
Proof.
  intros H.
  assert (Hmap : hourly_price_map unordered_prices).
  { split; [|split; reflexivity]. repeat constructor; simpl; intuition discriminate. }
  destruct (output_lines unordered_prices "D" None) as [lines|e] eqn:E;
    [|vm_compute in E; discriminate E].
  destruct (H unordered_prices "D"%string None lines ltac:(discriminate) Hmap E)
    as (spark & Hs & Hl).
  vm_compute in E. injection E as <-.
  vm_compute in Hs. injection Hs as <-.
  vm_compute in Hl. discriminate Hl.
Qed.

(** ** The comparison report, row by row *)

Lemma range24_hour_labels : map Str.fmt02d (py_range 24) = hour_labels.
Proof. reflexivity. Qed.

Lemma count_cons (f : float -> bool) (d : float) (ds : list float) :
  count f (d :: ds) = (if f d then 1 else 0) + count f ds.
Proof. unfold count. cbn [filter]. destruct (f d); cbn [List.length]; lia. Qed.

Lemma tuple4_eq {A : Type} (a a' : A) (u u' d d' s s' : Z) :
  a = a' -> u = u' -> d = d' -> s = s' -> (a, u, d, s) = (a', u', d', s').
Proof. intros -> -> -> ->. reflexivity. Qed.

Lemma scan_cons (today yesterday : dict float) (h : Z) (hs : list string)
  (st : list (string * float) * Z * Z * Z) :
  scan_of today yesterday (Str.fmt02d h :: hs) st
  = scan_of today yesterday hs (diff_step today yesterday st h).
Proof.
  destruct st as [[[acc u] d] s]. unfold scan_of at 1. cbn [filter].
  destruct (both_have today yesterday (Str.fmt02d h)) eqn:Hb.
  - assert (Hd : exists pt py, lookup (Str.fmt02d h) today = Some pt
                  /\ lookup (Str.fmt02d h) yesterday = Some py
                  /\ diff_at today yesterday (Str.fmt02d h) = (pt - py)%float).
    { unfold both_have in Hb. unfold diff_at, price_at.
      destruct (lookup (Str.fmt02d h) today) as [pt|]; [|discriminate Hb].
      destruct (lookup (Str.fmt02d h) yesterday) as [py|]; [|discriminate Hb].
      exists pt, py. auto. }
    destruct Hd as (pt & py & Ht & Hy & Hd).
    cbn [map]. rewrite !count_cons, Hd.
    unfold diff_step. rewrite Ht, Hy.
    assert (Hi : increased (pt - py) = (tol_diff <? pt - py)%float) by reflexivity.
    assert (Hde : decreased (pt - py)
                  = negb (tol_diff <? pt - py)%float && (pt - py <? - tol_diff)%float)
      by reflexivity.
    assert (Hst : stable (pt - py)
                  = negb (tol_diff <? pt - py)%float
                    && negb (negb (tol_diff <? pt - py)%float
                             && (pt - py <? - tol_diff)%float))
      by reflexivity.
    rewrite Hi, Hde, Hst.
    destruct (tol_diff <? pt - py)%float; destruct (pt - py <? - tol_diff)%float;
      cbn [negb andb]; unfold scan_of; rewrite <- app_assoc; cbn [app];
      apply tuple4_eq; try reflexivity; lia.
  - assert (Hs : diff_step today yesterday (acc, u, d, s) h = (acc, u, d, s)).
    { unfold both_have in Hb. unfold diff_step.
      destruct (lookup (Str.fmt02d h) today) as [pt|]; [|reflexivity].
      destruct (lookup (Str.fmt02d h) yesterday) as [py|]; [discriminate Hb|reflexivity]. }
    rewrite Hs. reflexivity.
Qed.

Lemma diff_fold_scan (today yesterday : dict float) (hs : list Z)
  (st : list (string * float) * Z * Z * Z) :
  fold_left (diff_step today yesterday) hs st
  = scan_of today yesterday (map Str.fmt02d hs) st.
Proof.
  revert st. induction hs as [|h t IH]; intros st.
  - destruct st as [[[acc u] d] s]. unfold scan_of, count. cbn [map filter List.length].
    rewrite app_nil_r, !Z.add_0_r. reflexivity.
  - cbn [fold_left map]. rewrite IH, scan_cons. reflexivity.
Qed.

Lemma diff_scan_spec (today yesterday : dict float) :
  let hours := common_hours today yesterday in
  let ds := map (diff_at today yesterday) hours in
  diff_scan today yesterday
  = (map (fun h => (h, diff_at today yesterday h)) hours,
     count increased ds, count decreased ds, count stable ds).
Proof.
  unfold diff_scan. rewrite diff_fold_scan, range24_hour_labels.
  unfold scan_of, common_hours. cbn [app]. rewrite !Z.add_0_l. reflexivity.
Qed.

Lemma common_hour_cases (today yesterday : dict float) (h : string) :
  In h (common_hours today yesterday) <->
  In h hour_labels
  /\ exists pt py, lookup h today = Some pt /\ lookup h yesterday = Some py.
Proof.
  unfold common_hours. rewrite filter_In. unfold both_have.
  split; intros [Hl Hb]; (split; [exact Hl|]).
  - destruct (lookup h today) as [pt|]; [|discriminate Hb].
    destruct (lookup h yesterday) as [py|]; [|discriminate Hb]. eauto.
  - destruct Hb as (pt & py & -> & ->). reflexivity.
Qed.

Lemma hour_labels_are_labels (h : string) : In h hour_labels -> is_hour_label h = true.
Proof.
  intros H. unfold is_hour_label. apply existsb_exists. exists h.
  split; [exact H|apply String.eqb_refl].
Qed.

Lemma pct_change_text (diff yest : float) :
  pct_change diff yest = Return (percent_text diff yest).
Proof.
  unfold pct_change, percent_text, py_div.
  destruct (yest =? 0)%float; reflexivity.
Qed.

Lemma comparison_row_ok (today yesterday : dict float) (h : string) :
  In h (common_hours today yesterday) ->
  comparison_row today yesterday (h, diff_at today yesterday h)
  = Return (expected_row today yesterday h).
Proof.
  intros Hin. apply common_hour_cases in Hin as (Hl & pt & py & Ht & Hy).
  unfold comparison_row, expected_row, dict_get, price_at.
  rewrite Ht, Hy. cbn [bind]. rewrite pct_change_text. cbn [bind].
  rewrite (hour_label_int h (hour_labels_are_labels h Hl)). reflexivity.
Qed.

Lemma sort_diffs_perm (diffs : list (string * float)) (sort_by : option string) :
  Permutation (sort_diffs diffs sort_by) diffs.
Proof.
  unfold sort_diffs, py_sorted_rev.
  destruct sort_by as [k|]; [|reflexivity].
  destruct (String.eqb k "diff"); [apply py_sorted_perm|].
  destruct (String.eqb k "diff_desc"); [|reflexivity].
  rewrite <- Permutation_rev, py_sorted_perm, <- Permutation_rev. reflexivity.
Qed.

Lemma common_hours_length (today yesterday : dict float) :
  (List.length (common_hours today yesterday) <= 24)%nat.
Proof.
  unfold common_hours. change 24%nat with (List.length hour_labels).
  generalize hour_labels. intros l. induction l as [|x t IH]; simpl; [lia|].
  destruct (both_have today yesterday x); simpl; lia.
Qed.

(** The lines after the scan, for the hours [hours] it found. *)
Lemma lines_after_scan
  (today : dict float) (today_date : string)
  (yesterday : dict float) (yesterday_date : string) (sort_by : option string)
  (hours : list string) (ds : list float) (diffs : list (string * float)) :
  ds = map (diff_at today yesterday) hours ->
  diffs = map (fun h => (h, diff_at today yesterday h)) hours ->
  (forall h, In h hours ->
     comparison_row today yesterday (h, diff_at today yesterday h)
     = Return (expected_row today yesterday h)) ->
  (List.length hours <= 24)%nat ->
  plottable ds = true ->
  exists summary,
    (summary <- summary_lines diffs (count increased ds) (count decreased ds)
                  (count stable ds) ;;
     rows <- mapM (comparison_row today yesterday) (sort_diffs diffs sort_by) ;;
     Return ([comparison_title today_date yesterday_date]
               ++ summary ++ [header_row] ++ rows))
    = Return ([comparison_title today_date yesterday_date] ++ summary ++ [header_row]
              ++ map (expected_row today yesterday) (map fst (sort_diffs diffs sort_by)))
    /\ (hours = [] -> summary = [])
    /\ (hours <> [] ->
        exists spark,
          _ascii_sparkline (map Some ds) = Return spark
          /\ summary
             = ["Avg Change: " +++ format_price (mean ds) default_decimals +++ " DKK/kWh";
                "Increased: " +++ Str.of_Z (count increased ds)
                  +++ " | Decreased: " +++ Str.of_Z (count decreased ds)
                  +++ " | Stable: " +++ Str.of_Z (count stable ds);
                "Trend Sparkline (Diffs): " +++ spark]).
Proof.
  intros Eds Edf Hrow Hlen24 Hp.
  assert (Hrows : mapM (comparison_row today yesterday) (sort_diffs diffs sort_by)
                  = Return (map (expected_row today yesterday)
                              (map fst (sort_diffs diffs sort_by)))).
  { rewrite map_map. apply mapM_Return. intros [h d] Hin.
    apply (Permutation_in _ (sort_diffs_perm diffs sort_by)) in Hin.
    rewrite Edf in Hin. apply in_map_iff in Hin as (h' & E & Hh).
    inversion E; subst h' d. apply Hrow, Hh. }
  rewrite Hrows.
  destruct hours as [|h0 ht].
  - exists []. cbn [map] in Edf. rewrite Edf. cbn [summary_lines bind].
    split; [reflexivity|]. split; [reflexivity|congruence].
  - assert (Hsnd : map snd diffs = ds).
    { rewrite Edf, Eds, map_map. reflexivity. }
    assert (Hsome : map (fun d : string * float => Some (snd d)) diffs = map Some ds).
    { rewrite Edf, Eds, !map_map. reflexivity. }
    assert (Hlen : float_len diffs = float_len ds).
    { unfold float_len. rewrite Edf, Eds, !length_map. reflexivity. }
    assert (Hz : (float_len ds =? 0)%float = false).
    { apply float_len_nonzero.
      - rewrite Eds. discriminate.
      - rewrite Eds, length_map. exact Hlen24. }
    destruct (sparkline_returns (map Some ds)) as [Hs _];
      [rewrite somes_map_Some; exact Hp|].
    rewrite somes_map_Some in Hs.
    assert (Hsum : summary_lines diffs (count increased ds) (count decreased ds)
                     (count stable ds)
                   = Return
                       ["Avg Change: " +++ format_price (mean ds) default_decimals
                          +++ " DKK/kWh";
                        "Increased: " +++ Str.of_Z (count increased ds)
                          +++ " | Decreased: " +++ Str.of_Z (count decreased ds)
                          +++ " | Stable: " +++ Str.of_Z (count stable ds);
                        "Trend Sparkline (Diffs): "
                          +++ Str.join EmptyString (map glyph (levels_of ds))]).
    { unfold summary_lines.
      destruct diffs as [|d0 dt] eqn:Ed; [discriminate Edf|].
      rewrite <- Ed in *. rewrite Hsnd, Hsome, Hlen. unfold py_div. rewrite Hz.
      cbn [bind]. rewrite Hs. reflexivity. }
    rewrite Hsum. eexists. split; [reflexivity|].
    split; [discriminate|]. intros _. eexists. split; [exact Hs|reflexivity].
Qed.

(** The lines of the comparison, for diffs a sparkline can be drawn for. *)
Lemma comparison_lines_spec
  (today : dict float) (today_date : string)
  (yesterday : dict float) (yesterday_date : string) (sort_by : option string) :
  let hours := common_hours today yesterday in
  let ds := map (diff_at today yesterday) hours in
  let diffs := map (fun h => (h, diff_at today yesterday h)) hours in
  plottable ds = true ->
  exists summary,
    comparison_lines today today_date yesterday yesterday_date sort_by
    = Return ([comparison_title today_date yesterday_date] ++ summary ++ [header_row]
              ++ map (expected_row today yesterday) (map fst (sort_diffs diffs sort_by)))
    /\ (hours = [] -> summary = [])
    /\ (hours <> [] ->
        exists spark,
          _ascii_sparkline (map Some ds) = Return spark
          /\ summary
             = ["Avg Change: " +++ format_price (mean ds) default_decimals +++ " DKK/kWh";
                "Increased: " +++ Str.of_Z (count increased ds)
                  +++ " | Decreased: " +++ Str.of_Z (count decreased ds)
                  +++ " | Stable: " +++ Str.of_Z (count stable ds);
                "Trend Sparkline (Diffs): " +++ spark]).
Proof.
  intros hours ds diffs Hp.
  unfold comparison_lines. rewrite diff_scan_spec.
  apply (lines_after_scan today today_date yesterday yesterday_date sort_by
           hours ds diffs eq_refl eq_refl).
  - intros h Hh. apply comparison_row_ok, Hh.
  - apply common_hours_length.
  - exact Hp.
Qed.

Lemma diffs_keys (today yesterday : dict float) (hours : list string) :
  map fst (map (fun h => (h, diff_at today yesterday h)) hours) = hours.
Proof. rewrite map_map. cbn [fst]. apply map_id. Qed.

(** C3. The comparison is empty when a map is empty. Otherwise, when a
    sparkline can be drawn for the diffs, it has one row for each hour
    "00" to "23" present in both maps, with the diff today minus
    yesterday, counted and marked as increased above 1e-4, decreased
    below -1e-4 and stable in between, and the percent change
    diff / yesterday * 100, shown as "N/A" when yesterday's price is zero. *)
Theorem comparison_report_spec :
  (format_comparison_for_display [("00"%string, 2%float)] "T" [("00"%string, 1%float)] "Y" None
   = Return (Str.join newline
               [comparison_title "T" "Y";
                "Avg Change: 1 DKK/kWh";
                "Increased: 1 | Decreased: 0 | Stable: 0";
                "Trend Sparkline (Diffs): ▁";
                header_row;
                table_row "00:00-01:00" "1" "2" "1" "100%" "▲"]%string)
   /\ format_comparison_for_display [("00"%string, 2%float)] "T" [("00"%string, 0%float)] "Y"
        None
      = Return (Str.join newline
                  [comparison_title "T" "Y";
                   "Avg Change: 2 DKK/kWh";
                   "Increased: 1 | Decreased: 0 | Stable: 0";
                   "Trend Sparkline (Diffs): ▁";
                   header_row;
                   table_row "00:00-01:00" "0" "2" "2" "N/A" "▲"]%string))
  /\ (forall today today_date yesterday yesterday_date sort_by,
        today = [] \/ yesterday = [] ->
        format_comparison_for_display today today_date yesterday yesterday_date sort_by
        = Return EmptyString)
  /\ (forall diff,
        trend_glyph diff
        = if increased diff then "▲"%string
          else if decreased diff then "▼"%string else "●"%string)
  /\ (forall diff yest,
        percent_text diff yest
        = if (yest =? 0)%float then "N/A"%string
          else format_price (diff / yest * 100)%float 2 +++ "%")
  /\ forall (today : dict float) (today_date : string)
            (yesterday : dict float) (yesterday_date : string) (sort_by : option string),
      today <> [] -> yesterday <> [] ->
      let hours := common_hours today yesterday in
      let ds := map (diff_at today yesterday) hours in
      plottable ds = true ->
      exists summary order,
        comparison_lines today today_date yesterday yesterday_date sort_by
        = Return ([comparison_title today_date yesterday_date] ++ summary ++ [header_row]
                  ++ map (expected_row today yesterday) order)
        /\ format_comparison_for_display today today_date yesterday yesterday_date sort_by
           = Return (Str.join newline
                       ([comparison_title today_date yesterday_date] ++ summary
                        ++ [header_row] ++ map (expected_row today yesterday) order))
        /\ Permutation order hours
        /\ (sort_by = None -> order = hours)
        /\ (forall h, In h hours <->
              In h hour_labels
              /\ exists pt py, lookup h today = Some pt /\ lookup h yesterday = Some py)
        /\ (hours = [] -> summary = [])
        /\ (hours <> [] ->
            exists spark,
              _ascii_sparkline (map Some ds) = Return spark
              /\ summary
                 = ["Avg Change: " +++ format_price (mean ds) default_decimals
                      +++ " DKK/kWh";
                    "Increased: " +++ Str.of_Z (count increased ds)
                      +++ " | Decreased: " +++ Str.of_Z (count decreased ds)
                      +++ " | Stable: " +++ Str.of_Z (count stable ds);
                    "Trend Sparkline (Diffs): " +++ spark]).
Proof.
  split; [split; vm_compute; reflexivity|].
  split.
  { intros today td yesterday yd sb [-> | ->]; [reflexivity|].
    destruct today; reflexivity. }
  split.
  { intros diff. unfold trend_glyph, decreased, increased.
    destruct (tol_diff <? diff)%float; cbn [negb andb]; reflexivity. }
  split; [intros diff yest; reflexivity|].
  intros today today_date yesterday yesterday_date sort_by Ht Hy hours ds Hp.
  destruct (comparison_lines_spec today today_date yesterday yesterday_date sort_by Hp)
    as (summary & Hlines & Hnil & Hsum).
  exists summary, (map fst (sort_diffs (map (fun h => (h, diff_at today yesterday h)) hours)
                              sort_by)).
  split; [exact Hlines|]. split.
  { unfold format_comparison_for_display.
    destruct today; [congruence|]. destruct yesterday; [congruence|].
    rewrite Hlines. reflexivity. }
  split.
  { rewrite <- (diffs_keys today yesterday hours) at 2.
    apply Permutation_map, sort_diffs_perm. }
  split; [intros ->; apply diffs_keys|].
  split; [intros h; apply common_hour_cases|].
  split; [exact Hnil|exact Hsum].
Qed.

Lemma comparison_report_spec_witness :
  exists summary order,
    comparison_lines [("00"%string, 2%float); ("05"%string, 2%float)] "T"
      [("00"%string, 0%float); ("05"%string, 2.5%float)] "Y" (Some "diff"%string)
    = Return ([comparison_title "T" "Y"] ++ summary ++ [header_row]
              ++ map (expected_row [("00"%string, 2%float); ("05"%string, 2%float)]
                        [("00"%string, 0%float); ("05"%string, 2.5%float)]) order)
    /\ Permutation order
         (common_hours [("00"%string, 2%float); ("05"%string, 2%float)]
            [("00"%string, 0%float); ("05"%string, 2.5%float)]).
Proof.
  destruct (proj2 (proj2 (proj2 (proj2 comparison_report_spec)))
              [("00"%string, 2%float); ("05"%string, 2%float)] "T"%string
              [("00"%string, 0%float); ("05"%string, 2.5%float)] "Y"%string
              (Some "diff"%string))
    as (summary & order & Hl & _ & Hperm & _).
  - discriminate.
  - discriminate.
  - vm_compute. reflexivity.
  - exists summary, order. split; [exact Hl|exact Hperm].
Defined.

(** C3, as worded for every pair of non-empty maps: when the diffs differ
    by more than a float holds, the diff sparkline raises and no report
    is returned. *)
Lemma comparison_raises_on_overflow :
  ~ (forall (today : dict float) (today_date : string)
            (yesterday : dict float) (yesterday_date : string) (sort_by : option string),
       exists s,
         format_comparison_for_display today today_date yesterday yesterday_date sort_by
         = Return s).
Proof.
  intros H.
  destruct (H steep_today "T"%string steep_yesterday "Y"%string None) as [s Hs].
  vm_compute in Hs. discriminate Hs.
Qed.

(** * Further properties of the code *)

(** ** The map aggregation returns *)

Lemma hour_of_fmt (h : Z) : In h (py_range 24) -> hour_of (Str.fmt02d h) = h.
Proof.
  intros H.
  assert (C : forallb (fun h => hour_of (Str.fmt02d h) =? h) (py_range 24) = true)
    by (vm_compute; reflexivity).
  rewrite forallb_forall in C. apply Z.eqb_eq, C, H.
Qed.

Lemma in_range24 (h : Z) : In h (py_range 24) <-> 0 <= h < 24.
Proof.
  unfold py_range. rewrite in_map_iff. split.
  - intros (n & <- & Hn). apply in_seq in Hn. lia.
  - intros H. exists (Z.to_nat h). split; [lia|]. apply in_seq. lia.
Qed.

Lemma labels_ordered (a b : string) :
  is_hour_label a = true -> is_hour_label b = true ->
  str_leb a b = (hour_of a <=? hour_of b).
Proof.
  intros Ha Hb.
  destruct (hour_label_cases a Ha) as (x & Hx & -> & _).
  destruct (hour_label_cases b Hb) as (y & Hy & -> & _).
  assert (C : forallb (fun x => forallb (fun y =>
                Bool.eqb (str_leb (hour_label x) (hour_label y))
                         (hour_of (hour_label x) <=? hour_of (hour_label y)))
                (py_range 24)) (py_range 24) = true)
    by (vm_compute; reflexivity).
  rewrite forallb_forall in C. specialize (C x (proj2 (in_range24 x) Hx)).
  rewrite forallb_forall in C. specialize (C y (proj2 (in_range24 y) Hy)).
  apply Bool.eqb_prop in C. exact C.
Qed.

Lemma StronglySorted_snoc {A : Type} (R : A -> A -> Prop) (l : list A) (x : A) :
  StronglySorted R l -> Forall (fun y => R y x) l -> StronglySorted R (l ++ [x]).
Proof.
  induction 1 as [|y t Hs IH Hall]; intros Hx; simpl.
  - repeat constructor.
  - inversion Hx; subst. constructor; [apply IH; assumption|].
    apply Forall_app. split; [exact Hall|]. repeat constructor. assumption.
Qed.

Section AggregationOrder.

Variable float_of_str : string -> option float.

Lemma hour_step_keys (cs : list json) (d d' : dict float) (h : Z) :
  0 <= h < 24 -> keys_below h d ->
  hour_step float_of_str cs d h = Return d' -> keys_below (h + 1) d'.
Proof.
  intros Hh [Hk Hs] E. unfold hour_step in E.
  destruct (foldM (series_step float_of_str (Str.fmt02d h)) (0%float, false) cs)
    as [st|e]; [|discriminate E].
  cbn [bind] in E. injection E as <-.
  assert (W : keys_below (h + 1) d).
  { split; [|exact Hs]. eapply Forall_impl; [|exact Hk]. cbv beta. intros k [? ?]. split; [assumption|lia]. }
  destruct (snd st); [|exact W].
  assert (Hnew : lookup (Str.fmt02d h) d = None).
  { apply lookup_None. intros Hin. rewrite Forall_forall in Hk.
    destruct (Hk _ Hin) as [_ Hlt].
    rewrite hour_of_fmt in Hlt by (apply in_range24; exact Hh). lia. }
  rewrite (dict_set_new d _ _ Hnew). unfold keys_below.
  rewrite !map_app. cbn [map fst].
  rewrite hour_of_fmt by (apply in_range24; exact Hh). split.
  - apply Forall_app. split; [exact (proj1 W)|]. repeat constructor.
    + apply range24_label, in_range24, Hh.
    + rewrite hour_of_fmt by (apply in_range24; exact Hh). lia.
  - apply StronglySorted_snoc; [exact Hs|].
    rewrite Forall_map. eapply Forall_impl; [|exact Hk]. cbv beta. intros k [_ ?]. assumption.
Qed.

Lemma hours_fold_keys (cs : list json) (len : nat) :
  forall (a : nat) (d d' : dict float),
    (a + len <= 24)%nat -> keys_below (Z.of_nat a) d ->
    foldM (hour_step float_of_str cs) d (map Z.of_nat (seq a len)) = Return d' ->
    keys_below (Z.of_nat (a + len)) d'.
Proof.
  induction len as [|len IH]; intros a d d' Hb Hk E.
  - simpl in E. injection E as <-. rewrite Nat.add_0_r. exact Hk.
  - cbn [seq map foldM] in E.
    destruct (hour_step float_of_str cs d (Z.of_nat a)) as [d1|e] eqn:E1; [|discriminate E].
    cbn [bind] in E.
    apply hour_step_keys in E1; [|lia|exact Hk].
    replace (Z.of_nat a + 1) with (Z.of_nat (S a)) in E1 by lia.
    replace (a + S len)%nat with (S a + len)%nat by lia.
    apply (IH (S a) d1 d'); [lia|exact E1|exact E].
Qed.

End AggregationOrder.

Lemma keys_below_sorted (n : Z) (d : dict float) :
  keys_below n d ->
  forallb (fun hp => is_hour_label (fst hp)) d = true
  /\ NoDup (map fst d)
  /\ StronglySorted (fun a b => entry_le a b = true) d.
Proof.
  intros [Hk Hs].
  assert (Hl : forallb (fun hp => is_hour_label (fst hp)) d = true).
  { rewrite forallb_forall. intros hp Hin. rewrite Forall_forall in Hk.
    apply (Hk (fst hp)). apply in_map, Hin. }
  split; [exact Hl|]. split.
  - apply (NoDup_map_inv hour_of).
    clear Hk Hl. induction Hs as [|x t Hs' IH Hall]; constructor; [|exact IH].
    intros Hin. rewrite Forall_forall in Hall. specialize (Hall x Hin). lia.
  - clear Hl. induction d as [|[k v] t IH]; [constructor|].
    cbn [map fst] in Hk, Hs. inversion Hk as [|? ? [Hkl _] Hk']; subst.
    inversion Hs as [|? ? Hs' Hall]; subst.
    constructor; [apply IH; assumption|].
    rewrite Forall_forall. intros [k' v'] Hin. unfold entry_le. cbn [fst].
    rewrite Forall_forall in Hk', Hall.
    rewrite labels_ordered; [|exact Hkl|apply (Hk' k'), (in_map fst _ _ Hin)].
    apply Z.leb_le. apply Z.lt_le_incl. apply Hall.
    apply in_map. apply (in_map fst _ _ Hin).
Qed.

Lemma fetch_prices_keys
  (float_of_str : string -> option float) (data : json) (totals : dict float) :
  fetch_prices float_of_str data = Return (Some totals) ->
  totals <> [] /\ keys_below 24 totals.
Proof.
  intros E. unfold fetch_prices in E.
  destruct (py_get data "chartSeries" JNull) as [cs|e]; [|discriminate E].
  cbn [bind] in E.
  destruct cs as [| | | | |l|]; try discriminate E.
  destruct l as [|s l]; [discriminate E|].
  destruct (foldM (hour_step float_of_str (s :: l)) [] (py_range 24)) as [d|e] eqn:Ef;
    [|discriminate E].
  cbn [bind] in E.
  assert (K : keys_below 24 d).
  { apply (hours_fold_keys float_of_str (s :: l) 24 0 [] d); [lia| |exact Ef].
    split; constructor. }
  destruct d as [|kv d]; [discriminate E|]. injection E as <-.
  split; [discriminate|exact K].
Qed.

Lemma sorted_entries_keys (d : dict float) :
  StronglySorted (fun a b => entry_le a b = true) d ->
  StronglySorted (fun a b => str_leb a b = true) (map fst d).
Proof.
  induction 1 as [|a t Hs' IH Hall]; [constructor|].
  cbn [map]. constructor; [exact IH|]. rewrite Forall_map. exact Hall.
Qed.

(** X1. Whatever the decoded response, a map that the aggregation of
    [fetch_prices] (lines 69 to 97) computes from it is not empty, its keys
    are distinct hour labels "00" to "23", and its entries stand in
    ascending hour order (so sorting its keys changes nothing); it has at
    most 24 entries. A value loaded from the cache is returned as it is
    stored, and is not covered. *)
Theorem fetch_prices_result_sorted
  (float_of_str : string -> option float) (data : json) (totals : dict float) :
  fetch_prices float_of_str data = Return (Some totals) ->
  totals <> []
  /\ forallb (fun hp => is_hour_label (fst hp)) totals = true
  /\ NoDup (map fst totals)
  /\ StronglySorted Z.lt (map (fun hp => hour_of (fst hp)) totals)
  /\ StronglySorted (fun a b => entry_le a b = true) totals
  /\ (List.length totals <= 24)%nat
  /\ sorted_keys totals None = map fst totals.
Proof.
  intros E. destruct (fetch_prices_keys float_of_str data totals E) as [Hne K].
  destruct (keys_below_sorted 24 _ K) as (Hl & Hnd & Hs).
  split; [exact Hne|]. split; [exact Hl|]. split; [exact Hnd|]. split.
  { rewrite <- map_map. exact (proj2 K). }
  split; [exact Hs|]. split; [apply hourly_keys_length; assumption|].
  unfold sorted_keys. apply py_sorted_id, sorted_entries_keys, Hs.
Qed.

Lemma fetch_prices_result_sorted_witness :
  fetch_prices (fun _ => None) descending_hours_payload
  = Return (Some [("00"%string, 2%float); ("05"%string, 1%float)])
  /\ NoDup (map fst [("00"%string, 2%float); ("05"%string, 1%float)])
  /\ StronglySorted Z.lt
       (map (fun hp => hour_of (fst hp)) [("00"%string, 2%float); ("05"%string, 1%float)])
  /\ StronglySorted (fun a b => entry_le a b = true)
       [("00"%string, 2%float); ("05"%string, 1%float)]
  /\ sorted_keys [("00"%string, 2%float); ("05"%string, 1%float)] None
     = map fst [("00"%string, 2%float); ("05"%string, 1%float)].
Proof.
  split; [vm_compute; reflexivity|].
  destruct (fetch_prices_result_sorted (fun _ => None) descending_hours_payload
              [("00"%string, 2%float); ("05"%string, 1%float)] eq_refl)
    as (_ & _ & Hnd & Hh & Hs & _ & Hk).
  split; [exact Hnd|]. split; [exact Hh|]. split; [exact Hs|exact Hk].
Defined.

(** ** From aggregation to the report *)

(** X2. The report of a map that the aggregation of [fetch_prices]
    (lines 69 to 97) computed from a decoded response, when its totals are
    finite and not negative: the report is returned, it has five lines
    before one line per hour, and its sparkline is the one of the prices in
    ascending hour order. A map loaded from the cache is not covered. *)
Theorem fetched_prices_report
  (float_of_str : string -> option float) (data : json) (totals : dict float)
  (date_str : string) (sort_by : option string) :
  fetch_prices float_of_str data = Return (Some totals) ->
  forallb (fun hp => finite (snd hp) && (0 <=? snd hp)%float) totals = true ->
  exists lines spark,
    format_prices_for_display totals date_str sort_by = Return (Str.join newline lines)
    /\ nth_error lines 4 = Some ("Trend Sparkline: " +++ spark)
    /\ _ascii_sparkline (map Some (values_by_hour totals)) = Return spark
    /\ List.length lines = (5 + List.length totals)%nat.
Proof.
  intros E Hf. destruct (fetch_prices_keys float_of_str data totals E) as [Hne K].
  destruct (keys_below_sorted 24 _ K) as (Hl & Hnd & Hs).
  assert (Hmap : hourly_price_map totals) by (split; [exact Hnd|split; assumption]).
  destruct (output_lines_spec totals date_str sort_by Hne Hmap)
    as (cheap_s & exp_s & spark & _ & _ & Hsp & Hout).
  eexists _, spark. split.
  { unfold format_prices_for_display. destruct totals; [congruence|].
    rewrite Hout. reflexivity. }
  split; [reflexivity|]. split.
  - rewrite values_by_hour_sorted by exact Hs. exact Hsp.
  - rewrite length_app, length_map.
    rewrite (Permutation_length (sorted_keys_perm totals sort_by)), length_map.
    reflexivity.
Qed.

Lemma fetched_prices_report_witness :
  exists lines spark,
    format_prices_for_display [("00"%string, 2%float); ("05"%string, 1%float)] "D" None
    = Return (Str.join newline lines)
    /\ nth_error lines 4 = Some ("Trend Sparkline: " +++ spark)
    /\ _ascii_sparkline
         (map Some (values_by_hour [("00"%string, 2%float); ("05"%string, 1%float)]))
       = Return spark
    /\ List.length lines = 7%nat.
Proof.
  exact (fetched_prices_report (fun _ => None) descending_hours_payload
           [("00"%string, 2%float); ("05"%string, 1%float)] "D"%string None
           eq_refl eq_refl).
Defined.

(** ** Series are read as one sequence of time points *)

Lemma foldM_app {A B : Type} (f : A -> B -> result A) (l1 l2 : list B) (a : A) :
  foldM f a (l1 ++ l2) = (a' <- foldM f a l1 ;; foldM f a' l2).
Proof.
  revert a. induction l1 as [|x t IH]; intros a; simpl; [reflexivity|].
  destruct (f a x); simpl; [apply IH|reflexivity].
Qed.

Lemma series_step_points (float_of_str : string -> option float)
  (hour_str : string) (st : float * bool) (points : list json) :
  series_step float_of_str hour_str st (series_of points)
  = foldM (tp_step float_of_str hour_str) st points.
Proof. reflexivity. Qed.

Lemma series_fold_concat (float_of_str : string -> option float)
  (hour_str : string) (ls : list (list json)) (st : float * bool) :
  foldM (series_step float_of_str hour_str) st (map series_of ls)
  = foldM (tp_step float_of_str hour_str) st (List.concat ls).
Proof.
  revert st. induction ls as [|l t IH]; intros st; [reflexivity|].
  cbn [map List.concat foldM]. rewrite series_step_points, foldM_app.
  destruct (foldM (tp_step float_of_str hour_str) st l); cbn [bind]; [apply IH|reflexivity].
Qed.

(** X3. Aggregation reads the series as one sequence of time points:
    the payload with the series [ls] gives what the payload gives whose
    only series holds all their time points in order, be it a map, [None]
    or the same exception. *)
Theorem fetch_prices_series_concat
  (float_of_str : string -> option float) (ls : list (list json)) :
  fetch_prices float_of_str (payload_of (map series_of ls))
  = fetch_prices float_of_str (payload_of [series_of (List.concat ls)]).
Proof.
  assert (H : forall d h,
            hour_step float_of_str (map series_of ls) d h
            = hour_step float_of_str [series_of (List.concat ls)] d h).
  { intros d h. unfold hour_step. rewrite series_fold_concat.
    cbn [foldM]. rewrite series_step_points.
    destruct (foldM (tp_step float_of_str (Str.fmt02d h)) (0%float, false) (List.concat ls));
      reflexivity. }
  change (fetch_prices float_of_str (payload_of [series_of (List.concat ls)]))
    with (hourly_totals <- foldM (hour_step float_of_str [series_of (List.concat ls)]) []
                             (py_range 24) ;;
          match hourly_totals with
          | [] => Return None
          | _ => Return (Some hourly_totals)
          end).
  destruct ls as [|l t].
  - rewrite (foldM_Return _ (fun d _ => d)); [reflexivity|].
    intros h _ d. reflexivity.
  - change (fetch_prices float_of_str (payload_of (map series_of (l :: t))))
      with (hourly_totals <- foldM (hour_step float_of_str (map series_of (l :: t))) []
                               (py_range 24) ;;
            match hourly_totals with
            | [] => Return None
            | _ => Return (Some hourly_totals)
            end).
    rewrite (foldM_ext (hour_step float_of_str (map series_of (l :: t)))
               (hour_step float_of_str [series_of (List.concat (l :: t))]) (py_range 24) [] H).
    reflexivity.
Qed.

(** ** Sorting keys that are ordered among themselves *)

Lemma StronglySorted_rev {A : Type} (R : A -> A -> Prop) (l : list A) :
  StronglySorted R l -> StronglySorted (fun a b => R b a) (rev l).
Proof.
  induction 1 as [|x t Hs IH Hall]; simpl; [constructor|].
  apply StronglySorted_snoc; [exact IH|].
  rewrite Forall_forall in *. intros y Hy. apply Hall. apply in_rev. exact Hy.
Qed.

Lemma StronglySorted_on {A : Type} (P : A -> Prop) (R R' : A -> A -> Prop) (l : list A) :
  (forall x y, P x -> P y -> R x y -> R' x y) ->
  Forall P l -> StronglySorted R l -> StronglySorted R' l.
Proof.
  intros H HP Hs. induction Hs as [|x t Hs' IH Hall]; [constructor|].
  inversion HP as [|? ? Px Pt]; subst. constructor; [apply IH, Pt|].
  rewrite Forall_forall in *. intros y Hy. apply H; auto.
Qed.

Lemma StronglySorted_map {A B : Type} (f : A -> B) (R : B -> B -> Prop) (l : list A) :
  StronglySorted (fun a b => R (f a) (f b)) l -> StronglySorted R (map f l).
Proof.
  induction 1 as [|x t Hs IH Hall]; simpl; constructor; [exact IH|].
  rewrite Forall_map. exact Hall.
Qed.

Section SortedOn.
Context {A : Type} (le : A -> A -> bool) (P : A -> Prop).
Hypothesis le_total : forall x y, P x -> P y -> le x y = true \/ le y x = true.
Hypothesis le_trans :
  forall x y z, P x -> P y -> P z -> le x y = true -> le y z = true -> le x z = true.

Lemma insert_sorted_on (x : A) (l : list A) :
  P x -> Forall P l ->
  StronglySorted (fun a b => le a b = true) l ->
  StronglySorted (fun a b => le a b = true) (insert_sorted le x l).
Proof.
  intros Px HP Hs. induction Hs as [|y t Hs' IH Hall]; simpl.
  - repeat constructor.
  - inversion HP as [|? ? Py Pt]; subst.
    destruct (le x y) eqn:E.
    + constructor; [constructor; assumption|].
      constructor; [exact E|].
      rewrite Forall_forall in *. intros z Hz. apply (le_trans x y z); auto.
    + constructor; [apply IH, Pt|].
      assert (Hyx : le y x = true) by (destruct (le_total x y Px Py); congruence).
      rewrite Forall_forall in *. intros z Hz.
      apply (Permutation_in _ (insert_sorted_perm le x t)) in Hz.
      destruct Hz as [<-|Hz]; [exact Hyx|apply Hall, Hz].
Qed.

Lemma py_sorted_on (l : list A) :
  Forall P l -> StronglySorted (fun a b => le a b = true) (py_sorted le l).
Proof.
  induction 1 as [|x t Px Pt IH]; simpl; [constructor|].
  apply insert_sorted_on; [exact Px| |exact IH].
  rewrite Forall_forall in *. intros y Hy.
  apply Pt. apply (Permutation_in _ (py_sorted_perm le t)). exact Hy.
Qed.

Lemma py_sorted_rev_on (l : list A) :
  Forall P l -> StronglySorted (fun a b => le b a = true) (py_sorted_rev le l).
Proof.
  intros H. unfold py_sorted_rev.
  apply (StronglySorted_rev (fun a b => le a b = true)).
  apply py_sorted_on. apply Forall_rev, H.
Qed.
End SortedOn.

(** ** The order of the report's body *)

Lemma float_le_Vf (x y : float) :
  finite x = true -> finite y = true -> float_le x y = (Vf x <=? Vf y).
Proof.
  intros Fx Fy. unfold float_le. rewrite (ltb_Vf _ _ Fy Fx).
  destruct (Z.ltb_spec (Vf y) (Vf x)), (Z.leb_spec (Vf x) (Vf y)); simpl; try reflexivity; lia.
Qed.

Lemma key_le_Vf (prices : dict float) (a b : string) :
  priced prices a -> priced prices b ->
  key_le prices a b = (Vf (price_at prices a) <=? Vf (price_at prices b))
  /\ (price_at prices a <=? price_at prices b)%float
     = (Vf (price_at prices a) <=? Vf (price_at prices b)).
Proof.
  intros (pa & Ea & Fa) (pb & Eb & Fb). unfold key_le, price_at. rewrite Ea, Eb.
  split; [apply float_le_Vf; assumption|apply leb_Vf; assumption].
Qed.

Lemma keys_priced (prices : dict float) :
  hourly_price_map prices -> Forall (priced prices) (map fst prices).
Proof.
  intros (Hnd & _ & Hf). rewrite Forall_forall. intros k Hk.
  apply in_map_iff in Hk as ([k' p] & <- & Hin). exists p. split.
  - apply lookup_NoDup; assumption.
  - rewrite forallb_forall in Hf. specialize (Hf _ Hin).
    apply andb_true_iff in Hf. exact (proj1 Hf).
Qed.

Lemma keys_by_price (prices : dict float) :
  hourly_price_map prices ->
  StronglySorted (fun a b => (price_at prices a <=? price_at prices b)%float = true)
    (py_sorted (key_le prices) (map fst prices))
  /\ StronglySorted (fun a b => (price_at prices b <=? price_at prices a)%float = true)
       (py_sorted_rev (key_le prices) (map fst prices)).
Proof.
  intros Hmap. pose proof (keys_priced prices Hmap) as HP.
  assert (T : forall x y, priced prices x -> priced prices y ->
              key_le prices x y = true \/ key_le prices y x = true).
  { intros x y Px Py.
    rewrite (proj1 (key_le_Vf prices x y Px Py)), (proj1 (key_le_Vf prices y x Py Px)).
    rewrite !Z.leb_le. lia. }
  assert (Tr : forall x y z, priced prices x -> priced prices y -> priced prices z ->
               key_le prices x y = true -> key_le prices y z = true ->
               key_le prices x z = true).
  { intros x y z Px Py Pz.
    rewrite (proj1 (key_le_Vf prices x y Px Py)), (proj1 (key_le_Vf prices y z Py Pz)),
      (proj1 (key_le_Vf prices x z Px Pz)).
    rewrite !Z.leb_le. lia. }
  split.
  - apply (StronglySorted_on (priced prices) (fun a b => key_le prices a b = true)).
    + intros x y Px Py H.
      rewrite (proj2 (key_le_Vf prices x y Px Py)), <- (proj1 (key_le_Vf prices x y Px Py)).
      exact H.
    + rewrite Forall_forall in *. intros k Hk. apply HP.
      apply (Permutation_in _ (py_sorted_perm (key_le prices) (map fst prices))). exact Hk.
    + apply (py_sorted_on (key_le prices) (priced prices) T Tr). exact HP.
  - apply (StronglySorted_on (priced prices) (fun a b => key_le prices b a = true)).
    + intros x y Px Py H.
      rewrite (proj2 (key_le_Vf prices y x Py Px)), <- (proj1 (key_le_Vf prices y x Py Px)).
      exact H.
    + unfold py_sorted_rev. apply Forall_rev.
      rewrite Forall_forall in *. intros k Hk. apply HP. apply in_rev.
      apply (Permutation_in _ (py_sorted_perm (key_le prices) (rev (map fst prices)))).
      exact Hk.
    + apply (py_sorted_rev_on (key_le prices) (priced prices) T Tr). exact HP.
Qed.

Lemma keys_by_hour (keys : list string) :
  forallb is_hour_label keys = true -> NoDup keys ->
  StronglySorted Z.lt (map hour_of (py_sorted str_leb keys)).
Proof.
  intros Hl Hnd.
  set (P := fun k => is_hour_label k = true).
  assert (HP : Forall P keys) by (rewrite Forall_forall; rewrite forallb_forall in Hl; exact Hl).
  assert (HP' : Forall P (py_sorted str_leb keys)).
  { rewrite Forall_forall in *. intros k Hk. apply HP.
    apply (Permutation_in _ (py_sorted_perm str_leb keys)). exact Hk. }
  apply sorted_Z_strict.
  - apply StronglySorted_map.
    apply (StronglySorted_on P (fun a b => str_leb a b = true)); [|exact HP'|].
    + intros x y Px Py H. rewrite <- (labels_ordered x y Px Py). exact H.
    + apply (py_sorted_on str_leb P); [| |exact HP].
      * intros x y Px Py. rewrite (labels_ordered x y Px Py), (labels_ordered y x Py Px).
        rewrite !Z.leb_le. lia.
      * intros x y z Px Py Pz.
        rewrite (labels_ordered x y Px Py), (labels_ordered y z Py Pz),
          (labels_ordered x z Px Pz). rewrite !Z.leb_le. lia.
  - apply hour_labels_NoDup.
    + rewrite forallb_forall. rewrite Forall_forall in HP'. exact HP'.
    + apply (Permutation_NoDup (l := keys)); [symmetry; apply py_sorted_perm|exact Hnd].
Qed.

(** X4. The body of the single-day report has one line per hour of the
    map: by ascending price for "price", by descending price for
    "price_desc", and by ascending hour for no sort key and for any other
    one. *)
Theorem report_body_order
  (prices : dict float) (date_str : string) (sort_by : option string) :
  prices <> [] -> hourly_price_map prices ->
  exists head keys,
    output_lines prices date_str sort_by
    = Return (head ++ map (price_line_of prices) keys)
    /\ List.length head = 5%nat
    /\ Permutation keys (map fst prices)
    /\ (sort_by = Some "price"%string ->
        StronglySorted
          (fun a b => (price_at prices a <=? price_at prices b)%float = true) keys)
    /\ (sort_by = Some "price_desc"%string ->
        StronglySorted
          (fun a b => (price_at prices b <=? price_at prices a)%float = true) keys)
    /\ (sort_by <> Some "price"%string -> sort_by <> Some "price_desc"%string ->
        StronglySorted Z.lt (map hour_of keys)).
Proof.
  intros Hne Hmap.
  destruct (output_lines_spec prices date_str sort_by Hne Hmap)
    as (cheap_s & exp_s & spark & _ & _ & _ & Hout).
  eexists _, (sorted_keys prices sort_by).
  split; [exact Hout|]. split; [reflexivity|].
  split; [apply sorted_keys_perm|].
  destruct (keys_by_price prices Hmap) as [Hasc Hdesc].
  assert (Hhour : StronglySorted Z.lt (map hour_of (py_sorted str_leb (map fst prices)))).
  { destruct Hmap as (Hnd & Hl & _). apply keys_by_hour; [|exact Hnd].
    rewrite forallb_forall in *. intros k Hk.
    apply in_map_iff in Hk as (hp & <- & Hin). exact (Hl hp Hin). }
  split; [intros ->; exact Hasc|]. split; [intros ->; exact Hdesc|].
  intros N1 N2. unfold sorted_keys. destruct sort_by as [k|]; [|exact Hhour].
  destruct (String.eqb_spec k "price") as [->|_]; [congruence|].
  destruct (String.eqb_spec k "price_desc") as [->|_]; [congruence|exact Hhour].
Qed.

Lemma report_body_order_witness :
  exists head keys,
    output_lines [("00"%string, 2%float); ("01"%string, 1%float)] "D" (Some "price"%string)
    = Return (head ++ map (price_line_of [("00"%string, 2%float); ("01"%string, 1%float)]) keys)
    /\ Permutation keys (map fst [("00"%string, 2%float); ("01"%string, 1%float)]).
Proof.
  destruct (report_body_order [("00"%string, 2%float); ("01"%string, 1%float)] "D"%string
              (Some "price"%string))
    as (head & keys & Hout & _ & Hperm & _).
  - discriminate.
  - exact two_hour_map.
  - exists head, keys. split; [exact Hout|exact Hperm].
Defined.

(** ** A price next to itself *)

Lemma sub_self_zero (p : float) :
  finite p = true -> exists s, Prim2SF (p - p) = S754_zero s.
Proof.
  intros F.
  assert (R : rounds_to (Prim2SF (p - p)) (RND (Vf p - Vf p) 1)).
  { rewrite FloatAxioms.sub_spec. apply SFsub_RND; try apply Prim2SF_valid;
      try exact F. apply Z.le_refl. }
  rewrite Z.sub_diag, RND_zero in R by lia.
  pose proof (Prim2SF_valid (p - p)) as Hv.
  destruct (Prim2SF (p - p)) as [s|s| |s m e]; cbn [rounds_to] in R.
  - exists s. reflexivity.
  - destruct s; [contradiction|]. exfalso.
    assert (0 < 2 ^ 2098) by (apply Z.pow_pos_nonneg; lia). lia.
  - contradiction.
  - destruct s; [contradiction|]. destruct R as [He Hm]. exfalso.
    assert (0 < 2 ^ (e + 1074)) by (apply Z.pow_pos_nonneg; lia). nia.
Qed.

Lemma near_self (p : float) :
  finite p = true -> (abs (p - p) <? tol_price)%float = true.
Proof.
  intros F. destruct (sub_self_zero p F) as [s E].
  rewrite FloatAxioms.ltb_spec, abs_spec, E. reflexivity.
Qed.

Lemma unchanged_self (p : float) :
  finite p = true ->
  increased (p - p) = false /\ decreased (p - p) = false /\ stable (p - p) = true.
Proof.
  intros F. destruct (sub_self_zero p F) as [s E].
  assert (I : increased (p - p) = false).
  { unfold increased. rewrite FloatAxioms.ltb_spec, E. destruct s; reflexivity. }
  assert (D : (p - p <? - tol_diff)%float = false).
  { rewrite FloatAxioms.ltb_spec, E. destruct s; reflexivity. }
  unfold stable, decreased. rewrite I, D. auto.
Qed.

(** X5. In the report of a non-empty hourly price map the cheapest and
    the most expensive hours are never empty: an hour whose price is the
    minimum (maximum) is among them, and every listed hour is a key of the
    map. *)
Theorem cheapest_hours_nonempty (prices : dict float) :
  prices <> [] -> hourly_price_map prices ->
  let values := map snd prices in
  (exists h, In h (hours_near prices (py_min values))
             /\ lookup h prices = Some (py_min values))
  /\ (exists h, In h (hours_near prices (py_max values))
                /\ lookup h prices = Some (py_max values))
  /\ forall ref h, In h (hours_near prices ref) -> In h (map fst prices).
Proof.
  intros Hne (Hnd & Hl & Hf) values.
  assert (Fl : forallb finite values = true).
  { unfold values. rewrite forallb_forall in *. intros v Hv.
    apply in_map_iff in Hv as (hp & <- & Hin). specialize (Hf hp Hin).
    apply andb_true_iff in Hf. tauto. }
  assert (Hvne : values <> []) by (unfold values; destruct prices; [congruence|discriminate]).
  destruct (py_min_spec values Hvne Fl) as (Imin & _).
  destruct (py_max_spec values Hvne Fl) as (Imax & _).
  assert (W : forall ref, In ref values ->
              exists h, In h (hours_near prices ref) /\ lookup h prices = Some ref).
  { intros ref Hin. pose proof (finite_In _ _ Fl Hin) as Fr.
    apply in_map_iff in Hin as ([h p] & E & Hin). cbn [snd] in E. subst p.
    exists h. split.
    - apply hours_near_spec. exists ref. split; [exact Hin|apply near_self, Fr].
    - apply lookup_NoDup; assumption. }
  split; [apply W, Imin|]. split; [apply W, Imax|].
  intros ref h Hh. apply hours_near_spec in Hh as (p & Hin & _).
  apply (in_map fst _ _ Hin).
Qed.

Lemma cheapest_hours_nonempty_witness :
  exists h, In h (hours_near [("00"%string, 2%float); ("01"%string, 1%float)]
                    (py_min (map snd [("00"%string, 2%float); ("01"%string, 1%float)])))
            /\ lookup h [("00"%string, 2%float); ("01"%string, 1%float)]
               = Some (py_min (map snd [("00"%string, 2%float); ("01"%string, 1%float)])).
Proof.
  apply (cheapest_hours_nonempty [("00"%string, 2%float); ("01"%string, 1%float)]).
  - discriminate.
  - exact two_hour_map.
Defined.

(** ** A day compared with itself *)

Lemma count_none (f : float -> bool) (l : list float) :
  Forall (fun d => f d = false) l -> count f l = 0.
Proof.
  unfold count. induction 1 as [|d t Hd Ht IH]; [reflexivity|].
  cbn [filter]. rewrite Hd. exact IH.
Qed.

Lemma count_all (f : float -> bool) (l : list float) :
  Forall (fun d => f d = true) l -> count f l = Z.of_nat (List.length l).
Proof.
  unfold count. induction 1 as [|d t Hd Ht IH]; [reflexivity|].
  cbn [filter]. rewrite Hd. cbn [List.length]. lia.
Qed.

Lemma self_diffs (prices : dict float) (hours : list string) :
  forallb (fun hp => finite (snd hp)) prices = true ->
  Forall (fun h => exists p, lookup h prices = Some p) hours ->
  let ds := map (diff_at prices prices) hours in
  count increased ds = 0 /\ count decreased ds = 0
  /\ count stable ds = Z.of_nat (List.length hours)
  /\ Forall (fun d => (d =? 0)%float = true) ds.
Proof.
  intros Hf Hh ds.
  assert (U : Forall (fun d => increased d = false /\ decreased d = false
                               /\ stable d = true /\ (d =? 0)%float = true) ds).
  { unfold ds. rewrite Forall_map. eapply Forall_impl; [|exact Hh]. cbv beta.
    intros h (p & E). unfold diff_at, price_at. rewrite E.
    assert (F : finite p = true).
    { rewrite forallb_forall in Hf. apply (Hf (h, p)). apply lookup_In, E. }
    destruct (unchanged_self p F) as (I & D & S).
    split; [exact I|]. split; [exact D|]. split; [exact S|].
    destruct (sub_self_zero p F) as [s Es].
    rewrite FloatAxioms.eqb_spec, Es. destruct s; reflexivity. }
  split; [|split; [|split]].
  - apply count_none. eapply Forall_impl; [|exact U]. cbv beta. tauto.
  - apply count_none. eapply Forall_impl; [|exact U]. cbv beta. tauto.
  - rewrite count_all; [unfold ds; rewrite length_map; reflexivity|].
    eapply Forall_impl; [|exact U]. cbv beta. tauto.
  - eapply Forall_impl; [|exact U]. cbv beta. tauto.
Qed.

Lemma common_hours_priced (today yesterday : dict float) :
  Forall (fun h => exists p, lookup h today = Some p) (common_hours today yesterday).
Proof.
  rewrite Forall_forall. intros h Hh.
  apply common_hour_cases in Hh as (_ & pt & py & E & _). exists pt. exact E.
Qed.

(** X6. A map of finite prices compared with itself: no hour is counted
    as increased or decreased, every common hour is counted as stable, every
    diff is zero and every trend glyph is "●". *)
Theorem comparison_with_itself (prices : dict float) :
  forallb (fun hp => finite (snd hp)) prices = true ->
  let '(diffs, up, down, stable) := diff_scan prices prices in
  up = 0 /\ down = 0 /\ stable = Z.of_nat (List.length diffs)
  /\ Forall (fun d => (snd d =? 0)%float = true) diffs
  /\ Forall (fun d => trend_glyph (snd d) = "●"%string) diffs.
Proof.
  intros Hf. rewrite diff_scan_spec.
  destruct (self_diffs prices (common_hours prices prices) Hf (common_hours_priced _ _))
    as (I & D & S & Z0).
  rewrite length_map.
  split; [exact I|]. split; [exact D|]. split; [exact S|]. split.
  - rewrite Forall_map. rewrite Forall_map in Z0. exact Z0.
  - rewrite Forall_map. cbn [snd]. rewrite Forall_forall. intros h Hh.
    pose proof (common_hours_priced prices prices) as P.
    rewrite Forall_forall in P. destruct (P h Hh) as (p & E).
    unfold diff_at, price_at. rewrite E.
    assert (F : finite p = true).
    { rewrite forallb_forall in Hf. apply (Hf (h, p)). apply lookup_In, E. }
    destruct (unchanged_self p F) as (Ii & Dd & _).
    unfold trend_glyph. unfold increased in Ii. rewrite Ii.
    unfold decreased, increased in Dd. rewrite Ii in Dd. cbn [negb andb] in Dd.
    rewrite Dd. reflexivity.
Qed.

Lemma comparison_with_itself_witness :
  let '(diffs, up, down, stable) :=
    diff_scan [("00"%string, 2%float); ("01"%string, 1%float)]
      [("00"%string, 2%float); ("01"%string, 1%float)] in
  up = 0 /\ down = 0 /\ stable = Z.of_nat (List.length diffs).
Proof.
  pose proof (comparison_with_itself [("00"%string, 2%float); ("01"%string, 1%float)]
                eq_refl) as H.
  destruct (diff_scan [("00"%string, 2%float); ("01"%string, 1%float)]
              [("00"%string, 2%float); ("01"%string, 1%float)]) as [[[diffs up] down] stable].
  destruct H as (U & D & S & _). split; [exact U|split; [exact D|exact S]].
Defined.

(** ** The order of the comparison's rows *)

Lemma diff_le_Vf (today yesterday : dict float) (a b : string * float) :
  diff_entry today yesterday a -> diff_entry today yesterday b ->
  diff_le a b = (Vf (snd a) <=? Vf (snd b))
  /\ (diff_at today yesterday (fst a) <=? diff_at today yesterday (fst b))%float
     = (Vf (snd a) <=? Vf (snd b)).
Proof.
  intros [Fa Ea] [Fb Eb]. unfold diff_le. rewrite <- Ea, <- Eb.
  split; [apply float_le_Vf; assumption|apply leb_Vf; assumption].
Qed.

Lemma diffs_by_value (today yesterday : dict float) (diffs : list (string * float)) :
  Forall (diff_entry today yesterday) diffs ->
  StronglySorted
    (fun a b => (diff_at today yesterday a <=? diff_at today yesterday b)%float = true)
    (map fst (py_sorted diff_le diffs))
  /\ StronglySorted
       (fun a b => (diff_at today yesterday b <=? diff_at today yesterday a)%float = true)
       (map fst (py_sorted_rev diff_le diffs)).
Proof.
  intros HP. set (P := diff_entry today yesterday).
  assert (T : forall x y, P x -> P y -> diff_le x y = true \/ diff_le y x = true).
  { intros x y Px Py.
    rewrite (proj1 (diff_le_Vf today yesterday x y Px Py)),
      (proj1 (diff_le_Vf today yesterday y x Py Px)).
    rewrite !Z.leb_le. lia. }
  assert (Tr : forall x y z, P x -> P y -> P z ->
               diff_le x y = true -> diff_le y z = true -> diff_le x z = true).
  { intros x y z Px Py Pz.
    rewrite (proj1 (diff_le_Vf today yesterday x y Px Py)),
      (proj1 (diff_le_Vf today yesterday y z Py Pz)),
      (proj1 (diff_le_Vf today yesterday x z Px Pz)).
    rewrite !Z.leb_le. lia. }
  split; apply StronglySorted_map.
  - apply (StronglySorted_on P (fun a b => diff_le a b = true)).
    + intros x y Px Py H.
      rewrite (proj2 (diff_le_Vf today yesterday x y Px Py)),
        <- (proj1 (diff_le_Vf today yesterday x y Px Py)). exact H.
    + rewrite Forall_forall in *. intros k Hk. apply HP.
      apply (Permutation_in _ (py_sorted_perm diff_le diffs)). exact Hk.
    + apply (py_sorted_on diff_le P T Tr). exact HP.
  - apply (StronglySorted_on P (fun a b => diff_le b a = true)).
    + intros x y Px Py H.
      rewrite (proj2 (diff_le_Vf today yesterday y x Py Px)),
        <- (proj1 (diff_le_Vf today yesterday y x Py Px)). exact H.
    + unfold py_sorted_rev. apply Forall_rev.
      rewrite Forall_forall in *. intros k Hk. apply HP. apply in_rev.
      apply (Permutation_in _ (py_sorted_perm diff_le (rev diffs))). exact Hk.
    + apply (py_sorted_rev_on diff_le P T Tr). exact HP.
Qed.

Lemma rows_order_of (today yesterday : dict float) (hours : list string)
  (sort_by : option string) :
  forallb finite (map (diff_at today yesterday) hours) = true ->
  let order :=
    map fst (sort_diffs (map (fun h => (h, diff_at today yesterday h)) hours) sort_by) in
  Permutation order hours
  /\ (sort_by = Some "diff"%string ->
      StronglySorted
        (fun a b => (diff_at today yesterday a <=? diff_at today yesterday b)%float = true)
        order)
  /\ (sort_by = Some "diff_desc"%string ->
      StronglySorted
        (fun a b => (diff_at today yesterday b <=? diff_at today yesterday a)%float = true)
        order)
  /\ (sort_by <> Some "diff"%string -> sort_by <> Some "diff_desc"%string ->
      order = hours).
Proof.
  intros Fl order. subst order.
  set (diffs := map (fun h => (h, diff_at today yesterday h)) hours).
  assert (K : map fst diffs = hours) by apply diffs_keys.
  split.
  { apply Permutation_trans with (map fst diffs).
    - apply Permutation_map, sort_diffs_perm.
    - rewrite K. apply Permutation_refl. }
  assert (HP : Forall (diff_entry today yesterday) diffs).
  { rewrite forallb_forall in Fl.
    unfold diffs. rewrite Forall_map, Forall_forall. intros h Hh.
    split; [|reflexivity]. cbn [snd]. apply Fl. apply in_map. exact Hh. }
  destruct (diffs_by_value today yesterday diffs HP) as [Hasc Hdesc].
  split; [intros ->; exact Hasc|]. split; [intros ->; exact Hdesc|].
  intros N1 N2. unfold sort_diffs. destruct sort_by as [k|]; [|exact K].
  destruct (String.eqb_spec k "diff") as [->|_]; [congruence|].
  destruct (String.eqb_spec k "diff_desc") as [->|_]; [congruence|exact K].
Qed.

Lemma plottable_finite (values : list float) :
  plottable values = true -> forallb finite values = true.
Proof. unfold plottable. intros H. apply andb_true_iff in H. exact (proj1 H). Qed.

(** X7. The rows of the comparison, when the diff sparkline can be
    drawn: in ascending order of the diff for "diff", in descending order
    for "diff_desc", and in ascending hour order for no sort key and for
    any other one ("price" included). *)
Theorem comparison_rows_order
  (today : dict float) (today_date : string)
  (yesterday : dict float) (yesterday_date : string) (sort_by : option string) :
  plottable (map (diff_at today yesterday) (common_hours today yesterday)) = true ->
  exists summary order,
    comparison_lines today today_date yesterday yesterday_date sort_by
    = Return ([comparison_title today_date yesterday_date] ++ summary ++ [header_row]
              ++ map (expected_row today yesterday) order)
    /\ Permutation order (common_hours today yesterday)
    /\ (sort_by = Some "diff"%string ->
        StronglySorted
          (fun a b => (diff_at today yesterday a <=? diff_at today yesterday b)%float = true)
          order)
    /\ (sort_by = Some "diff_desc"%string ->
        StronglySorted
          (fun a b => (diff_at today yesterday b <=? diff_at today yesterday a)%float = true)
          order)
    /\ (sort_by <> Some "diff"%string -> sort_by <> Some "diff_desc"%string ->
        order = common_hours today yesterday).
Proof.
  intros Hp.
  destruct (comparison_lines_spec today today_date yesterday yesterday_date sort_by Hp)
    as (summary & Hlines & _).
  exists summary. eexists. split; [exact Hlines|].
  exact (rows_order_of today yesterday (common_hours today yesterday) sort_by
           (plottable_finite _ Hp)).
Qed.

Lemma comparison_rows_order_witness :
  exists summary order,
    comparison_lines [("00"%string, 2%float); ("05"%string, 2%float)] "T"
      [("00"%string, 0%float); ("05"%string, 2.5%float)] "Y" (Some "diff"%string)
    = Return ([comparison_title "T" "Y"] ++ summary ++ [header_row]
              ++ map (expected_row [("00"%string, 2%float); ("05"%string, 2%float)]
                        [("00"%string, 0%float); ("05"%string, 2.5%float)]) order)
    /\ Permutation order
         (common_hours [("00"%string, 2%float); ("05"%string, 2%float)]
            [("00"%string, 0%float); ("05"%string, 2.5%float)]).
Proof.
  destruct (comparison_rows_order
              [("00"%string, 2%float); ("05"%string, 2%float)] "T"%string
              [("00"%string, 0%float); ("05"%string, 2.5%float)] "Y"%string
              (Some "diff"%string))
    as (summary & order & Hl & Hperm & _).
  - vm_compute. reflexivity.
  - exists summary, order. split; [exact Hl|exact Hperm].
Defined.

(** ** The compressor on any labels *)

Lemma py_int_raises (s : string) (e : exn) : py_int s = Raise e -> e = ValueError.
Proof.
  unfold py_int.
  destruct (match Str.rstrip_space (Str.lstrip_space s) with
            | String "-" t => option_map Z.opp (Str.parse_digits 0 false t)
            | String "+" t => Str.parse_digits 0 false t
            | _ => Str.parse_digits 0 false (Str.rstrip_space (Str.lstrip_space s))
            end); [discriminate|]. intros [= <-]. reflexivity.
Qed.

Lemma mapM_py_int_cases (hours : list string) :
  (exists ints, mapM py_int hours = Return ints
                /\ forall h, In h hours -> exists z, py_int h = Return z)
  \/ (mapM py_int hours = Raise ValueError
      /\ exists h, In h hours /\ py_int h = Raise ValueError).
Proof.
  induction hours as [|s t IH]; simpl.
  - left. exists []. split; [reflexivity|]. intros h [].
  - destruct (py_int s) as [z|e] eqn:E; cbn [bind].
    + destruct IH as [(ints & -> & Hall)|(-> & h & Hin & Hr)]; cbn [bind].
      * left. eexists. split; [reflexivity|].
        intros h [<-|Hin]; [eauto|apply Hall, Hin].
      * right. split; [reflexivity|]. exists h. auto.
    + pose proof (py_int_raises s e E) as ->.
      right. split; [reflexivity|]. exists s. auto.
Qed.

Lemma format_hour_ranges_ints (hours : list string) (ints : list Z) :
  mapM py_int hours = Return ints ->
  _format_hour_ranges hours
  = Return (Str.join ", " (map render_run (hour_runs (py_sorted Z.leb ints)))).
Proof.
  intros E. destruct hours as [|s t].
  - simpl in E. injection E as <-. reflexivity.
  - unfold _format_hour_ranges. rewrite E. cbn [bind].
    assert (Hne : ints <> []).
    { intros ->. simpl in E. destruct (py_int s); [|discriminate E].
      cbn [bind] in E. destruct (mapM py_int t); discriminate E. }
    destruct (py_sorted Z.leb ints) as [|h0 rest] eqn:Es.
    + exfalso. apply Hne. apply Permutation_nil. rewrite <- Es.
      apply py_sorted_perm.
    + pose proof (ranges_loop_runs rest [] h0 h0) as L.
      destruct (ranges_loop rest [] h0 h0) as [[ranges s'] e'].
      rewrite L. reflexivity.
Qed.

(** X8. The compressor on labels of ASCII characters, each at most 4300
    long (where [py_int] is the interpreter's [int]): when [int] accepts
    every label it returns the runs of the sorted hours, a repeated hour as
    runs of its own; it raises [ValueError] exactly when [int] rejects a
    label, and never another exception. *)
Theorem format_hour_ranges_total :
  (_format_hour_ranges ["01"; "01"]%string = Return "01:00, 01:00"%string
   /\ _format_hour_ranges ["8"; " 7 "]%string = Return "07:00-09:00"%string
   /\ _format_hour_ranges ["24"]%string = Return "24:00"%string
   /\ _format_hour_ranges ["07"; "7h"]%string = Raise ValueError)
  /\ forall hours : list string,
      forallb ascii_label hours = true ->
      (forall ints,
         mapM py_int hours = Return ints ->
         _format_hour_ranges hours
         = Return (Str.join ", " (map render_run (hour_runs (py_sorted Z.leb ints)))))
      /\ ((exists h, In h hours /\ py_int h = Raise ValueError) <->
          _format_hour_ranges hours = Raise ValueError)
      /\ (forall e, _format_hour_ranges hours = Raise e -> e = ValueError).
Proof.
  split; [repeat (split; [vm_compute; reflexivity|]); vm_compute; reflexivity|].
  intros hours _.
  split; [apply format_hour_ranges_ints|].
  assert (R : forall e, _format_hour_ranges hours = Raise e ->
              e = ValueError /\ exists h, In h hours /\ py_int h = Raise ValueError).
  { intros e He.
    destruct (mapM_py_int_cases hours) as [(ints & E & _)|(E & Hex)].
    - rewrite (format_hour_ranges_ints hours ints E) in He. discriminate He.
    - destruct hours as [|s t]; [discriminate He|].
      unfold _format_hour_ranges in He. rewrite E in He. cbn [bind] in He.
      injection He as <-. auto. }
  split; [split|].
  - intros (h & Hin & Hr).
    destruct (mapM_py_int_cases hours) as [(ints & E & Hall)|(E & _)].
    + destruct (Hall h Hin) as [z Hz]. congruence.
    + destruct hours as [|s t]; [destruct Hin|].
      unfold _format_hour_ranges. rewrite E. reflexivity.
  - intros He. apply (R ValueError He).
  - intros e He. apply (R e He).
Qed.

Lemma format_hour_ranges_total_witness :
  forallb ascii_label ["8"; " 7 "; "8"; "23"]%string = true
  /\ _format_hour_ranges ["8"; " 7 "; "8"; "23"]%string
     = Return (Str.join ", " (map render_run (hour_runs (py_sorted Z.leb [8; 7; 8; 23])))).
Proof.
  split; [vm_compute; reflexivity|].
  exact (proj1 (proj2 format_hour_ranges_total ["8"; " 7 "; "8"; "23"]%string eq_refl)
           [8; 7; 8; 23] eq_refl).
Defined.

(** ** The counters of the comparison *)

Lemma count_partition (l : list float) :
  count increased l + count decreased l + count stable l = Z.of_nat (List.length l)
  /\ 0 <= count increased l /\ 0 <= count decreased l /\ 0 <= count stable l.
Proof.
  unfold count. split; [|lia].
  induction l as [|d t IH]; [reflexivity|].
  cbn [filter List.length]. unfold stable, decreased.
  destruct (increased d); cbn [negb andb]; [cbn [List.length]; unfold stable, decreased in IH; lia|].
  destruct (d <? - tol_diff)%float; cbn [negb andb List.length];
    unfold stable, decreased in IH; lia.
Qed.

(** X9. The counters of the comparison add up: every hour common to
    both maps is counted once, as increased, decreased or stable, and there
    are at most 24 of them. *)
Theorem comparison_counts (today yesterday : dict float) :
  let '(diffs, up, down, stable) := diff_scan today yesterday in
  up + down + stable = Z.of_nat (List.length diffs)
  /\ 0 <= up /\ 0 <= down /\ 0 <= stable
  /\ (List.length diffs <= 24)%nat
  /\ map fst diffs = common_hours today yesterday.
Proof.
  rewrite diff_scan_spec.
  set (hours := common_hours today yesterday).
  pose proof (count_partition (map (diff_at today yesterday) hours)) as (S & U & D & St).
  rewrite length_map in S. rewrite length_map.
  split; [exact S|]. split; [exact U|]. split; [exact D|]. split; [exact St|].
  split; [apply common_hours_length|].
  rewrite map_map. cbn [fst]. apply map_id.
Qed.

(** ** File names *)

Lemma append_inj_l (a x y : string) : a +++ x = a +++ y -> x = y.
Proof. induction a as [|c t IH]; simpl; [auto|]. intros [= H]. auto. Qed.

Lemma last_char_append (a b : string) :
  b <> EmptyString -> last_char (a +++ b) = last_char b.
Proof.
  intros Hb. induction a as [|c t IH]; [reflexivity|].
  simpl. rewrite IH. destruct (t +++ b) eqn:E; [|reflexivity].
  destruct t; simpl in E; [contradiction|discriminate].
Qed.

Lemma remove_char_absent (c : ascii) (s : string) :
  Str.contains c (remove_char c s) = false.
Proof.
  induction s as [|a t IH]; simpl; [reflexivity|].
  destruct (Ascii.eqb a c) eqn:E; [exact IH|]. simpl. rewrite E, IH. reflexivity.
Qed.

Lemma path_join_relative (a b : string) :
  starts_with_char "/" b = false ->
  exists sep, (sep = EmptyString \/ sep = "/"%string) /\ path_join a b = a +++ sep +++ b.
Proof.
  intros H. unfold path_join. rewrite H.
  destruct (last_char a) as [c|]; [destruct (Ascii.eqb c "/")|].
  - exists EmptyString. auto.
  - exists "/"%string. auto.
  - exists EmptyString. auto.
Qed.

Lemma digit_not_slash (a : ascii) : Str.is_digit a = true -> Ascii.eqb a "/" = false.
Proof.
  destruct a as [[] [] [] [] [] [] [] []]; vm_compute; congruence.
Qed.

Lemma is_date_digits (s : string) :
  is_date s = true ->
  exists y1 y2 y3 y4 m1 m2 d1 d2,
    s = String y1 (String y2 (String y3 (String y4 (String "/"
          (String m1 (String m2 (String "/" (String d1 (String d2 EmptyString)))))))))
    /\ remove_char "/" s
       = String y1 (String y2 (String y3 (String y4
           (String m1 (String m2 (String d1 (String d2 EmptyString))))))).
Proof.
  intros H.
  do 10 (destruct s as [|? s]; [discriminate H|]).
  destruct s; [|discriminate H].
  unfold is_date in H. cbn [forallb] in H.
  rewrite !andb_true_iff in H.
  destruct H as [[(D1 & D2 & D3 & D4 & D5 & D6 & D7 & D8 & _) S1] S2].
  apply Ascii.eqb_eq in S1, S2. subst.
  do 8 eexists. split; [reflexivity|].
  cbn [remove_char].
  rewrite !Ascii.eqb_refl.
  rewrite !digit_not_slash by assumption. reflexivity.
Qed.

Lemma last_char_some (s : string) (c : ascii) :
  last_char s = Some c <-> exists p, s = p +++ Str.ch c.
Proof.
  induction s as [|a t IH].
  - split; [discriminate|]. intros ([|b p] & E); discriminate E.
  - destruct t as [|b t'].
    + split.
      * intros [= <-]. exists EmptyString. reflexivity.
      * intros ([|x p] & E); [injection E as ->; reflexivity|].
        injection E as _ E. destruct p; discriminate E.
    + change (last_char (String a (String b t'))) with (last_char (String b t')).
      rewrite IH. split.
      * intros (p & E). exists (String a p). simpl. rewrite E. reflexivity.
      * intros ([|x p] & E); [discriminate E|].
        injection E as _ E. exists p. exact E.
Qed.

(** X10. The cache file and the saved report lie in the directory they
    are given, whatever the date string: the file name has no slash, and
    the path is the directory and the file name, with a separator between
    them exactly when the directory is not empty and does not end with
    one. *)
Theorem file_in_directory (dir date_str : string) :
  Str.contains "/" (cache_name date_str) = false
  /\ Str.contains "/" (output_name date_str) = false
  /\ (dir = EmptyString \/ (exists p, dir = p +++ "/") ->
      cache_file dir date_str = dir +++ cache_name date_str
      /\ output_path dir date_str = dir +++ output_name date_str)
  /\ (dir <> EmptyString -> (forall p, dir <> p +++ "/") ->
      cache_file dir date_str = dir +++ "/" +++ cache_name date_str
      /\ output_path dir date_str = dir +++ "/" +++ output_name date_str).
Proof.
  assert (N : forall ext, Str.contains "/" ext = false ->
              Str.contains "/" ("prices_" +++ remove_char "/" date_str +++ ext) = false).
  { intros ext He. rewrite !contains_append, remove_char_absent, He. reflexivity. }
  split; [apply N; reflexivity|]. split; [apply N; reflexivity|].
  unfold cache_file, output_path, path_join.
  change (starts_with_char "/" (cache_name date_str)) with false.
  change (starts_with_char "/" (output_name date_str)) with false.
  cbv iota.
  pose proof (last_char_some dir "/") as S.
  destruct (last_char dir) as [c|] eqn:L.
  - destruct (Ascii.eqb_spec c "/") as [->|Hc]; split.
    + intros _. split; reflexivity.
    + intros _ Hno. exfalso. destruct (proj1 S eq_refl) as [p E]. exact (Hno p E).
    + intros [->|Hp]; [discriminate L|].
      apply S in Hp. congruence.
    + intros _ _. split; reflexivity.
  - split.
    + intros _. split; reflexivity.
    + intros Hne _. exfalso. apply Hne. destruct dir as [|a t]; [reflexivity|].
      exfalso. clear - L. revert a L. induction t as [|b t IH]; intros a L; [discriminate L|].
      apply (IH b). exact L.
Qed.

Lemma last_char_name (stem ext : string) :
  ext <> EmptyString -> last_char ("prices_" +++ stem +++ ext) = last_char ext.
Proof.
  intros H. rewrite last_char_append; [apply last_char_append, H|].
  destruct stem; [destruct ext; [contradiction|discriminate]|discriminate].
Qed.

(** X11. Saving a report never overwrites a cache file: the path of a
    cache file differs from the path of a saved report, whatever the
    directories and dates. *)
Theorem cache_never_overwritten (cache_dir output_dir date1 date2 : string) :
  cache_file cache_dir date1 <> output_path output_dir date2.
Proof.
  intros E.
  destruct (path_join_relative cache_dir (cache_name date1) eq_refl) as (sep & _ & E1).
  destruct (path_join_relative output_dir (output_name date2) eq_refl) as (sep2 & _ & E2).
  assert (L : last_char (cache_file cache_dir date1)
              = last_char (output_path output_dir date2))
    by (rewrite E; reflexivity).
  unfold cache_file, output_path in L. rewrite E1, E2 in L.
  rewrite (last_char_append cache_dir), (last_char_append sep) in L;
    [|unfold cache_name; discriminate|unfold cache_name; destruct sep; discriminate].
  rewrite (last_char_append output_dir), (last_char_append sep2) in L;
    [|unfold output_name; discriminate|unfold output_name; destruct sep2; discriminate].
  unfold cache_name, output_name in L.
  rewrite !last_char_name in L by discriminate.
  discriminate L.
Qed.

Lemma path_join_inj (dir a b : string) :
  starts_with_char "/" a = false -> starts_with_char "/" b = false ->
  path_join dir a = path_join dir b -> a = b.
Proof.
  unfold path_join. intros -> ->.
  destruct (last_char dir) as [c|]; [destruct (Ascii.eqb c "/")|]; intros E;
    apply append_inj_l in E; try exact E.
  injection E. auto.
Qed.

(** X12. The cache file identifies the date when dates are written
    YYYY/MM/DD, as the program writes them; other date strings can share a
    cache file, as "2024/1/11" and "2024/11/1" do. *)
Theorem cache_file_of_date (cache_dir : string) :
  (forall date1 date2 : string,
     is_date date1 = true -> is_date date2 = true ->
     cache_file cache_dir date1 = cache_file cache_dir date2 -> date1 = date2)
  /\ cache_file cache_dir "2024/1/11" = cache_file cache_dir "2024/11/1".
Proof.
  split; [|reflexivity].
  intros date1 date2 H1 H2 E.
  apply path_join_inj in E; [|reflexivity|reflexivity].
  unfold cache_name in E. apply (append_inj_l "prices_") in E.
  destruct (is_date_digits date1 H1) as (y1 & y2 & y3 & y4 & m1 & m2 & d1 & d2 & -> & R1).
  destruct (is_date_digits date2 H2) as (z1 & z2 & z3 & z4 & n1 & n2 & e1 & e2 & -> & R2).
  rewrite R1, R2 in E. cbn [String.append] in E.
  injection E. intros. subst. reflexivity.
Qed.

Lemma cache_file_of_date_witness :
  is_date "2024/01/05" = true
  /\ (cache_file ".cache" "2024/01/05" = cache_file ".cache" "2024/01/05" ->
      "2024/01/05"%string = "2024/01/05"%string).
Proof.
  split; [reflexivity|].
  exact (proj1 (cache_file_of_date ".cache") "2024/01/05"%string "2024/01/05"%string
           eq_refl eq_refl).
Defined.


(** ** What trimming leaves *)

Lemma append_nonempty (a b : string) : b <> EmptyString -> a +++ b <> EmptyString.
Proof. destruct a; [auto|discriminate]. Qed.

Lemma rstrip_last (c : ascii) (s : string) : last_char (Str.rstrip c s) <> Some c.
Proof.
  induction s as [|a t IH]; simpl; [discriminate|].
  destruct (Str.rstrip c t) as [|b r] eqn:E.
  - destruct (Ascii.eqb_spec a c); simpl; congruence.
  - exact IH.
Qed.

Lemma all_last (p : ascii -> bool) (s : string) (a : ascii) :
  Str.all p s = true -> last_char s = Some a -> p a = true.
Proof.
  induction s as [|b t IH]; simpl; [discriminate|].
  rewrite andb_true_iff. intros [Hb Ht].
  destruct t; [intros [= <-]; exact Hb|apply IH, Ht].
Qed.

Lemma format_price_finite (x : float) (d : nat) :
  finite x = true ->
  format_price x d
  = sign_str (sign_bit x) +++ Str.of_nonneg (scaled_value x d / 10 ^ Z.of_nat d)
      +++ trim_fraction (Str.fixed_digits d (scaled_value x d mod 10 ^ Z.of_nat d)).
Proof.
  intros H.
  assert (E : format_fixed x d
              = sign_str (sign_bit x) +++ render_fixed (scaled_value x d) d).
  { unfold finite, is_fin, scaled_value, format_fixed, sign_bit in *.
    destruct (Prim2SF x); try discriminate; reflexivity. }
  unfold format_price. rewrite E. apply trim_render_fixed.
Qed.

(** X13. What [format_price] returns is never empty, never ends with
    the decimal point, and never ends with a zero after a decimal point. *)
Theorem format_price_trimmed (x : float) (d : nat) :
  format_price x d <> EmptyString
  /\ last_char (format_price x d) <> Some "."%char
  /\ (Str.contains "." (format_price x d) = true ->
      last_char (format_price x d) <> Some "0"%char).
Proof.
  destruct (finite x) eqn:F.
  - rewrite (format_price_finite x d F).
    set (ip := Str.of_nonneg _). set (frac := Str.fixed_digits _ _).
    assert (Hip : Str.all Str.is_digit ip = true) by apply of_nonneg_all.
    assert (Hne : ip <> EmptyString) by apply of_nonneg_nonempty.
    pose proof (rstrip_all Str.is_digit "0" frac (fixed_digits_all _ _)) as Hf.
    pose proof (rstrip_last "0" frac) as Hl.
    unfold trim_fraction. destruct (Str.rstrip "0" frac) as [|a f] eqn:E.
    + rewrite append_nil_r. split; [|split].
      * destruct (sign_str (sign_bit x)); [exact Hne|discriminate].
      * rewrite last_char_append by exact Hne. intros L.
        apply (all_last _ _ _ Hip) in L. vm_compute in L. discriminate L.
      * rewrite sign_digits_no_point by exact Hip. discriminate.
    + assert (L : last_char (sign_str (sign_bit x) +++ ip +++ String "." (String a f))
                  = last_char (String a f)).
      { rewrite last_char_append by (apply append_nonempty; discriminate).
        rewrite last_char_append by discriminate. reflexivity. }
      rewrite L. split; [|split].
      * destruct (sign_str (sign_bit x)); [destruct ip|]; discriminate.
      * intros L'. apply (all_last _ _ _ Hf) in L'. vm_compute in L'. discriminate L'.
      * intros _. exact Hl.
  - unfold finite, is_fin in F. unfold format_price, format_fixed.
    destruct (Prim2SF x) as [s|[|]| |s m e]; try discriminate F;
      simpl; repeat split; discriminate.
Qed.

(** ** The change column *)

(** X14. The "Change" column: for every diff that is not NaN the text
    is what [format_price] returns for the diff itself, so the branch that
    writes the minus sign never doubles it; for NaN it is "-nan". *)
Theorem signed_diff_format_price :
  (forall diff : float,
     (diff =? diff)%float = true ->
     signed_diff diff = format_price diff default_decimals)
  /\ signed_diff nan = "-nan"%string.
Proof.
  split; [|reflexivity].
  intros diff Hn. unfold signed_diff.
  destruct (0 <=? diff)%float eqn:L; [reflexivity|].
  rewrite FloatAxioms.leb_spec in L. rewrite FloatAxioms.eqb_spec in Hn.
  change (Prim2SF 0) with (S754_zero false) in L.
  assert (E : format_fixed diff default_decimals
              = String "-" (format_fixed (abs diff) default_decimals)).
  { unfold format_fixed. rewrite abs_spec.
    destruct (Prim2SF diff) as [s|s| |s m e]; try discriminate L; try discriminate Hn;
      destruct s; try discriminate L; reflexivity. }
  unfold format_price. rewrite E. simpl Str.contains.
  destruct (Str.contains "." (format_fixed (abs diff) default_decimals)); [|reflexivity].
  rewrite !rstrip_cons_ne by discriminate. reflexivity.
Qed.

Lemma signed_diff_format_price_witness :
  ((-1.5) =? (-1.5))%float = true
  /\ signed_diff (-1.5)%float = format_price (-1.5)%float default_decimals.
Proof.
  split; [reflexivity|].
  exact (proj1 signed_diff_format_price (-1.5)%float eq_refl).
Defined.

(** ** Widths *)

Lemma len_append (a b : string) : Str.len (a +++ b) = (Str.len a + Str.len b)%nat.
Proof.
  induction a as [|c t IH]; simpl; [reflexivity|].
  rewrite IH. destruct (_ && _)%bool; reflexivity.
Qed.

Lemma len_spaces (n : nat) : Str.len (Str.spaces n) = n.
Proof. induction n as [|n IH]; simpl; congruence. Qed.

Lemma len_ljust (w : nat) (s : string) : Str.len (Str.ljust w s) = Nat.max w (Str.len s).
Proof. unfold Str.ljust. rewrite len_append, len_spaces. lia. Qed.

(** X15. A table row pads each cell to its column width and never cuts
    one: its width is that of the six cells, each at least 11, 8, 8, 8, 8
    and 5, plus the five separators; the header row is 63 wide. *)
Theorem table_row_width (c1 c2 c3 c4 c5 c6 : string) :
  Str.len (table_row c1 c2 c3 c4 c5 c6)
  = (Nat.max 11 (Str.len c1) + Nat.max 8 (Str.len c2) + Nat.max 8 (Str.len c3)
     + Nat.max 8 (Str.len c4) + Nat.max 8 (Str.len c5) + Nat.max 5 (Str.len c6) + 15)%nat
  /\ Str.len header_row = 63%nat.
Proof.
  split; [|reflexivity].
  unfold table_row. cbn [Str.join].
  rewrite !len_append, !len_ljust.
  change (Str.len " | ") with 3%nat. lia.
Qed.

Lemma len_join_glyphs (ks : list Z) :
  Forall (fun k => 0 <= k <= 7) ks ->
  Str.len (Str.join EmptyString (map glyph ks)) = List.length ks.
Proof.
  induction 1 as [|k t Hk Ht IH]; [reflexivity|].
  assert (G : Str.len (glyph k) = 1%nat).
  { assert (C : k = 0 \/ k = 1 \/ k = 2 \/ k = 3 \/ k = 4 \/ k = 5 \/ k = 6 \/ k = 7) by lia.
    repeat (destruct C as [->|C]; [reflexivity|]). subst k. reflexivity. }
  cbn [map Str.join List.length]. destruct (map glyph t) as [|g gs] eqn:E.
  - destruct t; [|discriminate E]. rewrite G. reflexivity.
  - rewrite len_append. cbn [String.append]. rewrite IH, G. reflexivity.
Qed.

(** X16. A sparkline has one glyph per value that is not null, whatever
    [width] says: for finite values whose spread does not overflow, the
    result's length is the number of such values. *)
Theorem sparkline_length (prices : list (option float)) :
  plottable (somes prices) = true ->
  exists spark,
    _ascii_sparkline prices = Return spark
    /\ Str.len spark = List.length (somes prices).
Proof.
  intros Hp. destruct (sparkline_returns prices Hp) as [E Hl].
  eexists. split; [exact E|].
  rewrite len_join_glyphs by exact Hl. unfold levels_of. apply length_map.
Qed.

Lemma sparkline_length_witness :
  exists spark,
    _ascii_sparkline [Some 1%float; None; Some 2%float] = Return spark
    /\ Str.len spark = List.length (somes [Some 1%float; None; Some 2%float]).
Proof.
  apply (sparkline_length [Some 1%float; None; Some 2%float]).
  vm_compute. reflexivity.
Defined.

(** ** The printed text *)

Lemma report_of_lines (prices : dict float) (date_str : string) (sort_by : option string)
  (lines : list string) :
  prices <> [] -> output_lines prices date_str sort_by = Return lines ->
  format_prices_for_display prices date_str sort_by = Return (Str.join newline lines).
Proof.
  intros Hne E. unfold format_prices_for_display.
  destruct prices; [congruence|]. rewrite E. reflexivity.
Qed.

Lemma comparison_of_lines (today : dict float) (today_date : string)
  (yesterday : dict float) (yesterday_date : string) (sort_by : option string)
  (lines : list string) :
  today <> [] -> yesterday <> [] ->
  comparison_lines today today_date yesterday yesterday_date sort_by = Return lines ->
  format_comparison_for_display today today_date yesterday yesterday_date sort_by
  = Return (Str.join newline lines).
Proof.
  intros Ht Hy E. unfold format_comparison_for_display.
  destruct today; [congruence|]. destruct yesterday; [congruence|].
  rewrite E. reflexivity.
Qed.

(** X17. The text the program prints, when each call of [fetch_prices]
    returns [None] or a map of prices or raises. The program takes
    [sys.exit(1)] exactly when today's call returns [None] or an empty map.
    An exception of a call or of a formatter ends the program before
    anything is printed. Whatever is printed is the single-day report of
    today's map, alone or followed by two newlines and the comparison with
    yesterday's non-empty map; for an hourly price map it is the report
    alone when no comparison is asked for or yesterday's prices are [None]
    or empty, and the report with the comparison otherwise. *)
Theorem main_output_spec (fetch : string -> result (option (dict float)))
  (today_str yesterday_str : string) (compare_yesterday : bool)
  (sort_by : option string) :
  (main_output fetch today_str yesterday_str compare_yesterday sort_by = Return None
   <-> exists r, fetch today_str = Return r /\ truthy r = false)
  /\ (forall e, fetch today_str = Raise e ->
        main_output fetch today_str yesterday_str compare_yesterday sort_by = Raise e)
  /\ (forall out,
        main_output fetch today_str yesterday_str compare_yesterday sort_by
        = Return (Some out) ->
        exists today report,
          fetch today_str = Return (Some today) /\ today <> []
          /\ format_prices_for_display today today_str sort_by = Return report
          /\ (out = report
              \/ exists yesterday comp,
                   compare_yesterday = true
                   /\ fetch yesterday_str = Return (Some yesterday) /\ yesterday <> []
                   /\ format_comparison_for_display today today_str
                        yesterday yesterday_str sort_by = Return comp
                   /\ out = report +++ newline +++ newline +++ comp))
  /\ (forall today : dict float,
        fetch today_str = Return (Some today) -> today <> [] -> hourly_price_map today ->
        exists lines,
          output_lines today today_str sort_by = Return lines
          /\ (compare_yesterday = false ->
              main_output fetch today_str yesterday_str compare_yesterday sort_by
              = Return (Some (Str.join newline lines)))
          /\ (compare_yesterday = true ->
              forall e, fetch yesterday_str = Raise e ->
              main_output fetch today_str yesterday_str compare_yesterday sort_by = Raise e)
          /\ (compare_yesterday = true ->
              forall r, fetch yesterday_str = Return r -> truthy r = false ->
              main_output fetch today_str yesterday_str compare_yesterday sort_by
              = Return (Some (Str.join newline lines)))
          /\ forall yesterday : dict float,
              compare_yesterday = true ->
              fetch yesterday_str = Return (Some yesterday) -> yesterday <> [] ->
              plottable (map (diff_at today yesterday) (common_hours today yesterday))
              = true ->
              exists clines,
                comparison_lines today today_str yesterday yesterday_str sort_by
                = Return clines
                /\ main_output fetch today_str yesterday_str compare_yesterday sort_by
                   = Return (Some (Str.join newline lines +++ newline +++ newline
                                   +++ Str.join newline clines)))
  /\ main_output
       (fun _ => Return (Some [("00"%string, (-1e308)%float); ("01"%string, 1e308%float)]))
       "D" "Y" false None
     = Raise ValueError.
Proof.
  split; [|split; [|split; [|split]]].
  - unfold main_output.
    destruct (fetch today_str) as [[[|e t]|]|x]; cbn [bind].
    + split; [intros _; exists (Some []); split; reflexivity|reflexivity].
    + split; [|intros (r & E & T); injection E as <-; discriminate T].
      intros H. exfalso.
      destruct (if compare_yesterday then fetch yesterday_str else Return None)
        as [yp|x]; cbn [bind] in H; [|discriminate H].
      destruct (format_prices_for_display (e :: t) today_str sort_by) as [report|x];
        cbn [bind] in H; [|discriminate H].
      destruct compare_yesterday; [|discriminate H].
      destruct yp as [[|e' t']|]; try discriminate H.
      destruct (format_comparison_for_display (e :: t) today_str (e' :: t') yesterday_str
                  sort_by); cbn [bind] in H; discriminate H.
    + split; [intros _; exists None; split; reflexivity|reflexivity].
    + split; [discriminate|intros (r & E & _); discriminate E].
  - intros e E. unfold main_output. rewrite E. reflexivity.
  - intros out H. unfold main_output in H.
    destruct (fetch today_str) as [[[|e t]|]|x]; cbn [bind] in H; try discriminate H.
    exists (e :: t).
    destruct (if compare_yesterday then fetch yesterday_str else Return None)
      as [yp|x] eqn:Ey; cbn [bind] in H; [|discriminate H].
    destruct (format_prices_for_display (e :: t) today_str sort_by) as [report|x];
      cbn [bind] in H; [|discriminate H].
    exists report. split; [reflexivity|]. split; [discriminate|]. split; [reflexivity|].
    destruct compare_yesterday; [|left; congruence].
    destruct yp as [[|e' t']|]; [left; congruence| |left; congruence].
    destruct (format_comparison_for_display (e :: t) today_str (e' :: t') yesterday_str
                sort_by) as [comp|x] eqn:Ec; cbn [bind] in H; [|discriminate H].
    right. exists (e' :: t'), comp.
    split; [reflexivity|]. split; [exact Ey|]. split; [discriminate|].
    split; [exact Ec|]. injection H as <-. reflexivity.
  - intros today Ef Hne Hmap.
    destruct (output_lines_spec today today_str sort_by Hne Hmap)
      as (cheap_s & exp_s & spark & _ & _ & _ & Hout).
    eexists. split; [exact Hout|].
    pose proof (report_of_lines today today_str sort_by _ Hne Hout) as Hrep.
    unfold main_output. rewrite Ef. cbn [bind].
    destruct today as [|e t]; [congruence|].
    split; [|split; [|split]].
    + intros ->. cbn [bind]. rewrite Hrep. reflexivity.
    + intros -> x Ey. rewrite Ey. reflexivity.
    + intros -> r Ey T. rewrite Ey. cbn [bind]. rewrite Hrep. cbn [bind].
      destruct r as [[|e' t']|]; [reflexivity|discriminate T|reflexivity].
    + intros yesterday -> Ey Hyne Hp. rewrite Ey. cbn [bind]. rewrite Hrep. cbn [bind].
      destruct (comparison_lines_spec (e :: t) today_str yesterday yesterday_str sort_by Hp)
        as (summary & Hlines & _).
      eexists. split; [exact Hlines|].
      pose proof (comparison_of_lines (e :: t) today_str yesterday yesterday_str sort_by _
                    Hne Hyne Hlines) as Hcomp.
      destruct yesterday as [|e' t']; [congruence|].
      rewrite Hcomp. reflexivity.
  - vm_compute. reflexivity.
Qed.

Lemma main_output_spec_witness :
  exists lines clines,
    output_lines day_prices "T" (Some "diff"%string) = Return lines
    /\ comparison_lines day_prices "T" eve_prices "Y" (Some "diff"%string) = Return clines
    /\ main_output
         (fun d => Return (Some (if String.eqb d "T" then day_prices else eve_prices)))
         "T" "Y" true (Some "diff"%string)
       = Return (Some (Str.join newline lines +++ newline +++ newline
                       +++ Str.join newline clines)).
Proof.
  assert (Hmap : hourly_price_map day_prices).
  { split; [|split; reflexivity]. repeat constructor; simpl; intuition discriminate. }
  destruct (proj1 (proj2 (proj2 (proj2
              (main_output_spec
                 (fun d => Return (Some (if String.eqb d "T" then day_prices else eve_prices)))
                 "T"%string "Y"%string true (Some "diff"%string)))))
              day_prices eq_refl ltac:(discriminate) Hmap)
    as (lines & Hout & _ & _ & _ & Hcmp).
  destruct (Hcmp eve_prices eq_refl eq_refl ltac:(discriminate) ltac:(vm_compute; reflexivity))
    as (clines & Hcl & Hmain).
  exists lines, clines. split; [exact Hout|]. split; [exact Hcl|exact Hmain].
Defined.
